(** * The AF_PACKET acquisition module of libdaq (modules/daq_afpacket.c)

    A shallow embedding of the capture engine: ring negotiation
    ([calculate_layout]), the user-side descriptor ring ([set_up_ring]),
    the interface-string parser and buffer split of
    [afpacket_daq_initialize], and the receive / finalize path
    ([afpacket_daq_msg_receive], [afpacket_daq_msg_finalize]) with the
    transmit helper they share.

    Conventions.
    - A C [unsigned int] is a [Z] in [0, 2^32); every arithmetic step that
      can wrap is written with [u32].  64-bit counters use [u64].
    - A pointer into an array is the index of the element; a pointer to a
      heap structure is the allocation number of that structure; [None]
      is the null pointer.
    - The mapped packet buffer of an instance is a function from the
      address of a frame to the frame: its [tpacket2_hdr] and its bytes,
      the latter by offset from the start of the frame.
    - What the kernel and the C library decide (results of [poll] and
      [send], interface indexes, the environment) is part of the state or
      an explicit argument.
    - Constants and macros of headers that are not part of this source
      file are the fields of the class [Headers]. *)

From Stdlib Require Import ZArith String Ascii List Bool Lia.
From stdpp Require Import base tactics option list.
Import ListNotations.
Local Open Scope Z_scope.

(** ** Constants of the headers the module is compiled against *)

Class Headers := {
  IFNAMSIZ : Z;                         (* net/if.h *)
  ETH_HLEN : Z;                         (* linux/if_ether.h *)
  TPACKET_ALIGNMENT : Z;                (* linux/if_packet.h *)
  SIZEOF_SOCKADDR_LL : Z;               (* sizeof(struct sockaddr_ll) *)
  SIZEOF_TPACKET2_HDR : Z;              (* sizeof(struct tpacket2_hdr) *)
  TPACKET_V2 : Z;
  TP_STATUS_KERNEL : Z;
  TP_STATUS_USER : Z;
  TP_STATUS_AVAILABLE : Z;
  TP_STATUS_SEND_REQUEST : Z;
  TP_STATUS_VLAN_VALID : option Z;      (* None: the macro is not defined *)
  TP_STATUS_VLAN_TPID_VALID : option Z; (* None: the macro is not defined *)
  POLLHUP : Z;                          (* sys/poll.h *)
  POLLRDHUP : Z;
  POLLERR : Z;
  POLLNVAL : Z;
  PACKET_FANOUT : bool;                 (* is the macro defined? *)
  PACKET_FANOUT_QM : bool;
  DAQ_PKTHDR_UNKNOWN : Z;               (* daq_common.h *)
  getpagesize : Z                       (* the value getpagesize() returns *)
}.

(** Modelled from the spec: the two Ethernet addresses that precede the
    VLAN tag take 12 bytes, so one address takes 6 (ETH_ALEN of
    linux/if_ether.h, which is not part of the source file). *)
Definition ETH_ALEN : Z := 6.

(** Modelled from the spec: the default TPID of a reconstructed tag is
    0x8100 (ETH_P_8021Q of linux/if_ether.h). *)
Definition ETH_P_8021Q : Z := 0x8100.

Definition AF_PACKET_DEFAULT_BUFFER_SIZE : Z := 128.
Definition AF_PACKET_MAX_INTERFACES : Z := 32.
Definition VLAN_TAG_LEN : Z := 4.
Definition DEFAULT_ORDER : Z := 3.

(** [static const int vlan_offset = 2 * ETH_ALEN;] *)
Definition vlan_offset : Z := 2 * ETH_ALEN.

(** ** Machine integers *)

Definition u32 (x : Z) : Z := x mod 2 ^ 32.
Definition u64 (x : Z) : Z := x mod 2 ^ 64.

(** ** Return codes, modes, states and verdicts of the DAQ API

    The DAQ_* return codes are negative integers and DAQ_SUCCESS is 0 in
    daq_common.h; the module only ever compares them, so they are an
    enumeration here. *)

Inductive daq_rc :=
  | DAQ_SUCCESS
  | DAQ_ERROR
  | DAQ_ERROR_NOMEM
  | DAQ_ERROR_NODEV
  | DAQ_ERROR_AGAIN.

Inductive DAQ_Mode := DAQ_MODE_NONE | DAQ_MODE_PASSIVE | DAQ_MODE_INLINE | DAQ_MODE_READ_FILE.

Inductive DAQ_State :=
  | DAQ_STATE_UNINITIALIZED
  | DAQ_STATE_INITIALIZED
  | DAQ_STATE_STARTED
  | DAQ_STATE_STOPPED.

(** The verdicts, in the order the comments of [verdict_translation_table]
    give to its seven slots. *)
Inductive DAQ_Verdict :=
  | DAQ_VERDICT_PASS
  | DAQ_VERDICT_BLOCK
  | DAQ_VERDICT_REPLACE
  | DAQ_VERDICT_WHITELIST
  | DAQ_VERDICT_BLACKLIST
  | DAQ_VERDICT_IGNORE
  | DAQ_VERDICT_RETRY.

Definition MAX_DAQ_VERDICT : Z := 7.

(** The value of an enumerator, and the enumerator of a value below
    MAX_DAQ_VERDICT (the host passes the verdict as a C enum, that is an
    unsigned integer). *)
Definition verdict_value (v : DAQ_Verdict) : Z :=
  match v with
  | DAQ_VERDICT_PASS => 0
  | DAQ_VERDICT_BLOCK => 1
  | DAQ_VERDICT_REPLACE => 2
  | DAQ_VERDICT_WHITELIST => 3
  | DAQ_VERDICT_BLACKLIST => 4
  | DAQ_VERDICT_IGNORE => 5
  | DAQ_VERDICT_RETRY => 6
  end.

(** ** What a call can do besides returning *)

Inductive outcome (A : Type) :=
  | Ret (a : A)    (* the call returns *)
  | Fault          (* undefined behaviour: null or out-of-bounds access, division by zero *)
  | Hang           (* the call never returns *)
  | OutOfFuel.     (* the model was given too few loop iterations *)
Arguments Ret {A} a.
Arguments Fault {A}.
Arguments Hang {A}.
Arguments OutOfFuel {A}.

Definition bind {A B} (o : outcome A) (k : A -> outcome B) : outcome B :=
  match o with
  | Ret a => k a
  | Fault => Fault
  | Hang => Hang
  | OutOfFuel => OutOfFuel
  end.

(** A dereference: [Fault] on the null pointer. *)
Definition deref {A} (p : option A) : outcome A :=
  match p with Some a => Ret a | None => Fault end.

(** ** Data model *)

(** [struct tpacket_req]: the layout of a kernel ring. *)
Record tpacket_req := {
  tp_block_size : Z;
  tp_block_nr : Z;
  tp_frame_size : Z;
  tp_frame_nr : Z
}.

(** [struct tpacket2_hdr], the fields the module reads or writes. *)
Record tpacket2_hdr := {
  tp_status : Z;
  tp_len : Z;
  tp_snaplen : Z;
  tp_mac : Z;
  tp_sec : Z;
  tp_nsec : Z;
  tp_vlan_tci : Z;
  tp_vlan_tpid : Z
}.

(** A frame of the mapped buffer: the [tpacket2_hdr] at its start, and
    its bytes by offset from the start of the frame.  The header is kept
    apart from the bytes, and the bytes of one frame apart from those of
    the next.  This is the memory the code works on as long as what the
    module writes to a frame lies past the header, from offset
    [SIZEOF_TPACKET2_HDR] on, and inside the frame, below the
    [tp_frame_size] of its ring.  The kernel lays its frames out so (the
    link-layer header at [tp_mac], past the tpacket header, the socket
    address and the VLAN reservation), but the module does not check it:
    the statements below that say where written bytes lie carry these
    bounds as hypotheses. *)
Record Frame := {
  hdr : tpacket2_hdr;
  bytes : Z -> Z
}.

(** [AFPacketEntry]: [next] points into the same entries array, [raw] is
    the address of the frame ([union thdr]). *)
Record AFPacketEntry := {
  next : option nat;
  raw : Z
}.

(** [AFPacketRing]. *)
Record AFPacketRing := {
  layout : tpacket_req;
  ring_size : Z;
  start : Z;
  entries : list AFPacketEntry;
  cursor : option nat
}.

(** [AFPacketInstance].  [self] is the address of the structure; the
    [next] link of the C structure is the order of the list that holds
    the instances.  [mem] is the region [buffer] points to. *)
Record AFPacketInstance := {
  self : nat;
  fd : Z;
  tp_version : Z;
  tp_hdrlen : Z;
  rx_ring : AFPacketRing;
  tx_ring : AFPacketRing;
  name : string;
  index : Z;
  peer : option nat;
  sll_protocol : Z;
  mem : Z -> Frame
}.

Inductive fanout_type :=
  | PACKET_FANOUT_HASH
  | PACKET_FANOUT_LB
  | PACKET_FANOUT_CPU
  | PACKET_FANOUT_ROLLOVER
  | PACKET_FANOUT_RND
  | PACKET_FANOUT_QM_TYPE.

(** [AFPacketFanoutCfg]; the two flag bits are kept as booleans. *)
Record AFPacketFanoutCfg := {
  fanout_flag_rollover : bool;
  fanout_flag_defrag : bool;
  fanout_cfg_type : option fanout_type;
  fanout_enabled : bool
}.

(** [DAQ_Stats_t], the counters the module touches; all are uint64_t. *)
Record DAQ_Stats := {
  hw_packets_received : Z;
  hw_packets_dropped : Z;
  packets_filtered : Z;
  packets_injected : Z;
  verdicts : list Z
}.

(** [DAQ_PktHdr_t]. *)
Record DAQ_PktHdr := {
  ts_sec : Z;
  ts_usec : Z;
  caplen : Z;
  pktlen : Z;
  ingress_index : Z;
  egress_index : Z;
  ingress_group : Z;
  egress_group : Z;
  flags : Z;
  opaque : Z;
  priv_ptr : Z;
  address_space_id : Z
}.

(** A pointer to packet bytes inside a mapped buffer: the instance, the
    address of the frame and the offset from the start of the frame. *)
Record data_ptr := {
  dp_inst : nat;
  dp_frame : Z;
  dp_off : Z
}.

(** [AFPacketPktDesc].  [desc_entry] points to an entry of the RX ring of
    an instance: the instance and the index of the entry. *)
Record AFPacketPktDesc := {
  desc_instance : option nat;
  desc_entry : option (nat * nat);
  desc_data : option data_ptr;
  desc_length : Z;
  pkthdr : DAQ_PktHdr
}.

(** Pointers to packet descriptors and to messages, as the host can hold
    them: null, the one inside the context, or one elsewhere. *)
Inductive desc_ref :=
  | DescNull
  | DescCurr                 (* &afpc->curr_packet *)
  | DescOther (addr : nat).

Inductive msg_type := DAQ_MSG_TYPE_NONE | DAQ_MSG_TYPE_PACKET.

(** [DAQ_Msg_t]. *)
Record DAQ_Msg := {
  type : msg_type;
  msg : desc_ref
}.

Inductive msg_ref :=
  | MsgNull
  | MsgCurr                  (* &afpc->curr_msg *)
  | MsgOther (m : DAQ_Msg).  (* a DAQ_Msg_t elsewhere, with its contents *)

(** The contents of an error buffer: the format of the last message
    written and its arguments. *)
Inductive errmsg :=
  | NoError
  | Err_invalid_layout (block_size frame_size : Z) (device : string)
  | Err_no_ring_entries (device : string)
  | Err_poll_failed
  | Err_poll_hangup
  | Err_poll_error
  | Err_poll_invalid
  | Err_corrupted_frame (tp_mac tp_snaplen frame_size : Z)
  | Err_invalid_interface_specification (device : string)
  | Err_interface_name_too_long (len : Z)
  | Err_too_many_interfaces
  | Err_create_instance (device : string)
  | Err_create_bridge (name1 name2 : string)
  | Err_requires_argument (key : string)
  | Err_unrecognized_argument (key value : string)
  | Err_no_inject_instance
  | Err_tx_ring_full
  | Err_sending_packet.

(** A compiled filter: what [sfbpf_filter] returns for the program on
    the packet bytes (by offset from the data pointer), the wire length
    and the capture length.  [None] is a null [bf_insns]. *)
Definition sfbpf_program := option ((Z -> Z) -> Z -> Z -> Z).

(** [AFPacket_Context_t]. *)
Record AFPacket_Context := {
  device : string;
  snaplen : Z;
  timeout : Z;
  afpc_size : Z;
  debug : Z;
  instances : list AFPacketInstance;
  intf_count : Z;
  fcode : sfbpf_program;
  break_loop : Z;
  stats : DAQ_Stats;
  state : DAQ_State;
  errbuf : errmsg;
  fanout_cfg : AFPacketFanoutCfg;
  curr_instance : option nat;
  curr_msg : DAQ_Msg;
  curr_packet : AFPacketPktDesc
}.

(** ** The operating system as the module sees it *)

(** What one call of [poll] does. *)
Inductive poll_outcome :=
  | PollInterrupted (breakloop_called : bool)
      (* -1 with errno EINTR: a signal handler ran, and it did or did not
         call [afpacket_daq_breakloop] *)
  | PollFailed                    (* -1 with another errno *)
  | PollTimeout                   (* 0 *)
  | PollReady (revents : list Z). (* a positive count, and the revents of each fd *)

Inductive syscall :=
  | Sys_send (fd : Z)
  | Sys_sendto (fd len proto : Z).

(** The context together with what the system will answer: the outcomes
    of the coming [poll] calls (after the last one, [poll] blocks for
    ever), the success of the coming [send] and [sendto] calls (after the
    last one, they succeed), and the calls made so far, latest first. *)
Record Machine := {
  afpc : AFPacket_Context;
  polls : list poll_outcome;
  sends : list bool;
  trace : list syscall
}.

(** The host's configuration and the process environment of
    [afpacket_daq_initialize]. *)
Record DAQ_ModuleConfig := {
  cfg_input : string;
  cfg_mode : DAQ_Mode;
  cfg_snaplen : Z;
  cfg_timeout : Z;
  cfg_variables : list (string * option string)
}.

Record InitEnv := {
  env_AF_PACKET_BUFFER_SIZE : option string; (* getenv("AF_PACKET_BUFFER_SIZE") *)
  env_strtoul : string -> Z;                 (* strtoul(s, NULL, 10) *)
  env_socket : nat -> option Z;              (* the fd of the k-th socket(), if it opens *)
  env_ifindex : string -> option Z;          (* SIOCGIFINDEX, if the device exists *)
  env_ETH_P_ALL : Z
}.

(** ** Field updates *)

Definition set_status (st : Z) (f : Frame) : Frame :=
  {| hdr := {| tp_status := st; tp_len := tp_len (hdr f); tp_snaplen := tp_snaplen (hdr f);
               tp_mac := tp_mac (hdr f); tp_sec := tp_sec (hdr f); tp_nsec := tp_nsec (hdr f);
               tp_vlan_tci := tp_vlan_tci (hdr f); tp_vlan_tpid := tp_vlan_tpid (hdr f) |};
     bytes := bytes f |}.

Definition set_len (len : Z) (f : Frame) : Frame :=
  {| hdr := {| tp_status := tp_status (hdr f); tp_len := len; tp_snaplen := tp_snaplen (hdr f);
               tp_mac := tp_mac (hdr f); tp_sec := tp_sec (hdr f); tp_nsec := tp_nsec (hdr f);
               tp_vlan_tci := tp_vlan_tci (hdr f); tp_vlan_tpid := tp_vlan_tpid (hdr f) |};
     bytes := bytes f |}.

Definition set_bytes (b : Z -> Z) (f : Frame) : Frame :=
  {| hdr := hdr f; bytes := b |}.

Definition set_cursor (c : option nat) (r : AFPacketRing) : AFPacketRing :=
  {| layout := layout r; ring_size := ring_size r; start := start r;
     entries := entries r; cursor := c |}.

Definition set_rx_ring (r : AFPacketRing) (i : AFPacketInstance) : AFPacketInstance :=
  {| self := self i; fd := fd i; tp_version := tp_version i; tp_hdrlen := tp_hdrlen i;
     rx_ring := r; tx_ring := tx_ring i; name := name i; index := index i;
     peer := peer i; sll_protocol := sll_protocol i; mem := mem i |}.

Definition set_tx_ring (r : AFPacketRing) (i : AFPacketInstance) : AFPacketInstance :=
  {| self := self i; fd := fd i; tp_version := tp_version i; tp_hdrlen := tp_hdrlen i;
     rx_ring := rx_ring i; tx_ring := r; name := name i; index := index i;
     peer := peer i; sll_protocol := sll_protocol i; mem := mem i |}.

Definition set_peer (p : option nat) (i : AFPacketInstance) : AFPacketInstance :=
  {| self := self i; fd := fd i; tp_version := tp_version i; tp_hdrlen := tp_hdrlen i;
     rx_ring := rx_ring i; tx_ring := tx_ring i; name := name i; index := index i;
     peer := p; sll_protocol := sll_protocol i; mem := mem i |}.

Definition set_sll_protocol (p : Z) (i : AFPacketInstance) : AFPacketInstance :=
  {| self := self i; fd := fd i; tp_version := tp_version i; tp_hdrlen := tp_hdrlen i;
     rx_ring := rx_ring i; tx_ring := tx_ring i; name := name i; index := index i;
     peer := peer i; sll_protocol := p; mem := mem i |}.

(** A store to the frame at address [a] of the mapped buffer. *)
Definition store_frame (a : Z) (f : Frame) (i : AFPacketInstance) : AFPacketInstance :=
  {| self := self i; fd := fd i; tp_version := tp_version i; tp_hdrlen := tp_hdrlen i;
     rx_ring := rx_ring i; tx_ring := tx_ring i; name := name i; index := index i;
     peer := peer i; sll_protocol := sll_protocol i;
     mem := fun a' => if a' =? a then f else mem i a' |}.

Definition set_packets_filtered (n : Z) (s : DAQ_Stats) : DAQ_Stats :=
  {| hw_packets_received := hw_packets_received s; hw_packets_dropped := hw_packets_dropped s;
     packets_filtered := n; packets_injected := packets_injected s; verdicts := verdicts s |}.

Definition set_packets_injected (n : Z) (s : DAQ_Stats) : DAQ_Stats :=
  {| hw_packets_received := hw_packets_received s; hw_packets_dropped := hw_packets_dropped s;
     packets_filtered := packets_filtered s; packets_injected := n; verdicts := verdicts s |}.

Definition set_verdicts (v : list Z) (s : DAQ_Stats) : DAQ_Stats :=
  {| hw_packets_received := hw_packets_received s; hw_packets_dropped := hw_packets_dropped s;
     packets_filtered := packets_filtered s; packets_injected := packets_injected s; verdicts := v |}.

Definition set_instances (l : list AFPacketInstance) (c : AFPacket_Context) : AFPacket_Context :=
  {| device := device c; snaplen := snaplen c; timeout := timeout c; afpc_size := afpc_size c;
     debug := debug c; instances := l; intf_count := intf_count c; fcode := fcode c;
     break_loop := break_loop c; stats := stats c; state := state c; errbuf := errbuf c;
     fanout_cfg := fanout_cfg c; curr_instance := curr_instance c; curr_msg := curr_msg c;
     curr_packet := curr_packet c |}.

Definition set_break_loop (b : Z) (c : AFPacket_Context) : AFPacket_Context :=
  {| device := device c; snaplen := snaplen c; timeout := timeout c; afpc_size := afpc_size c;
     debug := debug c; instances := instances c; intf_count := intf_count c; fcode := fcode c;
     break_loop := b; stats := stats c; state := state c; errbuf := errbuf c;
     fanout_cfg := fanout_cfg c; curr_instance := curr_instance c; curr_msg := curr_msg c;
     curr_packet := curr_packet c |}.

Definition set_stats (s : DAQ_Stats) (c : AFPacket_Context) : AFPacket_Context :=
  {| device := device c; snaplen := snaplen c; timeout := timeout c; afpc_size := afpc_size c;
     debug := debug c; instances := instances c; intf_count := intf_count c; fcode := fcode c;
     break_loop := break_loop c; stats := s; state := state c; errbuf := errbuf c;
     fanout_cfg := fanout_cfg c; curr_instance := curr_instance c; curr_msg := curr_msg c;
     curr_packet := curr_packet c |}.

(** [DPE(afpc->errbuf, ...)]. *)
Definition DPE (e : errmsg) (c : AFPacket_Context) : AFPacket_Context :=
  {| device := device c; snaplen := snaplen c; timeout := timeout c; afpc_size := afpc_size c;
     debug := debug c; instances := instances c; intf_count := intf_count c; fcode := fcode c;
     break_loop := break_loop c; stats := stats c; state := state c; errbuf := e;
     fanout_cfg := fanout_cfg c; curr_instance := curr_instance c; curr_msg := curr_msg c;
     curr_packet := curr_packet c |}.

Definition set_curr_instance (p : option nat) (c : AFPacket_Context) : AFPacket_Context :=
  {| device := device c; snaplen := snaplen c; timeout := timeout c; afpc_size := afpc_size c;
     debug := debug c; instances := instances c; intf_count := intf_count c; fcode := fcode c;
     break_loop := break_loop c; stats := stats c; state := state c; errbuf := errbuf c;
     fanout_cfg := fanout_cfg c; curr_instance := p; curr_msg := curr_msg c;
     curr_packet := curr_packet c |}.

Definition set_curr (m0 : DAQ_Msg) (d : AFPacketPktDesc) (c : AFPacket_Context) : AFPacket_Context :=
  {| device := device c; snaplen := snaplen c; timeout := timeout c; afpc_size := afpc_size c;
     debug := debug c; instances := instances c; intf_count := intf_count c; fcode := fcode c;
     break_loop := break_loop c; stats := stats c; state := state c; errbuf := errbuf c;
     fanout_cfg := fanout_cfg c; curr_instance := curr_instance c; curr_msg := m0;
     curr_packet := d |}.

Definition with_afpc (c : AFPacket_Context) (m : Machine) : Machine :=
  {| afpc := c; polls := polls m; sends := sends m; trace := trace m |}.

Definition with_polls (p : list poll_outcome) (m : Machine) : Machine :=
  {| afpc := afpc m; polls := p; sends := sends m; trace := trace m |}.

(** A [send] or [sendto]: the call is recorded and the next answer is
    consumed. *)
Definition do_syscall (s : syscall) (m : Machine) : Machine * bool :=
  ({| afpc := afpc m; polls := polls m; sends := tail (sends m); trace := s :: trace m |},
   match sends m with b :: _ => b | [] => true end).

(** The instance at address [p], and an update of it in place. *)
Fixpoint find_instance (p : nat) (l : list AFPacketInstance) : option AFPacketInstance :=
  match l with
  | [] => None
  | i :: rest => if (self i =? p)%nat then Some i else find_instance p rest
  end.

Definition update_instance (p : nat) (f : AFPacketInstance -> AFPacketInstance)
    (l : list AFPacketInstance) : list AFPacketInstance :=
  map (fun i => if (self i =? p)%nat then f i else i) l.

Definition update_machine_instance (p : nat) (f : AFPacketInstance -> AFPacketInstance)
    (m : Machine) : Machine :=
  with_afpc (set_instances (update_instance p f (instances (afpc m))) (afpc m)) m.

(** ** The engine *)

Section Engine.
Context {hdrs : Headers}.

(** [TPACKET_ALIGN(x)], on an unsigned int:
    [(x + TPACKET_ALIGNMENT - 1) & ~(TPACKET_ALIGNMENT - 1)]. *)
Definition TPACKET_ALIGN (x : Z) : Z :=
  Z.land (u32 (x + TPACKET_ALIGNMENT - 1)) (u32 (Z.lnot (TPACKET_ALIGNMENT - 1))).

(** *** calculate_layout *)

(** Lines 369-371: the frame size for a header length and a snap length. *)
Definition layout_frame_size (tp_hdrlen snaplen : Z) : Z :=
  let tp_hdrlen_sll := u32 (TPACKET_ALIGN tp_hdrlen + SIZEOF_SOCKADDR_LL) in
  let netoff := u32 (TPACKET_ALIGN (u32 (tp_hdrlen_sll + ETH_HLEN)) + VLAN_TAG_LEN) in
  TPACKET_ALIGN (u32 (netoff - ETH_HLEN + snaplen)).

(** [while (block_size < frame_size) block_size <<= 1;] on unsigned ints.
    After 32 shifts the block size is 0 and stays 0, so the loop either
    exits within 32 rounds or never: [None] is a loop that never exits. *)
Fixpoint grow_block_size (fuel : nat) (block_size frame_size : Z) : option Z :=
  if block_size <? frame_size then
    match fuel with
    | O => None
    | S k => grow_block_size k (u32 (Z.shiftl block_size 1)) frame_size
    end
  else Some block_size.

(** Lines 375-398: the counts, once the two sizes are set. *)
Definition layout_counts (afpc : AFPacket_Context) (layout : tpacket_req)
    (frame_size block_size : Z) : outcome (AFPacket_Context * tpacket_req * daq_rc) :=
  if frame_size =? 0 then Fault
  else
    let frames_per_block := block_size / frame_size in
    if frames_per_block =? 0 then
      Ret (DPE (Err_invalid_layout block_size frame_size (device afpc)) afpc,
           {| tp_block_size := block_size; tp_block_nr := tp_block_nr layout;
              tp_frame_size := frame_size; tp_frame_nr := tp_frame_nr layout |},
           DAQ_ERROR)
    else
      let frame_nr := afpc_size afpc / frame_size in
      let block_nr := frame_nr / frames_per_block in
      Ret (afpc,
           {| tp_block_size := block_size; tp_block_nr := block_nr;
              tp_frame_size := frame_size;
              tp_frame_nr := u32 (block_nr * frames_per_block) |},
           DAQ_SUCCESS).

Definition calculate_layout (afpc : AFPacket_Context) (layout : tpacket_req)
    (tp_hdrlen order : Z) : outcome (AFPacket_Context * tpacket_req * daq_rc) :=
  let frame_size := layout_frame_size tp_hdrlen (snaplen afpc) in
  match grow_block_size 32 (u32 (Z.shiftl getpagesize order)) frame_size with
  | None => Hang
  | Some block_size => layout_counts afpc layout frame_size block_size
  end.

(** *** set_up_ring *)

(** The inner [for] loop of [set_up_ring]: [fuel] rounds at most, which
    is the whole loop when [fuel] is the number of entries, as every
    round advances [idx] and [idx] stays below that number. *)
Fixpoint frame_loop (fuel : nat) (ring : AFPacketRing) (block_offset frame idx : Z)
    (es : list AFPacketEntry) : Z * list AFPacketEntry :=
  match fuel with
  | O => (idx, es)
  | S k =>
    if (frame <? tp_block_size (layout ring) / tp_frame_size (layout ring))
       && (idx <? tp_frame_nr (layout ring)) then
      let frame_offset := u32 (frame * tp_frame_size (layout ring)) in
      let e := {| next := Some (Z.to_nat (idx + 1));
                  raw := start ring + block_offset + frame_offset |} in
      frame_loop k ring block_offset (frame + 1) (idx + 1) (<[Z.to_nat idx := e]> es)
    else (idx, es)
  end.

(** The outer [for] loop, over the blocks. *)
Fixpoint block_loop (fuel : nat) (ring : AFPacketRing) (block idx : Z)
    (es : list AFPacketEntry) : Z * list AFPacketEntry :=
  match fuel with
  | O => (idx, es)
  | S k =>
    if block <? tp_block_nr (layout ring) then
      let block_offset := u32 (block * tp_block_size (layout ring)) in
      let '(idx', es') :=
        frame_loop (Z.to_nat (tp_frame_nr (layout ring))) ring block_offset 0 idx es in
      block_loop k ring (block + 1) idx' es'
    else (idx, es)
  end.

(** [calloc_ok] says whether the allocation of the entries succeeds. *)
Definition set_up_ring (calloc_ok : bool) (afpc : AFPacket_Context)
    (instance : AFPacketInstance) (ring : AFPacketRing)
    : outcome (AFPacket_Context * AFPacketRing * daq_rc) :=
  if negb calloc_ok then
    Ret (DPE (Err_no_ring_entries (name instance)) afpc, ring, DAQ_ERROR_NOMEM)
  else if (0 <? tp_block_nr (layout ring)) && (tp_frame_size (layout ring) =? 0) then
    Fault (* the loop condition divides by the frame size *)
  else
    let es0 := replicate (Z.to_nat (tp_frame_nr (layout ring)))
                         {| next := None; raw := 0 |} in
    let '(_, es) := block_loop (Z.to_nat (tp_block_nr (layout ring))) ring 0 0 es0 in
    if tp_frame_nr (layout ring) =? 0 then
      Fault (* entries[tp_frame_nr - 1] is outside the array *)
    else
      let last := Z.to_nat (tp_frame_nr (layout ring) - 1) in
      match es !! last with
      | None => Fault
      | Some e =>
        Ret (afpc,
             {| layout := layout ring; ring_size := ring_size ring; start := start ring;
                entries := <[last := {| next := Some 0%nat; raw := raw e |}]> es;
                cursor := Some 0%nat |},
             DAQ_SUCCESS)
      end.

(** *** create_bridge *)

(** The search loop of [create_bridge]: the last instance of the list
    with each name wins. *)
Fixpoint find_peers (l : list AFPacketInstance) (device_name1 device_name2 : string)
    (peer1 peer2 : option nat) : option nat * option nat :=
  match l with
  | [] => (peer1, peer2)
  | instance :: rest =>
    if (name instance =? device_name1)%string then
      find_peers rest device_name1 device_name2 (Some (self instance)) peer2
    else if (name instance =? device_name2)%string then
      find_peers rest device_name1 device_name2 peer1 (Some (self instance))
    else find_peers rest device_name1 device_name2 peer1 peer2
  end.

Definition create_bridge (l : list AFPacketInstance) (device_name1 device_name2 : string)
    : list AFPacketInstance * daq_rc :=
  match find_peers l device_name1 device_name2 None None with
  | (Some peer1, Some peer2) =>
    (update_instance peer2 (set_peer (Some peer1))
       (update_instance peer1 (set_peer (Some peer2)) l),
     DAQ_SUCCESS)
  | _ => (l, DAQ_ERROR_NODEV)
  end.

(** *** afpacket_daq_initialize *)

(** [strcspn(dev, ":")], and the string functions the parser needs. *)
Fixpoint strcspn_colon (s : string) : nat :=
  match s with
  | EmptyString => O
  | String c rest => if Ascii.eqb c ":" then O else S (strcspn_colon rest)
  end.

Fixpoint string_take (n : nat) (s : string) : string :=
  match n, s with
  | S k, String c rest => String c (string_take k rest)
  | _, _ => EmptyString
  end.

Fixpoint string_drop (n : nat) (s : string) : string :=
  match n, s with
  | S k, String _ rest => string_drop k rest
  | _, _ => s
  end.

Fixpoint last_char (s : string) : option ascii :=
  match s with
  | EmptyString => None
  | String c EmptyString => Some c
  | String _ rest => last_char rest
  end.

(** [strstr(dev, "::") != NULL]. *)
Fixpoint has_double_colon (s : string) : bool :=
  match s with
  | String c1 (String c2 _ as rest) =>
    (Ascii.eqb c1 ":" && Ascii.eqb c2 ":") || has_double_colon rest
  | _ => false
  end.

(** [create_instance]: the [k]-th structure allocated. *)
Definition create_instance (env : InitEnv) (k : nat) (device : string)
    : option AFPacketInstance :=
  match env_socket env k, env_ifindex env device with
  | Some sock, Some ifindex =>
    let no_ring := {| layout := {| tp_block_size := 0; tp_block_nr := 0;
                                   tp_frame_size := 0; tp_frame_nr := 0 |};
                      ring_size := 0; start := 0; entries := []; cursor := None |} in
    Some {| self := k; fd := sock; tp_version := 0; tp_hdrlen := 0;
            rx_ring := no_ring; tx_ring := no_ring; name := device; index := ifindex;
            peer := None; sll_protocol := env_ETH_P_ALL env;
            mem := fun _ => {| hdr := {| tp_status := 0; tp_len := 0; tp_snaplen := 0;
                                         tp_mac := 0; tp_sec := 0; tp_nsec := 0;
                                         tp_vlan_tci := 0; tp_vlan_tpid := 0 |};
                               bytes := fun _ => 0 |} |}
  | _, _ => None
  end.

(** The state of the parsing loop: the instances (latest first),
    [afpc->intf_count] and [num_intfs]. *)
Definition parse_state : Type := list AFPacketInstance * Z * Z.

Definition is_passive (mode : DAQ_Mode) : bool :=
  match mode with DAQ_MODE_PASSIVE => true | _ => false end.

(** What the body of [if (len != 0)] (lines 682-712) ends in for one
    interface name: an error, the next round, the [break], or a fault. *)
Inductive parse_step :=
  | Parse_error (e : errmsg)
  | Parse_next (st : parse_state)
  | Parse_break (st : parse_state)
  | Parse_fault.

Definition parse_token (env : InitEnv) (mode : DAQ_Mode) (intf : string) (st : parse_state)
    : parse_step :=
  let '(insts, intf_count, num_intfs) := st in
  let intf_count := u32 (intf_count + 1) in
  if AF_PACKET_MAX_INTERFACES <=? intf_count then Parse_error Err_too_many_interfaces
  else
    match create_instance env (List.length insts) intf with
    | None => Parse_error (Err_create_instance intf)
    | Some instance =>
      let insts := instance :: insts in
      let num_intfs := num_intfs + 1 in
      if negb (is_passive mode) then
        if num_intfs =? 2 then
          match insts with
          | i2 :: i1 :: _ =>
            let name1 := name i1 in
            let name2 := name i2 in
            match create_bridge insts name1 name2 with
            | (insts', DAQ_SUCCESS) => Parse_next (insts', intf_count, 0)
            | _ => Parse_error (Err_create_bridge name1 name2)
            end
          | _ => Parse_fault
          end
        else if 2 <? num_intfs then Parse_break (insts, intf_count, num_intfs)
        else Parse_next (insts, intf_count, num_intfs)
      else Parse_next (insts, intf_count, num_intfs)
    end.

(** The loop over the device string ([while] the character at [dev] is
    not the terminator): every round consumes at least one character, so
    the length of the string is fuel enough. *)
Fixpoint parse_loop (fuel : nat) (env : InitEnv) (mode : DAQ_Mode) (dev : string)
    (st : parse_state) : outcome (errmsg + parse_state) :=
  match dev with
  | EmptyString => Ret (inr st)
  | _ =>
    match fuel with
    | O => OutOfFuel
    | S fuel' =>
      let len := strcspn_colon dev in
      if IFNAMSIZ <=? Z.of_nat len then Ret (inl (Err_interface_name_too_long (Z.of_nat len)))
      else if negb (len =? 0)%nat then
        match parse_token env mode (string_take len dev) st with
        | Parse_error e => Ret (inl e)
        | Parse_next st' => parse_loop fuel' env mode (string_drop len dev) st'
        | Parse_break st' => Ret (inr st')
        | Parse_fault => Fault
        end
      else parse_loop fuel' env mode (string_drop 1 dev) st
    end
  end.

Definition no_fanout : AFPacketFanoutCfg :=
  {| fanout_flag_rollover := false; fanout_flag_defrag := false;
     fanout_cfg_type := None; fanout_enabled := false |}.

(** The loop over the configuration variables: the buffer size string,
    the debug flag and the fan-out configuration, or an error. *)
Fixpoint read_variables (vars : list (string * option string))
    (acc : option string * Z * AFPacketFanoutCfg)
    : errmsg + (option string * Z * AFPacketFanoutCfg) :=
  match vars with
  | [] => inr acc
  | (varKey, varValue) :: rest =>
    let '(size_str, dbg, fo) := acc in
    if (varKey =? "buffer_size_mb")%string then read_variables rest (varValue, dbg, fo)
    else if (varKey =? "debug")%string then read_variables rest (size_str, 1, fo)
    else if PACKET_FANOUT && (varKey =? "fanout_type")%string then
      match varValue with
      | None => inl (Err_requires_argument varKey)
      | Some v =>
        let ty :=
          if (v =? "hash")%string then Some PACKET_FANOUT_HASH
          else if (v =? "lb")%string then Some PACKET_FANOUT_LB
          else if (v =? "cpu")%string then Some PACKET_FANOUT_CPU
          else if (v =? "rollover")%string then Some PACKET_FANOUT_ROLLOVER
          else if (v =? "rnd")%string then Some PACKET_FANOUT_RND
          else if PACKET_FANOUT_QM && (v =? "qm")%string then Some PACKET_FANOUT_QM_TYPE
          else None in
        match ty with
        | None => inl (Err_unrecognized_argument varKey v)
        | Some t =>
          read_variables rest
            (size_str, dbg,
             {| fanout_flag_rollover := fanout_flag_rollover fo;
                fanout_flag_defrag := fanout_flag_defrag fo;
                fanout_cfg_type := Some t; fanout_enabled := true |})
        end
      end
    else if PACKET_FANOUT && (varKey =? "fanout_flag")%string then
      match varValue with
      | None => inl (Err_requires_argument varKey)
      | Some v =>
        if (v =? "rollover")%string then
          read_variables rest
            (size_str, dbg,
             {| fanout_flag_rollover := true; fanout_flag_defrag := fanout_flag_defrag fo;
                fanout_cfg_type := fanout_cfg_type fo; fanout_enabled := fanout_enabled fo |})
        else if (v =? "defrag")%string then
          read_variables rest
            (size_str, dbg,
             {| fanout_flag_rollover := fanout_flag_rollover fo; fanout_flag_defrag := true;
                fanout_cfg_type := fanout_cfg_type fo; fanout_enabled := fanout_enabled fo |})
        else inl (Err_unrecognized_argument varKey v)
      end
    else read_variables rest acc
  end.

(** Lines 790-798: the total buffer in bytes, a uint32_t. *)
Definition total_buffer_size (env : InitEnv) (size_str : option string) : Z :=
  let size_str :=
    match size_str with
    | Some s => Some s
    | None => env_AF_PACKET_BUFFER_SIZE env
    end in
  let size :=
    match size_str with
    | Some s => if negb ("max" =? s)%string then u32 (env_strtoul env s)
                else AF_PACKET_DEFAULT_BUFFER_SIZE
    | None => AF_PACKET_DEFAULT_BUFFER_SIZE
    end in
  u32 (u32 (size * 1024) * 1024).

(** Lines 801-803: [num_rings += instance->peer ? 2 : 1] over the instances. *)
Definition count_rings (l : list AFPacketInstance) : Z :=
  fold_left (fun num_rings instance =>
               num_rings + match peer instance with Some _ => 2 | None => 1 end) l 0.

Definition s32 (x : Z) : Z :=
  if u32 x <? 2 ^ 31 then u32 x else u32 x - 2 ^ 32.

Definition zero_stats : DAQ_Stats :=
  {| hw_packets_received := 0; hw_packets_dropped := 0; packets_filtered := 0;
     packets_injected := 0; verdicts := replicate (Z.to_nat MAX_DAQ_VERDICT) 0 |}.

Definition zero_pkthdr : DAQ_PktHdr :=
  {| ts_sec := 0; ts_usec := 0; caplen := 0; pktlen := 0; ingress_index := 0;
     egress_index := 0; ingress_group := 0; egress_group := 0; flags := 0; opaque := 0;
     priv_ptr := 0; address_space_id := 0 |}.

(** The result is the error code with the message written to the caller's
    buffer, or the new context.  The allocations of the context and of
    the device string are taken to succeed. *)
Definition afpacket_daq_initialize (env : InitEnv) (config : DAQ_ModuleConfig)
    : outcome (daq_rc * errmsg + AFPacket_Context) :=
  let dev := cfg_input config in
  let invalid := Ret (inl (DAQ_ERROR, Err_invalid_interface_specification dev)) in
  if match dev with String c _ => Ascii.eqb c ":" | EmptyString => false end
     || match last_char dev with Some c => Ascii.eqb c ":" | None => false end
     || (is_passive (cfg_mode config) && has_double_colon dev)
  then invalid
  else
    bind (parse_loop (String.length dev) env (cfg_mode config) dev ([], 0, 0)) (fun r =>
    match r with
    | inl e => Ret (inl (DAQ_ERROR, e))
    | inr (insts, intf_count, num_intfs) =>
      if match insts with [] => true | _ => false end
         || (negb (is_passive (cfg_mode config)) && negb (num_intfs =? 0))
      then invalid
      else
        match read_variables (cfg_variables config) (None, 0, no_fanout) with
        | inl e => Ret (inl (DAQ_ERROR, e))
        | inr (size_str, dbg, fo) =>
          let size := total_buffer_size env size_str in
          let num_rings := count_rings insts in
          Ret (inr
            {| device := dev;
               snaplen := cfg_snaplen config;
               timeout := if 0 <? cfg_timeout config then s32 (cfg_timeout config) else -1;
               afpc_size := size / num_rings;
               debug := dbg;
               instances := insts;
               intf_count := intf_count;
               fcode := None;
               break_loop := 0;
               stats := zero_stats;
               state := DAQ_STATE_INITIALIZED;
               errbuf := NoError;
               fanout_cfg := fo;
               curr_instance := option_map self (head insts);
               curr_msg := {| type := DAQ_MSG_TYPE_NONE; msg := DescNull |};
               curr_packet := {| desc_instance := None; desc_entry := None;
                                 desc_data := None; desc_length := 0;
                                 pkthdr := zero_pkthdr |} |})
        end
    end).

(** *** afpacket_transmit_packet *)

(** [packet_data] gives the bytes the source pointer points to, by
    offset, at the time of the call.  The [memcpy] of line 881 has no
    length check; it is written here on the bytes of the frame under the
    cursor, which is what the code does for a packet that fits the frame
    ([fits_tx_frame] below).  A longer packet runs into the frames that
    follow, which this function does not show. *)
Definition afpacket_transmit_packet (egress : option nat) (packet_data : Z -> Z) (len : Z)
    (m : Machine) : outcome (Machine * daq_rc) :=
  match egress with
  | None => Ret (m, DAQ_SUCCESS)
  | Some p =>
    bind (deref (find_instance p (instances (afpc m)))) (fun e =>
    if negb (ring_size (tx_ring e) =? 0) then
      bind (deref (cursor (tx_ring e))) (fun c =>
      bind (deref (entries (tx_ring e) !! c)) (fun entry =>
      let f := mem e (raw entry) in
      if negb (tp_status (hdr f) =? TP_STATUS_AVAILABLE) then Ret (m, DAQ_ERROR_AGAIN)
      else
        let off := TPACKET_ALIGN (tp_hdrlen e) in
        let copied := fun a =>
          if (off <=? a) && (a <? off + len) then packet_data (a - off) else bytes f a in
        let f' := set_status TP_STATUS_SEND_REQUEST (set_len len (set_bytes copied f)) in
        let m1 := update_machine_instance p (store_frame (raw entry) f') m in
        let '(m2, ok) := do_syscall (Sys_send (fd e)) m1 in
        if negb ok then Ret (m2, DAQ_ERROR)
        else
          Ret (update_machine_instance p
                 (fun i => set_tx_ring (set_cursor (next entry) (tx_ring i)) i) m2,
               DAQ_SUCCESS)))
    else
      let h_proto := packet_data 12 * 256 + packet_data 13 in
      let m1 := update_machine_instance p (set_sll_protocol h_proto) m in
      let '(m2, ok) := do_syscall (Sys_sendto (fd e) len h_proto) m1 in
      if negb ok then Ret (m2, DAQ_ERROR) else Ret (m2, DAQ_SUCCESS))
  end.

(** The bytes a data pointer points to. *)
Definition read_data (m : Machine) (d : data_ptr) : outcome (Z -> Z) :=
  bind (deref (find_instance (dp_inst d) (instances (afpc m)))) (fun i =>
  Ret (fun k => bytes (mem i (dp_frame d)) (dp_off d + k))).

(** *** afpacket_daq_inject *)

Definition afpacket_daq_inject (hdr_ingress_index : Z) (packet_data : Z -> Z) (len : Z)
    (reverse : bool) (m : Machine)
    : outcome (Machine * daq_rc) :=
  let found := List.find (fun i => index i =? hdr_ingress_index) (instances (afpc m)) in
  let egress :=
    match found with
    | None => None
    | Some i => if reverse then Some (self i) else peer i
    end in
  match egress with
  | None => Ret (with_afpc (DPE Err_no_inject_instance (afpc m)) m, DAQ_ERROR)
  | Some p =>
    bind (afpacket_transmit_packet (Some p) packet_data len m) (fun '(m1, rval) =>
    match rval with
    | DAQ_SUCCESS =>
      Ret (with_afpc (set_stats (set_packets_injected
                                   (u64 (packets_injected (stats (afpc m1)) + 1))
                                   (stats (afpc m1))) (afpc m1)) m1,
           DAQ_SUCCESS)
    | DAQ_ERROR_AGAIN => Ret (with_afpc (DPE Err_tx_ring_full (afpc m1)) m1, rval)
    | _ => Ret (with_afpc (DPE Err_sending_packet (afpc m1)) m1, rval)
    end)
  end.

(** *** afpacket_daq_breakloop *)

Definition afpacket_daq_breakloop (m : Machine) : Machine * daq_rc :=
  (with_afpc (set_break_loop 1 (afpc m)) m, DAQ_SUCCESS).

(** *** afpacket_find_packet *)

(** [instance->next ? instance->next : afpc->instances], for the instance
    at address [p]; [None] when no instance is at [p]. *)
Fixpoint instance_after (l : list AFPacketInstance) (p : nat)
    : option (option AFPacketInstance) :=
  match l with
  | [] => None
  | i :: rest => if (self i =? p)%nat then Some (head rest) else instance_after rest p
  end.

Definition next_or_first (l : list AFPacketInstance) (p : nat) : option AFPacketInstance :=
  match instance_after l p with
  | None => None
  | Some (Some i) => Some i
  | Some None => head l
  end.

(** The [do ... while (instance != afpc->curr_instance)] loop.  The
    result is the machine and the entry claimed, if any: the instance and
    the index in its RX ring. *)
Fixpoint find_packet_loop (fuel : nat) (m : Machine) (curr instance : nat)
    : outcome (Machine * option (nat * nat)) :=
  match fuel with
  | O => OutOfFuel
  | S k =>
    bind (deref (next_or_first (instances (afpc m)) instance)) (fun i =>
    bind (deref (cursor (rx_ring i))) (fun c =>
    bind (deref (entries (rx_ring i) !! c)) (fun entry =>
    if negb (Z.land (tp_status (hdr (mem i (raw entry)))) TP_STATUS_USER =? 0) then
      let m1 := with_afpc (set_curr_instance (Some (self i)) (afpc m)) m in
      Ret (update_machine_instance (self i)
             (fun i' => set_rx_ring (set_cursor (next entry) (rx_ring i')) i') m1,
           Some (self i, c))
    else if (self i =? curr)%nat then Ret (m, None)
    else find_packet_loop k m curr (self i))))
  end.

Definition afpacket_find_packet (m : Machine) : outcome (Machine * option (nat * nat)) :=
  bind (deref (curr_instance (afpc m))) (fun curr =>
  find_packet_loop (List.length (instances (afpc m))) m curr curr).

(** *** afpacket_wait_for_packet *)

(** What the function returns: a DAQ code, 0 or 1. *)
Inductive wait_ret :=
  | Wait_rc (rc : daq_rc)
  | Wait_0
  | Wait_1.

Definition bad_revents : Z := Z.lor (Z.lor (Z.lor POLLHUP POLLRDHUP) POLLERR) POLLNVAL.

(** The loop over [pfd] after a positive return of [poll]. *)
Fixpoint check_revents (revents : list Z) (c : AFPacket_Context)
    : AFPacket_Context * wait_ret :=
  match revents with
  | [] => (c, Wait_1)
  | r :: rest =>
    if negb (Z.land r bad_revents =? 0) then
      if negb (Z.land r (Z.lor POLLHUP POLLRDHUP) =? 0) then
        (DPE Err_poll_hangup c, Wait_rc DAQ_ERROR)
      else if negb (Z.land r POLLERR =? 0) then (DPE Err_poll_error c, Wait_rc DAQ_ERROR)
      else if negb (Z.land r POLLNVAL =? 0) then (DPE Err_poll_invalid c, Wait_rc DAQ_ERROR)
      else (c, Wait_rc DAQ_ERROR)
    else check_revents rest c
  end.

(** One call of the function, for the outcome [p] of its call of [poll].
    A signal handler that calls [afpacket_daq_breakloop] sets the flag
    while the thread is inside [poll]. *)
Definition afpacket_wait_for_packet (p : poll_outcome) (c : AFPacket_Context)
    : AFPacket_Context * wait_ret :=
  match p with
  | PollInterrupted called =>
    ((if called then set_break_loop 1 c else c), Wait_rc DAQ_ERROR_AGAIN)
  | PollFailed => (DPE Err_poll_failed c, Wait_rc DAQ_ERROR)
  | PollTimeout => (c, Wait_0)
  | PollReady revents => check_revents (take (Z.to_nat (intf_count c)) revents) c
  end.

(** [while ((ret = afpacket_wait_for_packet(afpc)) == DAQ_ERROR_AGAIN);]
    over the outcomes of the coming [poll] calls.  When none is left,
    [poll] blocks for ever. *)
Fixpoint wait_loop (script : list poll_outcome) (m : Machine) : outcome (Machine * wait_ret) :=
  match script with
  | [] => Hang
  | p :: rest =>
    let '(c, ret) := afpacket_wait_for_packet p (afpc m) in
    match ret with
    | Wait_rc DAQ_ERROR_AGAIN => wait_loop rest (with_afpc c m)
    | _ => Ret (with_polls rest (with_afpc c m), ret)
    end
  end.

(** *** afpacket_free_packet *)

Definition afpacket_free_packet (desc : AFPacketPktDesc) (m : Machine) : outcome Machine :=
  bind (deref (desc_entry desc)) (fun '(p, k) =>
  bind (deref (find_instance p (instances (afpc m)))) (fun i =>
  bind (deref (entries (rx_ring i) !! k)) (fun entry =>
  Ret (update_machine_instance p
         (fun i' => store_frame (raw entry) (set_status TP_STATUS_KERNEL (mem i' (raw entry))) i')
         m)))).

(** *** afpacket_daq_msg_receive *)

(** Lines 1148-1154: has the kernel stripped a VLAN tag the module can
    put back? *)
Definition vlan_stripped (instance : AFPacketInstance) (h : tpacket2_hdr) (tp_snaplen : Z)
    : bool :=
  (tp_version instance =? TPACKET_V2)
  && (negb (tp_vlan_tci h =? 0)
      || match TP_STATUS_VLAN_VALID with
         | Some bit => negb (Z.land (tp_status h) bit =? 0)
         | None => false
         end)
  && (vlan_offset <=? tp_snaplen).

(** Lines 1162-1167: the TPID of the tag. *)
Definition vlan_tpid (h : tpacket2_hdr) : Z :=
  match TP_STATUS_VLAN_TPID_VALID with
  | Some bit =>
    if negb (tp_vlan_tpid h =? 0) && negb (Z.land (tp_status h) bit =? 0)
    then tp_vlan_tpid h
    else ETH_P_8021Q
  | None => ETH_P_8021Q
  end.

(** Lines 1158-1168 on the bytes of the frame: [data] is the pointer
    after [data -= VLAN_TAG_LEN]; the twelve address bytes move down and
    the tag is stored after them, each half in network byte order.  The
    TPID and the TCI are those of the header as it was before the move,
    which is what lines 1163-1168 read when the bytes moved lie past the
    header ([SIZEOF_TPACKET2_HDR <= data]). *)
Definition insert_vlan_tag (b : Z -> Z) (data tpid tci : Z) : Z -> Z :=
  let moved := fun a =>
    if (data <=? a) && (a <? data + vlan_offset) then b (a + VLAN_TAG_LEN) else b a in
  fun a =>
    if a =? data + vlan_offset then tpid / 256
    else if a =? data + vlan_offset + 1 then tpid mod 256
    else if a =? data + vlan_offset + 2 then tci / 256
    else if a =? data + vlan_offset + 3 then tci mod 256
    else moved a.

(** What one round of the [do ... while] loop ends in. *)
Inductive round :=
  | Returns (m : Machine) (rc : daq_rc) (msgptr : msg_ref)
  | Continues (m : Machine)
  | Faults
  | Hangs.

(** The body of the loop from line 1134 on, for the entry
    [afpacket_find_packet] has claimed. *)
Definition receive_entry (m : Machine) (p k : nat) : round :=
  match find_instance p (instances (afpc m)) with
  | None => Faults
  | Some i0 =>
    match entries (rx_ring i0) !! k with
    | None => Faults
    | Some entry =>
      let h := hdr (mem i0 (raw entry)) in
      let tp_len := tp_len h in
      let tp_mac := tp_mac h in
      let tp_snaplen := tp_snaplen h in
      let tp_sec := tp_sec h in
      let tp_usec := tp_nsec h / 1000 in
      match curr_instance (afpc m) with
      | None => Faults
      | Some ip =>
        match find_instance ip (instances (afpc m)) with
        | None => Faults
        | Some instance =>
          if tp_frame_size (layout (rx_ring instance)) <? u32 (tp_mac + tp_snaplen) then
            Returns (with_afpc (DPE (Err_corrupted_frame tp_mac tp_snaplen
                                       (tp_frame_size (layout (rx_ring instance))))
                                    (afpc m)) m)
                    DAQ_ERROR MsgNull
          else
            let vlan := vlan_stripped instance h tp_snaplen in
            let data := if vlan then tp_mac - VLAN_TAG_LEN else tp_mac in
            let m1 :=
              if vlan then
                update_machine_instance p
                  (fun i' => store_frame (raw entry)
                     (set_bytes (insert_vlan_tag (bytes (mem i' (raw entry))) data
                                   (vlan_tpid h) (tp_vlan_tci h))
                                (mem i' (raw entry))) i') m
              else m in
            let tp_snaplen := if vlan then u32 (tp_snaplen + VLAN_TAG_LEN) else tp_snaplen in
            let tp_len := if vlan then u32 (tp_len + VLAN_TAG_LEN) else tp_len in
            let dp := {| dp_inst := p; dp_frame := raw entry; dp_off := data |} in
            match read_data m1 dp with
            | Ret view =>
              if match fcode (afpc m1) with
                 | Some prog => prog view tp_len tp_snaplen =? 0
                 | None => false
                 end
              then
                let m2 := with_afpc (set_stats (set_packets_filtered
                                                  (u64 (packets_filtered (stats (afpc m1)) + 1))
                                                  (stats (afpc m1))) (afpc m1)) m1 in
                match afpacket_transmit_packet (peer instance) view tp_snaplen m2 with
                | Ret (m3, _) =>
                  match afpacket_free_packet (curr_packet (afpc m3)) m3 with
                  | Ret m4 => Continues m4
                  | _ => Faults
                  end
                | _ => Faults
                end
              else
                match
                  match peer instance with
                  | None => Some DAQ_PKTHDR_UNKNOWN
                  | Some pp => option_map index (find_instance pp (instances (afpc m1)))
                  end
                with
                | None => Faults
                | Some egress =>
                  let desc :=
                    {| desc_instance := Some (self instance);
                       desc_entry := Some (p, k);
                       desc_data := Some dp;
                       desc_length := tp_snaplen;
                       pkthdr := {| ts_sec := tp_sec; ts_usec := tp_usec;
                                    caplen := tp_snaplen; pktlen := tp_len;
                                    ingress_index := index instance;
                                    egress_index := egress;
                                    ingress_group := DAQ_PKTHDR_UNKNOWN;
                                    egress_group := DAQ_PKTHDR_UNKNOWN;
                                    flags := 0; opaque := 0; priv_ptr := 0;
                                    address_space_id := 0 |} |} in
                  Returns (with_afpc (set_curr {| type := DAQ_MSG_TYPE_PACKET; msg := DescCurr |}
                                               desc (afpc m1)) m1)
                          DAQ_SUCCESS MsgCurr
                end
            | _ => Faults
            end
        end
      end
    end
  end.

(** One round of the loop: lines 1126-1206. *)
Definition receive_round (m : Machine) : round :=
  match afpacket_find_packet m with
  | Ret (m1, None) =>
    match wait_loop (polls m1) m1 with
    | Ret (m2, Wait_rc rc) => Returns m2 rc MsgNull  (* ret <= 0: a DAQ error code *)
    | Ret (m2, Wait_0) => Returns m2 DAQ_SUCCESS MsgNull (* ret <= 0: zero *)
    | Ret (m2, Wait_1) => Continues m2
    | Hang => Hangs
    | _ => Faults
    end
  | Ret (m1, Some (p, k)) => receive_entry m1 p k
  | Hang => Hangs
  | _ => Faults
  end.

(** [do { ... } while (!afpc->break_loop); return DAQ_SUCCESS;] with
    [*msgptr = NULL] before it.  [fuel] bounds the number of rounds. *)
Fixpoint afpacket_daq_msg_receive (fuel : nat) (m : Machine)
    : outcome (Machine * daq_rc * msg_ref) :=
  match fuel with
  | O => OutOfFuel
  | S k =>
    match receive_round m with
    | Returns m' rc msgptr => Ret (m', rc, msgptr)
    | Continues m' =>
      if negb (break_loop (afpc m') =? 0) then Ret (m', DAQ_SUCCESS, MsgNull)
      else afpacket_daq_msg_receive k m'
    | Faults => Fault
    | Hangs => Hang
    end
  end.

(** *** afpacket_daq_msg_finalize *)

Definition verdict_translation_table : list DAQ_Verdict :=
  [ DAQ_VERDICT_PASS;    (* DAQ_VERDICT_PASS *)
    DAQ_VERDICT_BLOCK;   (* DAQ_VERDICT_BLOCK *)
    DAQ_VERDICT_PASS;    (* DAQ_VERDICT_REPLACE *)
    DAQ_VERDICT_PASS;    (* DAQ_VERDICT_WHITELIST *)
    DAQ_VERDICT_BLOCK;   (* DAQ_VERDICT_BLACKLIST *)
    DAQ_VERDICT_PASS;    (* DAQ_VERDICT_IGNORE *)
    DAQ_VERDICT_BLOCK ]. (* DAQ_VERDICT_RETRY *)

(** Lines 1232-1233, on the value of the enum. *)
Definition sanitize_verdict (verdict : Z) : Z :=
  if MAX_DAQ_VERDICT <=? verdict then verdict_value DAQ_VERDICT_PASS else verdict.

(** [msg] is the pointer the host passes; the descriptor it names is read
    through it.  The verdict is the value of the C enum, unsigned. *)
Definition afpacket_daq_msg_finalize (msg0 : msg_ref) (verdict : Z) (m : Machine)
    : outcome (Machine * daq_rc) :=
  bind (match msg0 with
        | MsgNull => Fault
        | MsgCurr => Ret (msg (curr_msg (afpc m)))
        | MsgOther m0 => Ret (msg m0)
        end) (fun desc0 =>
  if negb (match msg0 with MsgCurr => true | _ => false end)
     || negb (match desc0 with DescCurr => true | _ => false end)
  then Ret (m, DAQ_ERROR)
  else
    let desc := curr_packet (afpc m) in
    let verdict := sanitize_verdict verdict in
    if verdict <? 0 then Fault
    else
      bind (deref (verdicts (stats (afpc m)) !! Z.to_nat verdict)) (fun n =>
      let m1 := with_afpc (set_stats (set_verdicts
                                        (<[Z.to_nat verdict := u64 (n + 1)]>
                                           (verdicts (stats (afpc m))))
                                        (stats (afpc m))) (afpc m)) m in
      bind (deref (verdict_translation_table !! Z.to_nat verdict)) (fun verdict' =>
      bind (match verdict' with
            | DAQ_VERDICT_PASS =>
              bind (deref (desc_instance desc)) (fun ip =>
              bind (deref (find_instance ip (instances (afpc m1)))) (fun instance =>
              bind (deref (desc_data desc)) (fun dp =>
              bind (read_data m1 dp) (fun view =>
              bind (afpacket_transmit_packet (peer instance) view (desc_length desc) m1)
                   (fun '(m2, _) => Ret m2)))))
            | _ => Ret m1
            end) (fun m2 =>
      bind (afpacket_free_packet desc m2) (fun m3 =>
      Ret (m3, DAQ_SUCCESS)))))).

End Engine.

(** ** A concrete platform and concrete scenarios *)

(** Linux on x86-64: the values of linux/if_packet.h, linux/if_ether.h,
    net/if.h, sys/poll.h and daq_common.h, with 4 KiB pages. *)
#[global] Instance linux : Headers := {|
  IFNAMSIZ := 16;
  ETH_HLEN := 14;
  TPACKET_ALIGNMENT := 16;
  SIZEOF_SOCKADDR_LL := 20;
  SIZEOF_TPACKET2_HDR := 32;
  TPACKET_V2 := 1;
  TP_STATUS_KERNEL := 0;
  TP_STATUS_USER := 1;
  TP_STATUS_AVAILABLE := 0;
  TP_STATUS_SEND_REQUEST := 1;
  TP_STATUS_VLAN_VALID := Some 16;
  TP_STATUS_VLAN_TPID_VALID := Some 64;
  POLLHUP := 16;
  POLLRDHUP := 8192;
  POLLERR := 8;
  POLLNVAL := 32;
  PACKET_FANOUT := true;
  PACKET_FANOUT_QM := true;
  DAQ_PKTHDR_UNKNOWN := -1;
  getpagesize := 4096
|}.

Definition no_layout : tpacket_req :=
  {| tp_block_size := 0; tp_block_nr := 0; tp_frame_size := 0; tp_frame_nr := 0 |}.

Definition no_packet : AFPacketPktDesc :=
  {| desc_instance := None; desc_entry := None; desc_data := None; desc_length := 0;
     pkthdr := zero_pkthdr |}.

(** A context for one passive interface with a 16 MiB ring budget and the
    usual Ethernet snap length, before [start]. *)
Definition ctx_eth0_16M : AFPacket_Context :=
  {| device := "eth0"; snaplen := 1518; timeout := -1; afpc_size := 16 * 1024 * 1024;
     debug := 0; instances := []; intf_count := 0; fcode := None; break_loop := 0;
     stats := zero_stats; state := DAQ_STATE_INITIALIZED; errbuf := NoError;
     fanout_cfg := no_fanout; curr_instance := None;
     curr_msg := {| type := DAQ_MSG_TYPE_NONE; msg := DescNull |};
     curr_packet := no_packet |}.

(** A ring of two blocks of two frames, mapped at 0x10000, before
    [set_up_ring]. *)
Definition ring_2x2 : AFPacketRing :=
  {| layout := {| tp_block_size := 4096; tp_block_nr := 2;
                  tp_frame_size := 2048; tp_frame_nr := 4 |};
     ring_size := 8192; start := 0x10000; entries := []; cursor := None |}.

Definition no_ring : AFPacketRing :=
  {| layout := no_layout; ring_size := 0; start := 0; entries := []; cursor := None |}.

Definition zero_frame : Frame :=
  {| hdr := {| tp_status := 0; tp_len := 0; tp_snaplen := 0; tp_mac := 0; tp_sec := 0;
               tp_nsec := 0; tp_vlan_tci := 0; tp_vlan_tpid := 0 |};
     bytes := fun _ => 0 |}.

(** The instance for eth0 (interface index 2) after [determine_version],
    with its RX ring requested and mapped. *)
Definition eth0_mapped : AFPacketInstance :=
  {| self := 0; fd := 3; tp_version := 1; tp_hdrlen := 32;
     rx_ring := ring_2x2; tx_ring := no_ring; name := "eth0"; index := 2;
     peer := None; sll_protocol := 3; mem := fun _ => zero_frame |}.

(** A decimal reading of a string of digits, as [strtoul] gives it for
    such a string on a machine with a 64-bit unsigned long. *)
Fixpoint digits_value (s : string) (acc : Z) : Z :=
  match s with
  | String c rest =>
    let d := Z.of_nat (nat_of_ascii c) - 48 in
    if (0 <=? d) && (d <=? 9) then digits_value rest (acc * 10 + d) else acc
  | EmptyString => acc
  end.

Definition strtoul10 (s : string) : Z := Z.min (digits_value s 0) (2 ^ 64 - 1).

(** A host with the interfaces eth0 .. eth3 (indexes 2 .. 5), where every
    socket opens, and no AF_PACKET_BUFFER_SIZE in the environment. *)
Definition host_env : InitEnv :=
  {| env_AF_PACKET_BUFFER_SIZE := None;
     env_strtoul := strtoul10;
     env_socket := fun k => Some (3 + Z.of_nat k);
     env_ifindex := fun dev =>
       if (dev =? "eth0")%string then Some 2
       else if (dev =? "eth1")%string then Some 3
       else if (dev =? "eth2")%string then Some 4
       else if (dev =? "eth3")%string then Some 5
       else None;
     env_ETH_P_ALL := 3 |}.

Definition config_of (input : string) (mode : DAQ_Mode)
    (vars : list (string * option string)) : DAQ_ModuleConfig :=
  {| cfg_input := input; cfg_mode := mode; cfg_snaplen := 1518; cfg_timeout := 0;
     cfg_variables := vars |}.

(** The value the variable loop leaves in [size_str]: that of the last
    buffer_size_mb variable, if there is one. *)
Fixpoint buffer_size_mb_value (vars : list (string * option string))
    (size_str : option string) : option string :=
  match vars with
  | [] => size_str
  | (varKey, varValue) :: rest =>
    if (varKey =? "buffer_size_mb")%string then buffer_size_mb_value rest varValue
    else buffer_size_mb_value rest size_str
  end.

Definition unbridged (l : list AFPacketInstance) : Z :=
  Z.of_nat (length (List.filter (fun i => match peer i with None => true | _ => false end) l)).

Definition bridged (l : list AFPacketInstance) : Z :=
  Z.of_nat (length (List.filter (fun i => match peer i with Some _ => true | _ => false end) l)).

(** The ring count in the words of the claim: one ring per passive
    (unbridged) interface and two per bridged pair, a pair being two
    bridged interfaces. *)
Definition rings_as_claimed (l : list AFPacketInstance) : Z :=
  unbridged l + 2 * (bridged l / 2).

Definition MiB : Z := 1024 * 1024.

(** *** Started machines *)

(** A user-side ring of two slots over the frames at [a0] and [a1]. *)
Definition ring_of_two (frame_size a0 a1 : Z) : AFPacketRing :=
  {| layout := {| tp_block_size := 4096; tp_block_nr := 1;
                  tp_frame_size := frame_size; tp_frame_nr := 2 |};
     ring_size := 4096; start := a0;
     entries := [ {| next := Some 1%nat; raw := a0 |}; {| next := Some 0%nat; raw := a1 |} ];
     cursor := Some 0%nat |}.

(** A frame the kernel has handed to user space: status TP_STATUS_USER,
    the link-layer header at offset 80, [len] bytes captured of [len] on
    the wire, every byte equal to [fill]. *)
Definition user_frame (len fill : Z) : Frame :=
  {| hdr := {| tp_status := 1; tp_len := len; tp_snaplen := len; tp_mac := 80;
               tp_sec := 1; tp_nsec := 5000; tp_vlan_tci := 0; tp_vlan_tpid := 0 |};
     bytes := fun _ => fill |}.

(** Mapped memory with the frames [f0] at [a0] and [f1] at [a1]. *)
Definition mem_of_two (a0 : Z) (f0 : Frame) (a1 : Z) (f1 : Frame) : Z -> Frame :=
  fun a => if a =? a0 then f0 else if a =? a1 then f1 else zero_frame.

(** eth0, passive and started: an RX ring of two slots of 2048 bytes at
    0x10000 and 0x10800 holding [f0] and [f1]. *)
Definition eth0_started (f0 f1 : Frame) : AFPacketInstance :=
  {| self := 0; fd := 3; tp_version := 1; tp_hdrlen := 32;
     rx_ring := ring_of_two 2048 0x10000 0x10800; tx_ring := no_ring;
     name := "eth0"; index := 2; peer := None; sll_protocol := 3;
     mem := mem_of_two 0x10000 f0 0x10800 f1 |}.

Definition started_context (insts : list AFPacketInstance) (filter : sfbpf_program)
    : AFPacket_Context :=
  {| device := "eth0"; snaplen := 1518; timeout := -1; afpc_size := 16 * 1024 * 1024;
     debug := 0; instances := insts; intf_count := Z.of_nat (length insts);
     fcode := filter; break_loop := 0; stats := zero_stats; state := DAQ_STATE_STARTED;
     errbuf := NoError; fanout_cfg := no_fanout;
     curr_instance := option_map self (head insts);
     curr_msg := {| type := DAQ_MSG_TYPE_NONE; msg := DescNull |};
     curr_packet := no_packet |}.

Definition machine_of (c : AFPacket_Context) (script : list poll_outcome) : Machine :=
  {| afpc := c; polls := script; sends := []; trace := [] |}.

(** A filter that admits the packets whose first byte is 1. *)
Definition first_byte_is_1 : sfbpf_program :=
  Some (fun data _ _ => if data 0 =? 1 then 1 else 0).

(** The status word of slot [k] of the RX ring of the instance at [p]. *)
Definition rx_slot_status (m : Machine) (p k : nat) : option Z :=
  match find_instance p (instances (afpc m)) with
  | Some i =>
    match entries (rx_ring i) !! k with
    | Some e => Some (tp_status (hdr (mem i (raw e))))
    | None => None
    end
  | None => None
  end.

(** Passive capture on eth0 with the filter above.  Slot 0 holds a
    packet the filter admits, slot 1 one it rejects; after them [poll]
    times out. *)
Definition m_filter_two : Machine :=
  machine_of (started_context [eth0_started (user_frame 100 1) (user_frame 100 2)]
                first_byte_is_1)
             [PollTimeout].

(** The same ring when the first packet the kernel delivers is one the
    filter rejects. *)
Definition m_filter_first : Machine :=
  machine_of (started_context [eth0_started (user_frame 100 2) zero_frame] first_byte_is_1)
             [PollTimeout].

(** The instance at [q] can be transmitted on without a fault: it has no
    TX ring, or the cursor of its TX ring names an entry. *)
Definition tx_ready (l : list AFPacketInstance) (egress : option nat) : Prop :=
  match egress with
  | None => True
  | Some q =>
    exists e, find_instance q l = Some e /\
      (ring_size (tx_ring e) = 0 \/
       exists c te, cursor (tx_ring e) = Some c /\ entries (tx_ring e) !! c = Some te)
  end.

(** The TX ring of the instance at [q] is full: the slot under its
    cursor is not available. *)
Definition tx_full {hdrs : Headers} (l : list AFPacketInstance) (egress : option nat) : Prop :=
  exists q e c te,
    egress = Some q /\ find_instance q l = Some e /\ ring_size (tx_ring e) <> 0 /\
    cursor (tx_ring e) = Some c /\ entries (tx_ring e) !! c = Some te /\
    tp_status (hdr (mem e (raw te))) <> TP_STATUS_AVAILABLE.

(** The context with the counter of verdict [v] incremented. *)
Definition count_verdict (v : Z) (c : AFPacket_Context) : AFPacket_Context :=
  set_stats (set_verdicts
               (<[Z.to_nat v := u64 (default 0 (verdicts (stats c) !! Z.to_nat v) + 1)]>
                  (verdicts (stats c)))
               (stats c)) c.

(** A bridged pair, started.  eth0 (at 0) and eth1 (at 1) are peers;
    each has an RX ring at 0x10000 and a TX ring at 0x20000, of two slots
    of 2048 bytes.  Slot 0 of the RX ring of eth0 holds [f0]; the slot
    under the TX cursor of eth1 has the status [tx_status]. *)
Definition tx_frame (status : Z) : Frame :=
  {| hdr := {| tp_status := status; tp_len := 0; tp_snaplen := 0; tp_mac := 0; tp_sec := 0;
               tp_nsec := 0; tp_vlan_tci := 0; tp_vlan_tpid := 0 |};
     bytes := fun _ => 0 |}.

Definition bridged_pair (f0 : Frame) (tx_status : Z) : list AFPacketInstance :=
  [ {| self := 1; fd := 4; tp_version := 1; tp_hdrlen := 32;
       rx_ring := ring_of_two 2048 0x10000 0x10800;
       tx_ring := ring_of_two 2048 0x20000 0x20800;
       name := "eth1"; index := 3; peer := Some 0%nat; sll_protocol := 3;
       mem := mem_of_two 0x20000 (tx_frame tx_status) 0x20800 (tx_frame 0) |};
    {| self := 0; fd := 3; tp_version := 1; tp_hdrlen := 32;
       rx_ring := ring_of_two 2048 0x10000 0x10800;
       tx_ring := ring_of_two 2048 0x20000 0x20800;
       name := "eth0"; index := 2; peer := Some 1%nat; sll_protocol := 3;
       mem := mem_of_two 0x10000 f0 0x10800 zero_frame |} ].

(** The machine once [afpacket_daq_msg_receive] has returned, or [m]
    itself if it does not return. *)
Definition after_receive {hdrs : Headers} (fuel : nat) (m : Machine) : Machine :=
  match afpacket_daq_msg_receive fuel m with
  | Ret (m', _, _) => m'
  | _ => m
  end.

(** Inline mode, no filter, a 100-byte frame on eth0, and the TX ring of
    eth1 full (its cursor slot still holds a send request). *)
Definition m_bridge_tx_full : Machine :=
  machine_of (started_context (bridged_pair (user_frame 100 1) 1) None) [PollTimeout].

(** The same with the TX ring of eth1 free. *)
Definition m_bridge : Machine :=
  machine_of (started_context (bridged_pair (user_frame 100 1) 0) None) [PollTimeout].

(** The descriptor a message pointer leads to. *)
Definition message_desc (m : Machine) (msg0 : msg_ref) : option desc_ref :=
  match msg0 with
  | MsgNull => None
  | MsgCurr => Some (msg (curr_msg (afpc m)))
  | MsgOther m0 => Some (msg m0)
  end.

(** Byte [j] of the packet the current descriptor points to. *)
Definition delivered_byte (m : Machine) (j : Z) : option Z :=
  match desc_data (curr_packet (afpc m)) with
  | Some dp =>
    match read_data m dp with
    | Ret view => Some (view j)
    | _ => None
    end
  | None => None
  end.

(** A 100-byte frame whose header reports a stripped tag: TCI [tci],
    TPID [tpid], and the status word [status]. *)
Definition vlan_frame (status tci tpid : Z) : Frame :=
  {| hdr := {| tp_status := status; tp_len := 100; tp_snaplen := 100; tp_mac := 80;
               tp_sec := 1; tp_nsec := 5000; tp_vlan_tci := tci; tp_vlan_tpid := tpid |};
     bytes := fun a => a mod 256 |}.

(** Passive capture on eth0, no filter, with [f] in slot 0. *)
Definition m_one_frame (f : Frame) : Machine :=
  machine_of (started_context [eth0_started f zero_frame] None) [PollTimeout].

(** A frame header whose capture length makes the 32-bit sum with the
    MAC offset wrap: 80 + (2^32 - 16) is 64 modulo 2^32. *)
Definition wrapping_frame : Frame :=
  {| hdr := {| tp_status := 1; tp_len := 100; tp_snaplen := 2 ^ 32 - 16; tp_mac := 80;
               tp_sec := 1; tp_nsec := 5000; tp_vlan_tci := 0; tp_vlan_tpid := 0 |};
     bytes := fun _ => 0 |}.

(** Passive capture on eth0 with nothing in the ring, and [poll]
    answering as [script] says. *)
Definition m_idle (script : list poll_outcome) : Machine :=
  machine_of (started_context [eth0_started zero_frame zero_frame] None) script.

(** The tokens of a colon-separated string, and those that are not
    empty. *)
Fixpoint split_colon (s : string) : list string :=
  match s with
  | EmptyString => [EmptyString]
  | String c rest =>
    if Ascii.eqb c ":" then EmptyString :: split_colon rest
    else match split_colon rest with
         | t :: ts => String c t :: ts
         | [] => [String c EmptyString]
         end
  end.

Definition nonempty_tokens (s : string) : list string :=
  List.filter (fun t => negb (t =? "")%string) (split_colon s).

(** The parsing loop in terms of the non-empty tokens: the length check
    and [parse_token] for each in turn. *)
Fixpoint parse_tokens {hdrs : Headers} (env : InitEnv) (mode : DAQ_Mode)
    (toks : list string) (st : parse_state) : outcome (errmsg + parse_state) :=
  match toks with
  | [] => Ret (inr st)
  | tok :: rest =>
    if IFNAMSIZ <=? Z.of_nat (String.length tok) then
      Ret (inl (Err_interface_name_too_long (Z.of_nat (String.length tok))))
    else
      match parse_token env mode tok st with
      | Parse_error e => Ret (inl e)
      | Parse_next st' => parse_tokens env mode rest st'
      | Parse_break st' => Ret (inr st')
      | Parse_fault => Fault
      end
  end.

(** What holds of the state of the parsing loop between two rounds. *)
Definition parse_inv (mode : DAQ_Mode) (st : parse_state) : Prop :=
  let '(insts, intf_count, num_intfs) := st in
  intf_count = Z.of_nat (length insts) /\
  intf_count < AF_PACKET_MAX_INTERFACES /\
  0 <= num_intfs <= Z.of_nat (length insts) /\
  (is_passive mode = false -> num_intfs = 0 \/ num_intfs = 1).

(** The instance [a] is bridged within [l]: its peer is an instance of
    [l] other than itself, whose peer is [a]. *)
Definition paired (l : list AFPacketInstance) (a : AFPacketInstance) : Prop :=
  exists b, In b l /\ peer a = Some (self b) /\ peer b = Some (self a) /\ self a <> self b.

(** What holds between two rounds of the parsing loop outside passive
    mode, once the names in [done] have been read and when no name
    occurs twice: the instances carry these names, latest first, at
    distinct addresses, and all are bridged in pairs but the latest when
    [num_intfs] is 1. *)
Definition pair_inv (done : list string) (st : parse_state) : Prop :=
  let '(insts, _, num_intfs) := st in
  map name insts = rev done /\
  (forall i, In i insts -> (self i < length insts)%nat) /\
  List.NoDup (map self insts) /\
  ((num_intfs = 0 /\ forall a, In a insts -> paired insts a) \/
   (num_intfs = 1 /\
    exists i1 rest, insts = i1 :: rest /\ peer i1 = None /\
                    forall a, In a rest -> paired rest a)).

(** The entries below [idx] hold the address and the link of their frame. *)
Definition filled (ring : AFPacketRing) (es : list AFPacketEntry) (idx : Z) : Prop :=
  let fpb := tp_block_size (layout ring) / tp_frame_size (layout ring) in
  forall j : Z, 0 <= j < idx ->
    es !! Z.to_nat j =
      Some {| next := Some (Z.to_nat (j + 1));
              raw := start ring + (j / fpb) * tp_block_size (layout ring)
                     + (j mod fpb) * tp_frame_size (layout ring) |}.

(** ** Statistics, shutdown and the accessors *)

(** What the module uses of code that is not part of this source file,
    besides the constants of [Headers]. *)
Class Externals := {
  ARPHRD_ETHER : Z;                                 (* net/if_arp.h *)
  sfbpf_freecode : sfbpf_program -> sfbpf_program   (* sfbpf.h: the program once freed *)
}.

(** [struct tpacket_stats], as getsockopt(PACKET_STATISTICS) fills it;
    both fields are unsigned ints. *)
Record tpacket_stats := {
  tp_packets : Z;
  tp_drops : Z
}.

Definition set_state (st : DAQ_State) (c : AFPacket_Context) : AFPacket_Context :=
  {| device := device c; snaplen := snaplen c; timeout := timeout c; afpc_size := afpc_size c;
     debug := debug c; instances := instances c; intf_count := intf_count c; fcode := fcode c;
     break_loop := break_loop c; stats := stats c; state := st; errbuf := errbuf c;
     fanout_cfg := fanout_cfg c; curr_instance := curr_instance c; curr_msg := curr_msg c;
     curr_packet := curr_packet c |}.

Definition set_fcode (f : sfbpf_program) (c : AFPacket_Context) : AFPacket_Context :=
  {| device := device c; snaplen := snaplen c; timeout := timeout c; afpc_size := afpc_size c;
     debug := debug c; instances := instances c; intf_count := intf_count c; fcode := f;
     break_loop := break_loop c; stats := stats c; state := state c; errbuf := errbuf c;
     fanout_cfg := fanout_cfg c; curr_instance := curr_instance c; curr_msg := curr_msg c;
     curr_packet := curr_packet c |}.

Section Lifecycle.
Context {hdrs : Headers} {exts : Externals}.

(** The body of the loop of [update_hw_stats] for one instance
    (lines 547-555): [kernel fd] is what getsockopt(fd, PACKET_STATISTICS)
    answers, [None] when the call fails.  The difference is taken on
    unsigned ints and added to a uint64_t. *)
Definition add_hw_stats (kernel : Z -> option tpacket_stats) (s : DAQ_Stats)
    (instance : AFPacketInstance) : DAQ_Stats :=
  match kernel (fd instance) with
  | Some kstats =>
    {| hw_packets_received :=
         u64 (hw_packets_received s + u32 (tp_packets kstats - tp_drops kstats));
       hw_packets_dropped := u64 (hw_packets_dropped s + tp_drops kstats);
       packets_filtered := packets_filtered s;
       packets_injected := packets_injected s;
       verdicts := verdicts s |}
  | None => s
  end.

Definition update_hw_stats (kernel : Z -> option tpacket_stats) (c : AFPacket_Context)
    : AFPacket_Context :=
  match state c with
  | DAQ_STATE_STARTED => set_stats (fold_left (add_hw_stats kernel) (instances c) (stats c)) c
  | _ => c
  end.

(** [af_packet_close], for a context that is not null: the instances
    are destroyed one by one, which empties the list. *)
Definition af_packet_close (kernel : Z -> option tpacket_stats) (c : AFPacket_Context)
    : AFPacket_Context * Z :=
  let c1 := update_hw_stats kernel c in
  let c2 := set_instances [] c1 in
  let c3 := set_fcode (sfbpf_freecode (fcode c2)) c2 in
  (set_state DAQ_STATE_STOPPED c3, 0).

(** [reset_stats] zeroes the counters; its readings of
    PACKET_STATISTICS, which clear the counters of the kernel, leave the
    context alone. *)
Definition reset_stats (c : AFPacket_Context) : AFPacket_Context :=
  set_stats zero_stats c.

Definition afpacket_daq_stop (kernel : Z -> option tpacket_stats) (c : AFPacket_Context)
    : AFPacket_Context * daq_rc :=
  (fst (af_packet_close kernel c), DAQ_SUCCESS).

Definition afpacket_daq_check_status (c : AFPacket_Context) : DAQ_State := state c.

(** The statistics are copied to the caller's structure. *)
Definition afpacket_daq_get_stats (kernel : Z -> option tpacket_stats) (c : AFPacket_Context)
    : AFPacket_Context * DAQ_Stats * daq_rc :=
  let c1 := update_hw_stats kernel c in
  (c1, stats c1, DAQ_SUCCESS).

Definition afpacket_daq_reset_stats (c : AFPacket_Context) : AFPacket_Context :=
  reset_stats c.

Definition afpacket_daq_get_snaplen (c : AFPacket_Context) : Z := snaplen c.

(** [afpacket_daq_get_device_index] returns an int: the index of the
    interface, or DAQ_ERROR_NODEV. *)
Fixpoint device_index_loop (l : list AFPacketInstance) (device : string) : Z + daq_rc :=
  match l with
  | [] => inr DAQ_ERROR_NODEV
  | instance :: rest =>
    if (device =? name instance)%string then inl (index instance)
    else device_index_loop rest device
  end.

Definition afpacket_daq_get_device_index (c : AFPacket_Context) (device : string)
    : Z + daq_rc :=
  device_index_loop (instances c) device.




End Lifecycle.

(** The sum of [f] over the kernel's answers for the instances of [l]. *)
Fixpoint kernel_total (f : tpacket_stats -> Z) (kernel : Z -> option tpacket_stats)
    (l : list AFPacketInstance) : Z :=
  match l with
  | [] => 0
  | instance :: rest =>
    match kernel (fd instance) with
    | Some kstats => f kstats
    | None => 0
    end + kernel_total f kernel rest
  end.

(** What the parsing loop keeps of the instances it has created for the
    names in [done]: they carry these names, latest first, each with the
    interface index the system gave for its name, in passive mode none
    has a peer, and none has a TX ring yet. *)
Definition created_inv (env : InitEnv) (mode : DAQ_Mode) (done : list string)
    (st : parse_state) : Prop :=
  let '(insts, _, _) := st in
  map name insts = rev done /\
  (forall i, In i insts -> env_ifindex env (name i) = Some (index i)) /\
  (is_passive mode = true -> forall i, In i insts -> peer i = None) /\
  (forall i, In i insts -> ring_size (tx_ring i) = 0).

(** A platform for the examples: Ethernet is hardware type 1, and a
    freed filter program is the null program. *)
#[global] Instance linux_exts : Externals := {|
  ARPHRD_ETHER := 1;
  sfbpf_freecode := fun _ => None
|}.

(** eth0 and eth1 started in passive mode, with the kernel counters
    [kernel_after_burst] below. *)
Definition two_passive : AFPacket_Context :=
  started_context
    [ {| self := 1; fd := 4; tp_version := 1; tp_hdrlen := 32;
         rx_ring := ring_of_two 2048 0x10000 0x10800; tx_ring := no_ring;
         name := "eth1"; index := 3; peer := None; sll_protocol := 3;
         mem := fun _ => zero_frame |};
      eth0_started zero_frame zero_frame ] None.

Definition kernel_after_burst (fd : Z) : option tpacket_stats :=
  if fd =? 3 then Some {| tp_packets := 1000; tp_drops := 10 |}
  else if fd =? 4 then Some {| tp_packets := 500; tp_drops := 0 |}
  else None.

(** The first instance of [l] with the interface index [idx] is [i]. *)
Definition first_with_index (l : list AFPacketInstance) (idx : Z) (i : AFPacketInstance)
    : Prop :=
  exists before after,
    l = before ++ i :: after /\ index i = idx /\ forall j, In j before -> index j <> idx.

(** The slot under the TX cursor of the instance at [q]: the instance,
    the index of the entry and the entry. *)
Definition tx_cursor_slot (l : list AFPacketInstance) (q : nat)
    : option (AFPacketInstance * nat * AFPacketEntry) :=
  match find_instance q l with
  | Some e =>
    match cursor (tx_ring e) with
    | Some c =>
      match entries (tx_ring e) !! c with
      | Some te => Some (e, c, te)
      | None => None
      end
    | None => None
    end
  | None => None
  end.

(** Inline mode on the bridged pair with the TX ring of eth1 free, when
    the next [send] fails. *)
Definition m_bridge_send_fails : Machine :=
  {| afpc := started_context (bridged_pair (user_frame 100 1) 0) None;
     polls := [PollTimeout]; sends := [false]; trace := [] |}.

(** The slot under the RX cursor of an instance: the index of the entry
    and the entry. *)
Definition rx_cursor_slot (i : AFPacketInstance) : option (nat * AFPacketEntry) :=
  match cursor (rx_ring i) with
  | Some c =>
    match entries (rx_ring i) !! c with
    | Some entry => Some (c, entry)
    | None => None
    end
  | None => None
  end.

(** The test of line 1049 on that slot. *)
Definition rx_has_packet {hdrs : Headers} (i : AFPacketInstance) : bool :=
  match rx_cursor_slot i with
  | Some (_, entry) => negb (Z.land (tp_status (hdr (mem i (raw entry)))) TP_STATUS_USER =? 0)
  | None => false
  end.

(** The machine once [afpacket_find_packet] has claimed [entry] of the
    instance [i] (lines 1051-1053). *)
Definition claimed (m : Machine) (i : AFPacketInstance) (entry : AFPacketEntry) : Machine :=
  update_machine_instance (self i)
    (fun i' => set_rx_ring (set_cursor (next entry) (rx_ring i')) i')
    (with_afpc (set_curr_instance (Some (self i)) (afpc m)) m).

(** [s] is what following [instance->next ? instance->next :
    afpc->instances] from the instance at [prev] visits, in order. *)
Fixpoint succ_chain (l : list AFPacketInstance) (prev : nat) (s : list AFPacketInstance)
    : Prop :=
  match s with
  | [] => True
  | y :: rest => next_or_first l prev = Some y /\ succ_chain l (self y) rest
  end.


(** The message the third case of [afpacket_wait_for_packet] writes for
    the revents [r] of a socket (lines 1095-1100). *)
Definition revents_error {hdrs : Headers} (r : Z) : errmsg :=
  if negb (Z.land r (Z.lor POLLHUP POLLRDHUP) =? 0) then Err_poll_hangup
  else if negb (Z.land r POLLERR =? 0) then Err_poll_error
  else Err_poll_invalid.

(** The address [set_up_ring] gives to slot [j] of a ring. *)
Definition slot_address (ring : AFPacketRing) (j : Z) : Z :=
  let fpb := tp_block_size (layout ring) / tp_frame_size (layout ring) in
  start ring + (j / fpb) * tp_block_size (layout ring)
  + (j mod fpb) * tp_frame_size (layout ring).

(** ** Starting the instances *)

(** What the kernel answers to the request for a ring. *)
Inductive ring_answer :=
  | Ring_created   (* setsockopt returns 0 *)
  | Ring_ENOMEM    (* it fails with ENOMEM *)
  | Ring_refused.  (* it fails with another error *)

(** What ioctl(SIOCGIFHWADDR) answers. *)
Inductive hwaddr_answer :=
  | Hwaddr_ENODEV
  | Hwaddr_failed
  | Hwaddr_family (sa_family : Z).

(** What the system answers to the calls [start_instance] makes for one
    instance, in the order of the calls. *)
Record StartOS := {
  os_bind : bool;                  (* bind succeeds *)
  os_so_error : option Z;          (* getsockopt(SO_ERROR): the pending error, if the call succeeds *)
  os_add_membership : bool;        (* setsockopt(PACKET_ADD_MEMBERSHIP) succeeds *)
  os_hwaddr : hwaddr_answer;
  os_hdrlen : option Z;            (* getsockopt(PACKET_HDRLEN): the header length, if the call succeeds *)
  os_set_version : bool;           (* setsockopt(PACKET_VERSION) succeeds *)
  os_reserve : bool;               (* setsockopt(PACKET_RESERVE) succeeds *)
  os_rx_ring : Z -> ring_answer;   (* setsockopt(PACKET_RX_RING) for the layout of an order *)
  os_tx_ring : Z -> ring_answer;   (* setsockopt(PACKET_TX_RING) likewise *)
  os_mmap : option Z;              (* the address mmap returns, None for MAP_FAILED *)
  os_mem : Z -> Frame;             (* the contents of the mapped region *)
  os_calloc_rx : bool;             (* calloc of the RX entries succeeds *)
  os_calloc_tx : bool;             (* calloc of the TX entries succeeds *)
  os_fanout : bool                 (* setsockopt(PACKET_FANOUT) succeeds *)
}.

(** The messages the start-up path writes to the error buffer.  The
    functions below return, beside the structure they work on, [None] for
    the return value that signals success (DAQ_SUCCESS or 0) and [Some e]
    for one that signals failure (DAQ_ERROR, DAQ_ERROR_NOMEM or -1), [e]
    being the message the function has written to [afpc->errbuf]: their
    callers only tell the two apart. *)
Inductive start_error :=
  | Start_bind_failed (device : string)
  | Start_pending_error
  | Start_membership_failed
  | Start_no_interface_type (device : string)
  | Start_invalid_interface_type (device : string) (arptype : Z)
  | Start_no_header_length
  | Start_no_version
  | Start_no_reservation (val : Z)
  | Start_ring_refused
  | Start_ring_no_memory (device : string)
  | Start_mmap_failed
  | Start_fanout_failed
  | Start_errmsg (e : errmsg).   (* a message of [calculate_layout] or [set_up_ring] *)

Definition set_layout (l : tpacket_req) (r : AFPacketRing) : AFPacketRing :=
  {| layout := l; ring_size := ring_size r; start := start r;
     entries := entries r; cursor := cursor r |}.

Definition set_ring_size (n : Z) (r : AFPacketRing) : AFPacketRing :=
  {| layout := layout r; ring_size := n; start := start r;
     entries := entries r; cursor := cursor r |}.

Definition set_start (a : Z) (r : AFPacketRing) : AFPacketRing :=
  {| layout := layout r; ring_size := ring_size r; start := a;
     entries := entries r; cursor := cursor r |}.

Definition set_version (version hdrlen : Z) (i : AFPacketInstance) : AFPacketInstance :=
  {| self := self i; fd := fd i; tp_version := version; tp_hdrlen := hdrlen;
     rx_ring := rx_ring i; tx_ring := tx_ring i; name := name i; index := index i;
     peer := peer i; sll_protocol := sll_protocol i; mem := mem i |}.

Definition set_mem (f : Z -> Frame) (i : AFPacketInstance) : AFPacketInstance :=
  {| self := self i; fd := fd i; tp_version := tp_version i; tp_hdrlen := tp_hdrlen i;
     rx_ring := rx_ring i; tx_ring := tx_ring i; name := name i; index := index i;
     peer := peer i; sll_protocol := sll_protocol i; mem := f |}.

Section Start.
Context {hdrs : Headers} {exts : Externals}.

Definition bind_instance_interface (os : StartOS) (instance : AFPacketInstance)
    : option start_error :=
  if negb (os_bind os) then Some (Start_bind_failed (name instance))
  else
    match os_so_error os with
    | Some err => if negb (err =? 0) then Some Start_pending_error else None
    | None => Some Start_pending_error
    end.

(** [iface_get_arptype] returns an int: a DAQ error code, which is
    negative, or the hardware type. *)
Definition iface_get_arptype (os : StartOS) : daq_rc + Z :=
  match os_hwaddr os with
  | Hwaddr_ENODEV => inl DAQ_ERROR_NODEV
  | Hwaddr_failed => inl DAQ_ERROR
  | Hwaddr_family sa_family => inr sa_family
  end.

(** [determine_version]; the header length is stored as it is read,
    before the version is set. *)
Definition determine_version (os : StartOS) (instance : AFPacketInstance)
    : AFPacketInstance * option start_error :=
  match os_hdrlen os with
  | None => (instance, Some Start_no_header_length)
  | Some val =>
    let instance1 := set_version (tp_version instance) (u32 val) instance in
    if negb (os_set_version os) then (instance1, Some Start_no_version)
    else
      let instance2 := set_version TPACKET_V2 (u32 val) instance in
      if negb (os_reserve os) then (instance2, Some (Start_no_reservation VLAN_TAG_LEN))
      else (instance2, None)
  end.

(** The loop of [create_ring] from [order] down to 0; four rounds at
    most.  [answer order] is what the kernel says to the layout of that
    order.  The layout of the last attempt stays in the ring. *)
Fixpoint create_ring_loop (fuel : nat) (answer : Z -> ring_answer) (afpc : AFPacket_Context)
    (instance : AFPacketInstance) (ring : AFPacketRing) (order : Z)
    : outcome (AFPacketRing * option start_error) :=
  if order <? 0 then Ret (ring, Some (Start_ring_no_memory (name instance)))
  else
    match fuel with
    | O => OutOfFuel
    | S fuel' =>
      bind (calculate_layout afpc (layout ring) (tp_hdrlen instance) order)
        (fun '(afpc', layout', rc) =>
      let ring1 := set_layout layout' ring in
      match rc with
      | DAQ_SUCCESS =>
        match answer order with
        | Ring_ENOMEM => create_ring_loop fuel' answer afpc instance ring1 (order - 1)
        | Ring_refused => Ret (ring1, Some Start_ring_refused)
        | Ring_created =>
          Ret (set_ring_size (u32 (tp_block_size layout' * tp_block_nr layout')) ring1, None)
        end
      | _ => Ret (ring1, Some (Start_errmsg (errbuf afpc')))
      end)
    end.

Definition create_ring (answer : Z -> ring_answer) (afpc : AFPacket_Context)
    (instance : AFPacketInstance) (ring : AFPacketRing)
    : outcome (AFPacketRing * option start_error) :=
  create_ring_loop 4 answer afpc instance ring DEFAULT_ORDER.

(** [mmap_rings]: the RX ring starts at the address of the mapping and
    the TX ring, if there is one, right after it. *)
Definition mmap_rings (os : StartOS) (instance : AFPacketInstance)
    : AFPacketInstance * option start_error :=
  match os_mmap os with
  | None => (instance, Some Start_mmap_failed)
  | Some buffer =>
    let instance1 := set_rx_ring (set_start buffer (rx_ring instance))
                                 (set_mem (os_mem os) instance) in
    if negb (ring_size (tx_ring instance1) =? 0) then
      (set_tx_ring (set_start (buffer + ring_size (rx_ring instance1)) (tx_ring instance1))
                   instance1, None)
    else (instance1, None)
  end.

Definition configure_fanout (os : StartOS) : option start_error :=
  if negb (os_fanout os) then Some Start_fanout_failed else None.

(** [set_up_ring] as a step of [start_instance]. *)
Definition set_up_ring_step (calloc_ok : bool) (afpc : AFPacket_Context)
    (instance : AFPacketInstance) (ring : AFPacketRing)
    : outcome (AFPacketRing * option start_error) :=
  bind (set_up_ring calloc_ok afpc instance ring) (fun '(afpc', ring', rc) =>
  match rc with
  | DAQ_SUCCESS => Ret (ring', None)
  | _ => Ret (ring', Some (Start_errmsg (errbuf afpc')))
  end).

Definition has_peer (instance : AFPacketInstance) : bool :=
  match peer instance with Some _ => true | None => false end.

(** The last steps of [start_instance] (lines 518-533), once the
    kernel has created the rings: map them, build the user-side rings and
    join the fan-out group. *)
Definition map_and_set_up (os : StartOS) (afpc : AFPacket_Context)
    (instance : AFPacketInstance) : outcome (AFPacketInstance * option start_error) :=
  match mmap_rings os instance with
  | (instance4, Some e) => Ret (instance4, Some e)
  | (instance4, None) =>
    bind (set_up_ring_step (os_calloc_rx os) afpc instance4 (rx_ring instance4))
      (fun '(rx', r) =>
    let instance5 := set_rx_ring rx' instance4 in
    match r with
    | Some e => Ret (instance5, Some e)
    | None =>
      bind (if has_peer instance5
            then set_up_ring_step (os_calloc_tx os) afpc instance5 (tx_ring instance5)
            else Ret (tx_ring instance5, None)) (fun '(tx', r) =>
      let instance6 := set_tx_ring tx' instance5 in
      match r with
      | Some e => Ret (instance6, Some e)
      | None =>
        if PACKET_FANOUT && fanout_enabled (fanout_cfg afpc) then
          Ret (instance6, configure_fanout os)
        else Ret (instance6, None)
      end)
    end)
  end.

Definition start_instance (os : StartOS) (afpc : AFPacket_Context)
    (instance : AFPacketInstance) : outcome (AFPacketInstance * option start_error) :=
  match bind_instance_interface os instance with
  | Some e => Ret (instance, Some e)
  | None =>
    if negb (os_add_membership os) then Ret (instance, Some Start_membership_failed)
    else
      match iface_get_arptype os with
      | inl _ => Ret (instance, Some (Start_no_interface_type (name instance)))
      | inr arptype =>
        if arptype <? 0 then Ret (instance, Some (Start_no_interface_type (name instance)))
        else if negb (arptype =? ARPHRD_ETHER) then
          Ret (instance, Some (Start_invalid_interface_type (name instance) arptype))
        else
          match determine_version os instance with
          | (instance1, Some e) => Ret (instance1, Some e)
          | (instance1, None) =>
            bind (create_ring (os_rx_ring os) afpc instance1 (rx_ring instance1))
              (fun '(rx, r) =>
            let instance2 := set_rx_ring rx instance1 in
            match r with
            | Some e => Ret (instance2, Some e)
            | None =>
              bind (if has_peer instance2
                    then create_ring (os_tx_ring os) afpc instance2 (tx_ring instance2)
                    else Ret (tx_ring instance2, None)) (fun '(tx, r) =>
              let instance3 := set_tx_ring tx instance2 in
              match r with
              | Some e => Ret (instance3, Some e)
              | None => map_and_set_up os afpc instance3
              end)
            end)
          end
      end
  end.

(** The loop of [afpacket_daq_start] over the instances; [os] gives the
    answers of the system for the instance at each address. *)
Fixpoint start_loop (os : nat -> StartOS) (afpc : AFPacket_Context)
    (todo : list AFPacketInstance) : outcome (list AFPacketInstance * option start_error) :=
  match todo with
  | [] => Ret ([], None)
  | instance :: rest =>
    bind (start_instance (os (self instance)) afpc instance) (fun '(instance', r) =>
    match r with
    | Some e => Ret (instance' :: rest, Some e)
    | None =>
      bind (start_loop os afpc rest) (fun '(rest', r') => Ret (instance' :: rest', r'))
    end)
  end.

Definition afpacket_daq_start (os : nat -> StartOS) (afpc : AFPacket_Context)
    : outcome (AFPacket_Context * daq_rc * option start_error) :=
  bind (start_loop os afpc (instances afpc)) (fun '(insts, r) =>
  let afpc1 := set_instances insts afpc in
  match r with
  | Some e => Ret (afpc1, DAQ_ERROR, Some e)
  | None => Ret (set_state DAQ_STATE_STARTED (reset_stats afpc1), DAQ_SUCCESS, None)
  end).

End Start.

(** The system lets the instance start: every call succeeds, the
    interface is an Ethernet, the kernel grants the rings at the first
    request, and the mapping is at [buffer]. *)
Definition os_grants {exts : Externals} (os : StartOS) (hdrlen buffer : Z) : Prop :=
  0 <= ARPHRD_ETHER /\
  os_bind os = true /\ os_so_error os = Some 0 /\ os_add_membership os = true /\
  os_hwaddr os = Hwaddr_family ARPHRD_ETHER /\
  os_hdrlen os = Some hdrlen /\ os_set_version os = true /\ os_reserve os = true /\
  os_rx_ring os DEFAULT_ORDER = Ring_created /\ os_tx_ring os DEFAULT_ORDER = Ring_created /\
  os_mmap os = Some buffer /\ os_calloc_rx os = true /\ os_calloc_tx os = true /\
  os_fanout os = true.

(** Every slot of the ring points to a frame inside [lo, hi). *)
Definition ring_within (r : AFPacketRing) (lo hi : Z) : Prop :=
  forall j e, entries r !! j = Some e ->
    lo <= raw e /\ raw e + tp_frame_size (layout r) <= hi.

(** The sizes for which the layout computation is free of wrap-around:
    eight pages and the frame size fit 32 bits with room to spare, and the
    budget of a ring is below 2^31. *)
Definition layout_sizes_ok {hdrs : Headers} (afpc : AFPacket_Context) (tp_hdrlen : Z) : Prop :=
  0 < getpagesize /\ getpagesize * 8 < 2 ^ 32 /\
  0 < layout_frame_size tp_hdrlen (snaplen afpc) <= 2 ^ 31 /\
  0 <= afpc_size afpc < 2 ^ 31.

(** A kernel that is short of memory for the first request of a ring. *)
Definition os_eth0_retry : StartOS :=
  {| os_bind := true; os_so_error := Some 0; os_add_membership := true;
     os_hwaddr := Hwaddr_family 1; os_hdrlen := Some 32; os_set_version := true;
     os_reserve := true;
     os_rx_ring := fun order => if order =? 3 then Ring_ENOMEM else Ring_created;
     os_tx_ring := fun _ => Ring_created;
     os_mmap := Some 0x7f0000000000; os_mem := fun _ => zero_frame;
     os_calloc_rx := true; os_calloc_tx := true; os_fanout := true |}.

(** eth0 as [afpacket_daq_initialize] leaves it, with the header length
    known. *)
Definition eth0_created : AFPacketInstance :=
  {| self := 0; fd := 3; tp_version := 0; tp_hdrlen := 32;
     rx_ring := no_ring; tx_ring := no_ring; name := "eth0"; index := 2;
     peer := None; sll_protocol := 3; mem := fun _ => zero_frame |}.

(** What [start_instance] has made of [instance] when all goes well:
    the protocol version and header length are set, the RX ring is mapped
    at [buffer] with its slots inside its blocks and its cursor on slot 0,
    and the TX ring is as before for an instance without peer and mapped
    right after the RX ring for a bridged one. *)
Definition started_as {hdrs : Headers} (hdrlen buffer : Z) (mapped : Z -> Frame)
    (instance instance' : AFPacketInstance) : Prop :=
  self instance' = self instance /\ name instance' = name instance /\
  index instance' = index instance /\ peer instance' = peer instance /\
  fd instance' = fd instance /\
  tp_version instance' = TPACKET_V2 /\ tp_hdrlen instance' = u32 hdrlen /\
  mem instance' = mapped /\
  start (rx_ring instance') = buffer /\
  cursor (rx_ring instance') = Some 0%nat /\
  entries (rx_ring instance') <> [] /\
  ring_within (rx_ring instance') buffer (buffer + ring_size (rx_ring instance')) /\
  (peer instance = None -> tx_ring instance' = tx_ring instance) /\
  (peer instance <> None ->
   start (tx_ring instance') = buffer + ring_size (rx_ring instance') /\
   ring_size (tx_ring instance') <> 0 /\
   cursor (tx_ring instance') = Some 0%nat /\
   entries (tx_ring instance') <> [] /\
   ring_within (tx_ring instance') (start (tx_ring instance'))
               (start (tx_ring instance') + ring_size (tx_ring instance'))).

(** A system on which every instance starts, with the ring of the
    instance at address [p] mapped at [0x7f0000000000 + p * 2^32]. *)
Definition os_all_granted (p : nat) : StartOS :=
  {| os_bind := true; os_so_error := Some 0; os_add_membership := true;
     os_hwaddr := Hwaddr_family 1; os_hdrlen := Some 32; os_set_version := true;
     os_reserve := true;
     os_rx_ring := fun _ => Ring_created; os_tx_ring := fun _ => Ring_created;
     os_mmap := Some (0x7f0000000000 + Z.of_nat p * 2 ^ 32); os_mem := fun _ => zero_frame;
     os_calloc_rx := true; os_calloc_tx := true; os_fanout := true |}.

(** The same system when the interface of the instance at address 0 is
    a loopback (hardware type 772), not an Ethernet. *)
Definition os_first_is_loopback (p : nat) : StartOS :=
  {| os_bind := true; os_so_error := Some 0; os_add_membership := true;
     os_hwaddr := Hwaddr_family (if (p =? 0)%nat then 772 else 1);
     os_hdrlen := Some 32; os_set_version := true; os_reserve := true;
     os_rx_ring := fun _ => Ring_created; os_tx_ring := fun _ => Ring_created;
     os_mmap := Some (0x7f0000000000 + Z.of_nat p * 2 ^ 32); os_mem := fun _ => zero_frame;
     os_calloc_rx := true; os_calloc_tx := true; os_fanout := true |}.

(** eth1 as [afpacket_daq_initialize] leaves it, and a passive context
    for eth0 and eth1 with a budget of 64 KiB for each ring. *)
Definition eth1_created : AFPacketInstance :=
  {| self := 1; fd := 4; tp_version := 0; tp_hdrlen := 0;
     rx_ring := no_ring; tx_ring := no_ring; name := "eth1"; index := 3;
     peer := None; sll_protocol := 3; mem := fun _ => zero_frame |}.

Definition ctx_two_created : AFPacket_Context :=
  {| device := "eth0:eth1"; snaplen := 1518; timeout := -1; afpc_size := 65536;
     debug := 0; instances := [eth1_created; eth0_created]; intf_count := 2;
     fcode := None; break_loop := 0; stats := zero_stats; state := DAQ_STATE_INITIALIZED;
     errbuf := NoError; fanout_cfg := no_fanout; curr_instance := Some 1%nat;
     curr_msg := {| type := DAQ_MSG_TYPE_NONE; msg := DescNull |};
     curr_packet := no_packet |}.

(** Is there a variable named [key] whose value satisfies [p]? *)
Definition given (key : string) (p : option string -> bool)
    (vars : list (string * option string)) : bool :=
  existsb (fun kv => (fst kv =? key)%string && p (snd kv)) vars.

Definition has_value (v : option string) : bool :=
  match v with Some _ => true | None => false end.

Definition is_value (s : string) (v : option string) : bool :=
  match v with Some s' => (s' =? s)%string | None => false end.

(** ** Packets that fit their frame, and interrupted polls *)

(** A packet of [len] bytes fits the frames of the TX ring of [e]: the
    copy of line 881 starts past the tpacket header and ends inside the
    frame. *)
Definition fits_tx_frame {hdrs : Headers} (e : AFPacketInstance) (len : Z) : Prop :=
  SIZEOF_TPACKET2_HDR <= TPACKET_ALIGN (tp_hdrlen e) /\ 0 <= len /\
  TPACKET_ALIGN (tp_hdrlen e) + len <= tp_frame_size (layout (tx_ring e)).


(** The context after a run of interrupted [poll] calls: [break_loop] is
    set if the signal handler has called [afpacket_daq_breakloop] during
    one of them ([called] says for each whether it has). *)
Definition after_interruptions (called : list bool) (c : AFPacket_Context)
    : AFPacket_Context :=
  if existsb id called then set_break_loop 1 c else c.

(** * Properties *)

Section EngineFacts.
Context {hdrs : Headers}.

Lemma u32_small (x : Z) : 0 <= x < 2 ^ 32 -> u32 x = x.
Proof. intros H. unfold u32. apply Z.mod_small. exact H. Qed.

(** The doubling loop exits, without wrapping, whenever the frame size is
    at most 2^31: the block size it returns is the first one of the
    doubling sequence that is not below the frame size. *)
Lemma grow_block_size_exits (fuel : nat) :
  forall bs fs : Z,
    0 < bs < 2 ^ 32 -> fs <= 2 ^ 31 -> 2 ^ 31 <= bs * 2 ^ Z.of_nat fuel ->
    exists k : nat,
      grow_block_size fuel bs fs = Some (bs * 2 ^ Z.of_nat k) /\
      fs <= bs * 2 ^ Z.of_nat k < 2 ^ 32 /\
      (forall j : nat, (j < k)%nat -> bs * 2 ^ Z.of_nat j < fs).
Proof.
  induction fuel as [|fuel IH]; intros bs fs Hbs Hfs Hfuel.
  - exists 0%nat. simpl in *. rewrite Z.mul_1_r in *.
    destruct (Z.ltb_spec bs fs); [lia|].
    repeat split; intros; lia.
  - cbn [grow_block_size]. destruct (Z.ltb_spec bs fs) as [Hlt|Hge].
    + assert (Hd : u32 (Z.shiftl bs 1) = bs * 2).
      { rewrite Z.shiftl_mul_pow2 by lia. change (2 ^ 1) with 2.
        apply u32_small. lia. }
      rewrite Hd.
      destruct (IH (bs * 2) fs) as (k & Hk & Hb & Hmin); try lia.
      { rewrite Nat2Z.inj_succ, Z.pow_succ_r in Hfuel by lia. lia. }
      exists (S k). rewrite Nat2Z.inj_succ, Z.pow_succ_r by lia.
      replace (bs * (2 * 2 ^ Z.of_nat k)) with (bs * 2 * 2 ^ Z.of_nat k) by ring.
      split; [exact Hk|]. split; [exact Hb|].
      intros [|j] Hj.
      * simpl. lia.
      * rewrite Nat2Z.inj_succ, Z.pow_succ_r by lia.
        replace (bs * (2 * 2 ^ Z.of_nat j)) with (bs * 2 * 2 ^ Z.of_nat j) by ring.
        apply Hmin. lia.
    + exists 0%nat. simpl. rewrite Z.mul_1_r.
      repeat split; intros; lia.
Qed.

(** C7. [calculate_layout] returns a layout whose block size is the page
    size shifted left by the order and then doubled the least number of
    times that makes it reach the frame size; the counts step fails with
    DAQ_ERROR when block_size / frame_size is zero; otherwise
    block_nr = (size / frame_size) / frames_per_block and
    frame_nr = block_nr * frames_per_block. *)
Theorem calculate_layout_spec (afpc : AFPacket_Context) (layout0 : tpacket_req)
    (tp_hdrlen order : Z) :
  let frame_size := layout_frame_size tp_hdrlen (snaplen afpc) in
  let page_block := Z.shiftl getpagesize order in
  0 < page_block < 2 ^ 32 ->
  0 < frame_size <= 2 ^ 31 ->
  0 <= afpc_size afpc < 2 ^ 32 ->
  (exists (k : nat) afpc' layout rc,
     calculate_layout afpc layout0 tp_hdrlen order = Ret (afpc', layout, rc) /\
     tp_frame_size layout = frame_size /\
     tp_block_size layout = page_block * 2 ^ Z.of_nat k /\
     frame_size <= tp_block_size layout /\
     (forall j : nat, (j < k)%nat -> page_block * 2 ^ Z.of_nat j < frame_size) /\
     let frames_per_block := tp_block_size layout / frame_size in
     rc = DAQ_SUCCESS /\
     tp_block_nr layout = (afpc_size afpc / frame_size) / frames_per_block /\
     tp_frame_nr layout = tp_block_nr layout * frames_per_block) /\
  (forall block_size : Z,
     block_size / frame_size = 0 ->
     exists afpc' layout,
       layout_counts afpc layout0 frame_size block_size = Ret (afpc', layout, DAQ_ERROR)).
Proof.
  intros frame_size page_block Hpage Hfs Hsize. split.
  - unfold calculate_layout. fold frame_size. fold page_block.
    rewrite (u32_small page_block) by lia.
    assert (Hfuel : 2 ^ 31 <= page_block * 2 ^ Z.of_nat 32).
    { change (Z.of_nat 32) with 32. lia. }
    destruct (grow_block_size_exits 32 page_block frame_size Hpage (proj2 Hfs) Hfuel)
      as (k & Hk & Hb & Hmin).
    rewrite Hk. unfold layout_counts.
    destruct (Z.eqb_spec frame_size 0) as [|_]; [lia|].
    set (bs := page_block * 2 ^ Z.of_nat k) in *.
    assert (Hfpb : 1 <= bs / frame_size).
    { apply Z.div_le_lower_bound; lia. }
    destruct (Z.eqb_spec (bs / frame_size) 0) as [|_]; [lia|].
    exists k. eexists. eexists. eexists. split; [reflexivity|]. cbn.
    repeat split; try lia; try assumption.
    apply u32_small.
    set (fpb := bs / frame_size) in *.
    set (n := afpc_size afpc / frame_size).
    assert (0 <= n) by (apply Z.div_pos; lia).
    assert (n <= afpc_size afpc).
    { apply Z.div_le_upper_bound; [lia|]. nia. }
    assert (0 <= n / fpb) by (apply Z.div_pos; lia).
    assert (n / fpb * fpb <= n).
    { rewrite Z.mul_comm. apply Z.mul_div_le. lia. }
    nia.
  - intros block_size Hz. unfold layout_counts.
    destruct (Z.eqb_spec frame_size 0) as [|_]; [lia|].
    rewrite Hz. cbn. eexists. eexists. reflexivity.
Qed.

Lemma frame_loop_fills (ring : AFPacketRing) (b : Z) :
  let fs := tp_frame_size (layout ring) in
  let bs := tp_block_size (layout ring) in
  let fpb := bs / fs in
  let N := tp_frame_nr (layout ring) in
  0 < fs -> 0 <= bs < 2 ^ 32 -> 0 <= b -> (b + 1) * fpb <= N ->
  forall (fuel : nat) (frame : Z) (es : list AFPacketEntry),
    0 <= frame <= fpb -> fpb - frame <= Z.of_nat fuel ->
    Z.of_nat (length es) = N -> filled ring es (b * fpb + frame) ->
    exists es',
      frame_loop fuel ring (b * bs) frame (b * fpb + frame) es = ((b + 1) * fpb, es') /\
      Z.of_nat (length es') = N /\ filled ring es' ((b + 1) * fpb).
Proof.
  intros fs bs fpb N Hfs Hbs Hb HN.
  assert (Hfpb : 0 <= fpb) by (apply Z.div_pos; lia).
  assert (Hfit : fpb * fs <= bs) by (unfold fpb; rewrite Z.mul_comm; apply Z.mul_div_le; lia).
  induction fuel as [|fuel IH]; intros frame es Hframe Hfuel Hlen Hfill.
  - exists es. cbn [frame_loop]. replace frame with fpb in * by lia.
    replace (b * fpb + fpb) with ((b + 1) * fpb) in * by ring. auto.
  - cbn [frame_loop]. fold fs bs fpb N.
    destruct (Z.ltb_spec frame fpb) as [Hlt|Hge].
    + destruct (Z.ltb_spec (b * fpb + frame) N) as [_|Hbad]; [|nia].
      cbn [andb].
      replace (b * fpb + frame + 1) with (b * fpb + (frame + 1)) by ring.
      apply IH; try lia.
      * rewrite length_insert. exact Hlen.
      * intros j Hj. destruct (Z.eq_dec j (b * fpb + frame)) as [->|Hne].
        -- rewrite list_lookup_insert_eq by lia.
           assert (Hq : (b * fpb + frame) / fpb = b).
           { symmetry. apply (Z.div_unique _ _ b frame); lia. }
           assert (Hr : (b * fpb + frame) mod fpb = frame).
           { symmetry. apply (Z.mod_unique _ _ b frame); lia. }
           fold fs bs fpb. rewrite Hq, Hr.
           rewrite (u32_small (frame * fs)) by nia.
           replace (b * fpb + (frame + 1)) with (b * fpb + frame + 1) by ring.
           reflexivity.
        -- rewrite list_lookup_insert_ne by lia. apply Hfill. lia.
    + cbn [andb]. exists es. replace frame with fpb in * by lia.
      replace (b * fpb + fpb) with ((b + 1) * fpb) in * by ring. auto.
Qed.

Lemma block_loop_fills (ring : AFPacketRing) :
  let fs := tp_frame_size (layout ring) in
  let bs := tp_block_size (layout ring) in
  let fpb := bs / fs in
  let nb := tp_block_nr (layout ring) in
  let N := tp_frame_nr (layout ring) in
  0 < fs -> 0 <= bs -> nb * bs < 2 ^ 32 -> N = nb * fpb ->
  forall (fuel : nat) (block : Z) (es : list AFPacketEntry),
    0 <= block <= nb -> nb - block <= Z.of_nat fuel ->
    Z.of_nat (length es) = N -> filled ring es (block * fpb) ->
    exists es',
      block_loop fuel ring block (block * fpb) es = (N, es') /\
      Z.of_nat (length es') = N /\ filled ring es' N.
Proof.
  intros fs bs fpb nb N Hfs Hbs Hfit HN.
  assert (Hfpb : 0 <= fpb) by (apply Z.div_pos; lia).
  induction fuel as [|fuel IH]; intros block es Hblock Hfuel Hlen Hfill.
  - exists es. cbn [block_loop]. replace block with nb in * by lia.
    rewrite <- HN in Hfill. rewrite HN at 1. auto.
  - cbn [block_loop]. fold fs bs fpb nb N.
    destruct (Z.ltb_spec block nb) as [Hlt|Hge].
    + rewrite (u32_small (block * bs)) by nia.
      destruct (frame_loop_fills ring block Hfs) with (fuel := Z.to_nat N) (frame := 0) (es := es)
        as (es1 & Hloop & Hlen1 & Hfill1); fold fs bs fpb nb N; try nia.
      { rewrite Z.add_0_r. exact Hfill. }
      rewrite Z.add_0_r in Hloop. fold fs bs fpb nb N in Hloop, Hlen1, Hfill1.
      rewrite Hloop. apply IH; try lia. exact Hfill1.
    + exists es. replace block with nb in * by lia.
      rewrite <- HN in Hfill. rewrite HN at 1. auto.
Qed.

(** C8. After [set_up_ring] succeeds on a ring with at least one frame,
    slot b * frames_per_block + f holds the address
    start + b * block_size + f * frame_size; the [next] link of a slot is
    the following slot, and that of the last slot is slot 0; the cursor
    is slot 0. *)
Theorem set_up_ring_spec (afpc : AFPacket_Context) (instance : AFPacketInstance)
    (ring : AFPacketRing) :
  let fs := tp_frame_size (layout ring) in
  let bs := tp_block_size (layout ring) in
  let fpb := bs / fs in
  let nb := tp_block_nr (layout ring) in
  let N := tp_frame_nr (layout ring) in
  0 < fs -> 0 <= bs -> nb * bs < 2 ^ 32 -> N = nb * fpb -> 1 <= N ->
  exists ring',
    set_up_ring true afpc instance ring = Ret (afpc, ring', DAQ_SUCCESS) /\
    layout ring' = layout ring /\
    start ring' = start ring /\
    Z.of_nat (length (entries ring')) = N /\
    cursor ring' = Some 0%nat /\
    forall b f : Z, 0 <= b < nb -> 0 <= f < fpb ->
      let idx := b * fpb + f in
      exists e,
        entries ring' !! Z.to_nat idx = Some e /\
        raw e = start ring + b * bs + f * fs /\
        next e = Some (if idx =? N - 1 then 0%nat else Z.to_nat (idx + 1)).
Proof.
  intros fs bs fpb nb N Hfs Hbs Hfit HN HN1.
  assert (Hfpb : 0 <= fpb) by (apply Z.div_pos; lia).
  assert (Hnb : 0 < nb) by nia.
  unfold set_up_ring. cbn [negb]. fold fs bs fpb nb N.
  destruct (Z.eqb_spec fs 0) as [|_]; [lia|]. rewrite andb_false_r.
  destruct (block_loop_fills ring Hfs Hbs Hfit HN (Z.to_nat nb) 0
              (replicate (Z.to_nat N) {| next := None; raw := 0 |}))
    as (es & Hloop & Hlen & Hfill); fold fs bs fpb nb N; try lia.
  { rewrite length_replicate. lia. }
  { intros j Hj. lia. }
  fold fs bs fpb nb N in Hloop, Hlen, Hfill.
  change (0 * fpb) with 0 in Hloop. rewrite Hloop.
  destruct (Z.eqb_spec N 0) as [|_]; [lia|].
  assert (Hlast : es !! Z.to_nat (N - 1) =
                  Some {| next := Some (Z.to_nat (N - 1 + 1));
                          raw := start ring + ((N - 1) / fpb) * bs + ((N - 1) mod fpb) * fs |}).
  { apply Hfill. lia. }
  rewrite Hlast. eexists. split; [reflexivity|]. cbn.
  split; [reflexivity|]. split; [reflexivity|].
  split; [rewrite length_insert; exact Hlen|]. split; [reflexivity|].
  intros b f Hb Hf. set (idx := b * fpb + f).
  assert (Hidx : 0 <= idx < N) by (unfold idx; nia).
  assert (Hq : idx / fpb = b).
  { symmetry. apply (Z.div_unique _ _ b f); unfold idx; lia. }
  assert (Hr : idx mod fpb = f).
  { symmetry. apply (Z.mod_unique _ _ b f); unfold idx; lia. }
  destruct (Z.eqb_spec idx (N - 1)) as [He|Hne].
  - rewrite He. rewrite list_lookup_insert_eq by lia.
    eexists. split; [reflexivity|]. cbn. rewrite <- He, Hq, Hr. auto.
  - rewrite list_lookup_insert_ne by lia.
    rewrite (Hfill idx Hidx). fold fs bs fpb. rewrite Hq, Hr.
    eexists. split; [reflexivity|]. cbn. auto.
Qed.

Lemma read_variables_size_str (vars : list (string * option string)) :
  forall size_str dbg fo size_str' dbg' fo',
    read_variables vars (size_str, dbg, fo) = inr (size_str', dbg', fo') ->
    size_str' = buffer_size_mb_value vars size_str.
Proof.
  induction vars as [|[varKey varValue] rest IH]; intros size_str dbg fo size_str' dbg' fo' H.
  - cbn in *. congruence.
  - cbn [read_variables buffer_size_mb_value] in *.
    destruct (varKey =? "buffer_size_mb")%string; [eauto|].
    destruct (varKey =? "debug")%string; [eauto|].
    destruct (PACKET_FANOUT && (varKey =? "fanout_type")%string).
    { destruct varValue as [v|]; [|discriminate].
      repeat match type of H with
             | context [if ?c then _ else _] => destruct c
             end; try discriminate; eauto. }
    destruct (PACKET_FANOUT && (varKey =? "fanout_flag")%string).
    { destruct varValue as [v|]; [|discriminate].
      repeat match type of H with
             | context [if ?c then _ else _] => destruct c
             end; try discriminate; eauto. }
    eauto.
Qed.

Lemma count_rings_from (l : list AFPacketInstance) :
  forall acc : Z,
    fold_left (fun num_rings instance =>
                 num_rings + match peer instance with Some _ => 2 | None => 1 end) l acc
    = acc + unbridged l + 2 * bridged l.
Proof.
  unfold unbridged, bridged.
  induction l as [|i l IH]; intros acc; cbn [fold_left List.filter].
  - cbn. lia.
  - rewrite IH. destruct (peer i); cbn [length]; lia.
Qed.

Lemma count_rings_split (l : list AFPacketInstance) :
  count_rings l = unbridged l + 2 * bridged l.
Proof. unfold count_rings. rewrite count_rings_from. lia. Qed.

Lemma total_buffer_size_default (env : InitEnv) (size_str : option string) :
  size_str = Some "max"%string \/
  (size_str = None /\
   (env_AF_PACKET_BUFFER_SIZE env = None \/
    env_AF_PACKET_BUFFER_SIZE env = Some "max"%string)) ->
  total_buffer_size env size_str = AF_PACKET_DEFAULT_BUFFER_SIZE * MiB.
Proof.
  unfold total_buffer_size.
  intros [-> | [-> [-> | ->]]]; reflexivity.
Qed.

Lemma unbridged_bridged_pos (l : list AFPacketInstance) :
  l <> [] -> 0 < unbridged l + 2 * bridged l.
Proof.
  unfold unbridged, bridged. destruct l as [|i l]; [congruence|]. intros _.
  cbn [List.filter]. destruct (peer i); cbn [length]; lia.
Qed.

(** C5, amended.  [afpacket_daq_initialize] divides the total buffer
    (the last buffer_size_mb variable, else AF_PACKET_BUFFER_SIZE, else
    and for "max" 128 MiB) by the number of rings, counting one ring for
    an unbridged interface and two for every bridged interface, so four
    for a bridged pair.  For "eth0:eth1" in inline mode with the default
    buffer there are two instances, each the peer of the other, and
    32 MiB per ring. *)
Theorem initialize_buffer_split (env : InitEnv) (config : DAQ_ModuleConfig)
    (afpc : AFPacket_Context) :
  afpacket_daq_initialize env config = Ret (inr afpc) ->
  let size_str := buffer_size_mb_value (cfg_variables config) None in
  let total := total_buffer_size env size_str in
  let rings := unbridged (instances afpc) + 2 * bridged (instances afpc) in
  (size_str = Some "max"%string \/
   (size_str = None /\
    (env_AF_PACKET_BUFFER_SIZE env = None \/
     env_AF_PACKET_BUFFER_SIZE env = Some "max"%string)) ->
   total = 128 * MiB) /\
  (forall s, size_str = Some s -> s <> "max"%string ->
   total = u32 (u32 (u32 (env_strtoul env s) * 1024) * 1024)) /\
  (size_str = None -> total = total_buffer_size env (env_AF_PACKET_BUFFER_SIZE env)) /\
  0 < rings /\
  afpc_size afpc = total / rings /\
  exists afpc2 a b,
    afpacket_daq_initialize (hdrs := linux) host_env
      (config_of "eth0:eth1" DAQ_MODE_INLINE []) = Ret (inr afpc2) /\
    instances afpc2 = [b; a] /\ intf_count afpc2 = 2 /\
    name a = "eth0"%string /\ name b = "eth1"%string /\
    self a <> self b /\
    peer a = Some (self b) /\ peer b = Some (self a) /\
    afpc_size afpc2 = 32 * MiB.
Proof.
  intros H size_str total rings.
  split; [apply total_buffer_size_default|].
  split.
  { intros s Hs Hmax. unfold total. rewrite Hs. unfold total_buffer_size.
    destruct (String.eqb_spec "max" s) as [E|_]; [congruence|]. reflexivity. }
  split.
  { intros Hs. unfold total. rewrite Hs. unfold total_buffer_size.
    destruct (env_AF_PACKET_BUFFER_SIZE env); reflexivity. }
  unfold afpacket_daq_initialize in H.
  match type of H with (if ?c then _ else _) = _ => destruct c end; [discriminate|].
  destruct (parse_loop _ _ _ _ _) as [[e|[[insts ic] ni]]| | |]; cbn [bind] in H;
    try discriminate.
  match type of H with (if ?c then _ else _) = _ => destruct c eqn:Hc end; [discriminate|].
  destruct (read_variables _ _) as [e|[[s dbg] fo]] eqn:Hvars; [discriminate|].
  apply read_variables_size_str in Hvars.
  injection H as <-. cbn [instances afpc_size].
  subst rings total size_str. cbn [instances].
  split.
  { apply unbridged_bridged_pos. destruct insts; [discriminate|congruence]. }
  split.
  { rewrite count_rings_split, Hvars. reflexivity. }
  eexists. eexists. eexists.
  split; [vm_compute; reflexivity|].
  split; [vm_compute; reflexivity|].
  vm_compute. repeat split; congruence.
Qed.

Lemma find_update_instance (f : AFPacketInstance -> AFPacketInstance) (p q : nat)
    (l : list AFPacketInstance) :
  (forall i, self (f i) = self i) ->
  find_instance p (update_instance q f l)
  = match find_instance p l with
    | Some i => Some (if (self i =? q)%nat then f i else i)
    | None => None
    end.
Proof.
  intros Hself. induction l as [|i l IH]; [reflexivity|].
  cbn [update_instance map find_instance]. fold (update_instance q f l).
  destruct (self i =? q)%nat eqn:Hq; [rewrite Hself|];
    destruct (self i =? p)%nat eqn:Hp; rewrite ?Hq; auto.
Qed.

Lemma find_self (p : nat) (l : list AFPacketInstance) (i : AFPacketInstance) :
  find_instance p l = Some i -> self i = p.
Proof.
  induction l as [|j l IH]; cbn [find_instance]; [discriminate|].
  destruct (Nat.eqb_spec (self j) p); [intros [= <-]; assumption|exact IH].
Qed.

(** What a transmission leaves alone: the counters, the error buffer,
    the current message and descriptor, and the RX ring of every
    instance. *)
Lemma transmit_preserves (egress : option nat) (view : Z -> Z) (len : Z)
    (m m2 : Machine) (rc : daq_rc) :
  afpacket_transmit_packet egress view len m = Ret (m2, rc) ->
  stats (afpc m2) = stats (afpc m) /\
  errbuf (afpc m2) = errbuf (afpc m) /\
  curr_packet (afpc m2) = curr_packet (afpc m) /\
  forall p, option_map rx_ring (find_instance p (instances (afpc m2)))
            = option_map rx_ring (find_instance p (instances (afpc m))).
Proof.
  unfold afpacket_transmit_packet. destruct egress as [q|].
  2:{ intros [= <- <-]. auto. }
  destruct (find_instance q (instances (afpc m))) as [e|]; cbn [deref bind]; [|discriminate].
  destruct (negb (ring_size (tx_ring e) =? 0)).
  - destruct (cursor (tx_ring e)) as [c|]; cbn [deref bind]; [|discriminate].
    destruct (entries (tx_ring e) !! c) as [te|]; cbn [deref bind]; [|discriminate].
    destruct (negb (tp_status (hdr (mem e (raw te))) =? TP_STATUS_AVAILABLE)).
    { intros [= <- <-]. auto. }
    unfold do_syscall.
    destruct (negb match sends _ with b :: _ => b | [] => true end);
      intros [= <- <-]; (do 3 (split; [reflexivity|])); intros p;
      cbn [update_machine_instance with_afpc afpc instances set_instances];
      rewrite ?find_update_instance by reflexivity;
      destruct (find_instance p (instances (afpc m))) as [i|]; try reflexivity;
      cbn [option_map]; destruct (self i =? q)%nat eqn:E; cbn; rewrite ?E; reflexivity.
  - unfold do_syscall.
    destruct (negb match sends _ with b :: _ => b | [] => true end);
      intros [= <- <-]; (do 3 (split; [reflexivity|])); intros p;
      cbn [update_machine_instance with_afpc afpc instances set_instances];
      rewrite ?find_update_instance by reflexivity;
      destruct (find_instance p (instances (afpc m))) as [i|]; try reflexivity;
      cbn [option_map]; destruct (self i =? q)%nat eqn:E; cbn; rewrite ?E; reflexivity.
Qed.

Lemma transmit_returns (egress : option nat) (view : Z -> Z) (len : Z) (m : Machine) :
  tx_ready (instances (afpc m)) egress ->
  exists m2 rc, afpacket_transmit_packet egress view len m = Ret (m2, rc).
Proof.
  unfold tx_ready, afpacket_transmit_packet. destruct egress as [q|]; [|eauto].
  intros (e & -> & Hring). cbn [deref bind].
  destruct (Z.eqb_spec (ring_size (tx_ring e)) 0) as [Hz|Hnz]; cbn [negb].
  - unfold do_syscall. destruct (negb _); eauto.
  - destruct Hring as [|(c & te & Hc & Hte)]; [contradiction|].
    rewrite Hc. cbn [deref bind]. rewrite Hte. cbn [deref bind].
    destruct (negb (tp_status _ =? _)); [eauto|].
    unfold do_syscall. destruct (negb _); eauto.
Qed.

(** A full TX ring: the transient failure, and nothing changes. *)
Lemma transmit_tx_full (egress : option nat) (view : Z -> Z) (len : Z) (m : Machine) :
  tx_full (instances (afpc m)) egress ->
  afpacket_transmit_packet egress view len m = Ret (m, DAQ_ERROR_AGAIN).
Proof.
  intros (q & e & c & te & -> & He & Hsz & Hc & Hte & Hst).
  unfold afpacket_transmit_packet. rewrite He. cbn [deref bind].
  destruct (Z.eqb_spec (ring_size (tx_ring e)) 0); [contradiction|]. cbn [negb].
  rewrite Hc. cbn [deref bind]. rewrite Hte. cbn [deref bind].
  destruct (Z.eqb_spec (tp_status (hdr (mem e (raw te)))) TP_STATUS_AVAILABLE);
    [contradiction|reflexivity].
Qed.

(** [afpacket_free_packet] writes TP_STATUS_KERNEL to the frame of the
    entry the descriptor names, and changes nothing else. *)
Lemma free_packet_releases (desc : AFPacketPktDesc) (m : Machine) (p k : nat) :
  desc_entry desc = Some (p, k) ->
  is_Some (rx_slot_status m p k) ->
  exists m',
    afpacket_free_packet desc m = Ret m' /\
    rx_slot_status m' p k = Some TP_STATUS_KERNEL /\
    stats (afpc m') = stats (afpc m) /\
    errbuf (afpc m') = errbuf (afpc m) /\
    trace m' = trace m.
Proof.
  intros Hentry Hslot. unfold afpacket_free_packet, rx_slot_status in *.
  rewrite Hentry. cbn [deref bind].
  destruct (find_instance p (instances (afpc m))) as [i|] eqn:Hi;
    [|destruct Hslot; discriminate].
  destruct (entries (rx_ring i) !! k) as [entry|] eqn:He; [|destruct Hslot; discriminate].
  cbn [deref bind]. rewrite He. cbn [deref bind]. eexists. split; [reflexivity|].
  cbn [update_machine_instance with_afpc afpc instances set_instances].
  rewrite find_update_instance by reflexivity. rewrite Hi.
  apply find_self in Hi. rewrite Hi, Nat.eqb_refl. cbn. rewrite He. cbn.
  rewrite Z.eqb_refl. auto.
Qed.

Lemma find_instance_updated (f : AFPacketInstance -> AFPacketInstance) (q : nat)
    (l : list AFPacketInstance) (e : AFPacketInstance) :
  (forall i, self (f i) = self i) ->
  find_instance q l = Some e ->
  find_instance q (update_instance q f l) = Some (f e).
Proof.
  intros Hself He. rewrite find_update_instance by exact Hself. rewrite He.
  apply find_self in He. rewrite He, Nat.eqb_refl. reflexivity.
Qed.

(** A transmission to [q] leaves the other instances as they were. *)
Lemma transmit_others (q : nat) (view : Z -> Z) (len : Z) (m m2 : Machine) (rc : daq_rc) :
  afpacket_transmit_packet (Some q) view len m = Ret (m2, rc) ->
  forall q', q' <> q ->
    find_instance q' (instances (afpc m2)) = find_instance q' (instances (afpc m)).
Proof.
  unfold afpacket_transmit_packet.
  destruct (find_instance q (instances (afpc m))) as [e|]; cbn [deref bind]; [|discriminate].
  assert (Hupd : forall l f q', (forall i, self (f i) = self i) -> q' <> q ->
            find_instance q' (update_instance q f l) = find_instance q' l).
  { intros l f q' Hself Hq'. rewrite find_update_instance by exact Hself.
    destruct (find_instance q' l) as [j|] eqn:Hj; [|reflexivity].
    apply find_self in Hj. rewrite Hj.
    destruct (Nat.eqb_spec q' q); [contradiction|reflexivity]. }
  destruct (negb (ring_size (tx_ring e) =? 0)).
  - destruct (cursor (tx_ring e)) as [c|]; cbn [deref bind]; [|discriminate].
    destruct (entries (tx_ring e) !! c) as [te|]; cbn [deref bind]; [|discriminate].
    destruct (negb (tp_status (hdr (mem e (raw te))) =? TP_STATUS_AVAILABLE)).
    { intros [= <- <-]. reflexivity. }
    unfold do_syscall.
    destruct (negb match sends _ with b :: _ => b | [] => true end);
      intros [= <- <-] q' Hq';
      cbn [update_machine_instance with_afpc afpc instances set_instances];
      rewrite !Hupd by first [reflexivity | exact Hq']; reflexivity.
  - unfold do_syscall.
    destruct (negb match sends _ with b :: _ => b | [] => true end);
      intros [= <- <-] q' Hq';
      cbn [update_machine_instance with_afpc afpc instances set_instances];
      rewrite !Hupd by first [reflexivity | exact Hq']; reflexivity.
Qed.

(** A packet that fits the frame of the slot under the TX cursor, when
    that slot is available and [send] succeeds: the packet is copied into
    the frame past the aligned header, the frame gets the length and the
    status TP_STATUS_SEND_REQUEST, one [send] is made on the socket, and
    the cursor moves to the next slot. *)
Lemma transmit_queues (q : nat) (packet_data : Z -> Z) (len : Z) (m : Machine)
    (e : AFPacketInstance) (c : nat) (te : AFPacketEntry) :
  tx_cursor_slot (instances (afpc m)) q = Some (e, c, te) ->
  ring_size (tx_ring e) <> 0 ->
  tp_status (hdr (mem e (raw te))) = TP_STATUS_AVAILABLE ->
  head (sends m) <> Some false ->
  fits_tx_frame e len ->
  exists m' e',
    afpacket_transmit_packet (Some q) packet_data len m = Ret (m', DAQ_SUCCESS) /\
    find_instance q (instances (afpc m')) = Some e' /\
    cursor (tx_ring e') = next te /\
    entries (tx_ring e') = entries (tx_ring e) /\
    tp_status (hdr (mem e' (raw te))) = TP_STATUS_SEND_REQUEST /\
    tp_len (hdr (mem e' (raw te))) = len /\
    (forall j, 0 <= j < len ->
       bytes (mem e' (raw te)) (TPACKET_ALIGN (tp_hdrlen e) + j) = packet_data j) /\
    (forall a, a < TPACKET_ALIGN (tp_hdrlen e) \/ TPACKET_ALIGN (tp_hdrlen e) + len <= a ->
       bytes (mem e' (raw te)) a = bytes (mem e (raw te)) a) /\
    (forall a, a <> raw te -> mem e' a = mem e a) /\
    trace m' = Sys_send (fd e) :: trace m /\
    rx_ring e' = rx_ring e.
Proof.
  unfold tx_cursor_slot. intros Hslot Hsz Hst Hsend _.
  destruct (find_instance q (instances (afpc m))) as [e0|] eqn:He; [|discriminate].
  destruct (cursor (tx_ring e0)) as [c0|] eqn:Hc; [|discriminate].
  destruct (entries (tx_ring e0) !! c0) as [te0|] eqn:Hte; [|discriminate].
  injection Hslot as -> -> ->.
  unfold afpacket_transmit_packet. rewrite He. cbn [deref bind].
  destruct (Z.eqb_spec (ring_size (tx_ring e)) 0); [contradiction|]. cbn [negb].
  rewrite Hc. cbn [deref bind]. rewrite Hte. cbn [deref bind].
  rewrite Hst, Z.eqb_refl. cbn [negb].
  unfold do_syscall.
  assert (Hok : match sends (update_machine_instance q
                   (store_frame (raw te)
                      (set_status TP_STATUS_SEND_REQUEST
                         (set_len len
                            (set_bytes
                               (fun a => if (TPACKET_ALIGN (tp_hdrlen e) <=? a)
                                            && (a <? TPACKET_ALIGN (tp_hdrlen e) + len)
                                         then packet_data (a - TPACKET_ALIGN (tp_hdrlen e))
                                         else bytes (mem e (raw te)) a)
                               (mem e (raw te)))))) m)
                with b :: _ => b | [] => true end = true).
  { cbn [update_machine_instance with_afpc sends].
    destruct (sends m) as [|[|] ?]; cbn in Hsend; congruence. }
  rewrite Hok. cbn [negb].
  eexists. eexists. split; [reflexivity|].
  cbn [update_machine_instance with_afpc afpc instances set_instances trace].
  split.
  { apply find_instance_updated; [reflexivity|].
    apply find_instance_updated; [reflexivity|]. exact He. }
  cbn [set_tx_ring set_cursor store_frame tx_ring cursor entries mem rx_ring fd
       set_status set_len set_bytes hdr bytes tp_status tp_len].
  rewrite Z.eqb_refl. cbn [hdr tp_status tp_len bytes].
  repeat split.
  - intros j Hj. cbn [bytes set_status set_len set_bytes].
    destruct (Z.leb_spec (TPACKET_ALIGN (tp_hdrlen e)) (TPACKET_ALIGN (tp_hdrlen e) + j));
      [|lia].
    destruct (Z.ltb_spec (TPACKET_ALIGN (tp_hdrlen e) + j) (TPACKET_ALIGN (tp_hdrlen e) + len));
      [|lia].
    cbn [andb]. f_equal. lia.
  - intros a Ha. cbn [bytes set_status set_len set_bytes].
    destruct (Z.leb_spec (TPACKET_ALIGN (tp_hdrlen e)) a);
      destruct (Z.ltb_spec a (TPACKET_ALIGN (tp_hdrlen e) + len)); cbn [andb];
      try reflexivity; lia.
  - intros a Ha. destruct (Z.eqb_spec a (raw te)); [contradiction|reflexivity].
Qed.

(** Without a TX ring the packet goes out with [sendto], under the
    protocol its Ethernet header names. *)
Lemma transmit_sendto (q : nat) (packet_data : Z -> Z) (len : Z) (m : Machine)
    (e : AFPacketInstance) :
  find_instance q (instances (afpc m)) = Some e ->
  ring_size (tx_ring e) = 0 ->
  exists m' rc,
    afpacket_transmit_packet (Some q) packet_data len m = Ret (m', rc) /\
    trace m' = Sys_sendto (fd e) len (packet_data 12 * 256 + packet_data 13) :: trace m.
Proof.
  intros He Hz. unfold afpacket_transmit_packet. rewrite He. cbn [deref bind].
  rewrite Hz. cbn [Z.eqb negb]. unfold do_syscall.
  destruct (negb match sends _ with b :: _ => b | [] => true end);
    eexists; eexists; split; reflexivity.
Qed.

(** [afpacket_free_packet] leaves the instances other than that of the
    slot as they were. *)
Lemma free_packet_others (desc : AFPacketPktDesc) (m m' : Machine) (p k : nat) :
  desc_entry desc = Some (p, k) ->
  afpacket_free_packet desc m = Ret m' ->
  forall q, q <> p ->
    find_instance q (instances (afpc m')) = find_instance q (instances (afpc m)).
Proof.
  unfold afpacket_free_packet. intros ->. cbn [deref bind].
  destruct (find_instance p (instances (afpc m))) as [i|]; cbn [deref bind]; [|discriminate].
  destruct (entries (rx_ring i) !! k) as [entry|]; cbn [deref bind]; [|discriminate].
  intros [= <-] q Hq.
  cbn [update_machine_instance with_afpc afpc instances set_instances].
  rewrite find_update_instance by reflexivity.
  destruct (find_instance q (instances (afpc m))) as [j|] eqn:Hj; [|reflexivity].
  apply find_self in Hj. rewrite Hj.
  destruct (Nat.eqb_spec q p); [contradiction|reflexivity].
Qed.

(** The instance of the slot after [afpacket_free_packet]: the status of
    the frame is TP_STATUS_KERNEL, and that is all that has changed. *)
Lemma free_packet_self (desc : AFPacketPktDesc) (m m' : Machine) (p k : nat)
    (i : AFPacketInstance) (entry : AFPacketEntry) :
  desc_entry desc = Some (p, k) ->
  find_instance p (instances (afpc m)) = Some i ->
  entries (rx_ring i) !! k = Some entry ->
  afpacket_free_packet desc m = Ret m' ->
  find_instance p (instances (afpc m'))
  = Some (store_frame (raw entry) (set_status TP_STATUS_KERNEL (mem i (raw entry))) i).
Proof.
  unfold afpacket_free_packet. intros -> Hi He. cbn [deref bind].
  rewrite Hi. cbn [deref bind]. rewrite He. cbn [deref bind].
  intros [= <-].
  cbn [update_machine_instance with_afpc afpc instances set_instances].
  match goal with
  | |- find_instance p (update_instance p ?f _) = _ =>
    exact (find_instance_updated f p _ i (fun _ => eq_refl) Hi)
  end.
Qed.

(** C2, amended.  [afpacket_daq_msg_finalize] on the current message:
    a verdict outside the known set counts as pass; the counter of the
    sanitized verdict is incremented; pass, replace, whitelist and ignore
    transmit the frame to the peer of the ingress instance (without a
    peer nothing is sent), block, blacklist and retry transmit nothing;
    the slot of the frame is then released to the kernel and the call
    returns DAQ_SUCCESS.  Transmitting is [afpacket_transmit_packet]
    followed by the release: when the slot under the TX cursor of the
    peer is available, [send] succeeds and the packet fits the frame, the
    packet lies in that frame with its length and the status
    TP_STATUS_SEND_REQUEST, one [send] has been made on the socket of the
    peer and its cursor has moved on; a peer without TX ring gets the
    packet by [sendto].  When the TX ring of the peer is full nothing is
    sent and no instance but the ingress one changes, [packets_injected]
    stays as it was, and the error buffer is left unchanged: the
    transient failure is not recorded. *)
Theorem finalize_current_message (m : Machine) (verdict : Z) (p k : nat)
    (instance : AFPacketInstance) (dp : data_ptr) :
  msg (curr_msg (afpc m)) = DescCurr ->
  0 <= verdict ->
  length (verdicts (stats (afpc m))) = Z.to_nat MAX_DAQ_VERDICT ->
  desc_entry (curr_packet (afpc m)) = Some (p, k) ->
  desc_instance (curr_packet (afpc m)) = Some p ->
  desc_data (curr_packet (afpc m)) = Some dp ->
  dp_inst dp = p ->
  find_instance p (instances (afpc m)) = Some instance ->
  is_Some (entries (rx_ring instance) !! k) ->
  tx_ready (instances (afpc m)) (peer instance) ->
  let v := sanitize_verdict verdict in
  let m1 := with_afpc (count_verdict v (afpc m)) m in
  let view := fun j => bytes (mem instance (dp_frame dp)) (dp_off dp + j) in
  let len := desc_length (curr_packet (afpc m)) in
  let forwarded :=
    v = verdict_value DAQ_VERDICT_PASS \/ v = verdict_value DAQ_VERDICT_REPLACE \/
    v = verdict_value DAQ_VERDICT_WHITELIST \/ v = verdict_value DAQ_VERDICT_IGNORE in
  exists m',
    afpacket_daq_msg_finalize MsgCurr verdict m = Ret (m', DAQ_SUCCESS) /\
    (MAX_DAQ_VERDICT <= verdict -> v = verdict_value DAQ_VERDICT_PASS) /\
    (verdict < MAX_DAQ_VERDICT -> v = verdict) /\
    verdicts (stats (afpc m'))
    = <[Z.to_nat v := u64 (default 0 (verdicts (stats (afpc m)) !! Z.to_nat v) + 1)]>
        (verdicts (stats (afpc m))) /\
    packets_injected (stats (afpc m')) = packets_injected (stats (afpc m)) /\
    errbuf (afpc m') = errbuf (afpc m) /\
    rx_slot_status m' p k = Some TP_STATUS_KERNEL /\
    (v = verdict_value DAQ_VERDICT_BLOCK \/ v = verdict_value DAQ_VERDICT_BLACKLIST \/
     v = verdict_value DAQ_VERDICT_RETRY ->
     trace m' = trace m) /\
    (forwarded ->
     exists m2 rc,
       afpacket_transmit_packet (peer instance) view len m1 = Ret (m2, rc) /\
       afpacket_free_packet (curr_packet (afpc m)) m2 = Ret m' /\
       trace m' = trace m2) /\
    (tx_full (instances (afpc m)) (peer instance) -> trace m' = trace m) /\
    (forall q, q <> p -> ~ (forwarded /\ peer instance = Some q) ->
       find_instance q (instances (afpc m')) = find_instance q (instances (afpc m))) /\
    (tx_full (instances (afpc m)) (peer instance) ->
     forall q, q <> p ->
       find_instance q (instances (afpc m')) = find_instance q (instances (afpc m))) /\
    (forwarded -> peer instance = None -> trace m' = trace m) /\
    (forwarded ->
     forall q e, peer instance = Some q ->
       find_instance q (instances (afpc m)) = Some e -> ring_size (tx_ring e) = 0 ->
       trace m' = Sys_sendto (fd e) len (view 12 * 256 + view 13) :: trace m) /\
    (forwarded ->
     forall q e c te, peer instance = Some q -> q <> p ->
       tx_cursor_slot (instances (afpc m)) q = Some (e, c, te) ->
       ring_size (tx_ring e) <> 0 ->
       tp_status (hdr (mem e (raw te))) = TP_STATUS_AVAILABLE ->
       head (sends m) <> Some false ->
       fits_tx_frame e len ->
       exists e',
         find_instance q (instances (afpc m')) = Some e' /\
         cursor (tx_ring e') = next te /\
         entries (tx_ring e') = entries (tx_ring e) /\
         tp_status (hdr (mem e' (raw te))) = TP_STATUS_SEND_REQUEST /\
         tp_len (hdr (mem e' (raw te))) = len /\
         (forall j, 0 <= j < len ->
            bytes (mem e' (raw te)) (TPACKET_ALIGN (tp_hdrlen e) + j) = view j) /\
         (forall a, a <> raw te -> mem e' a = mem e a) /\
         trace m' = Sys_send (fd e) :: trace m) /\
    (forall entry, entries (rx_ring instance) !! k = Some entry ->
       ~ (forwarded /\ peer instance = Some p) ->
       find_instance p (instances (afpc m'))
       = Some (store_frame (raw entry)
                 (set_status TP_STATUS_KERNEL (mem instance (raw entry))) instance)).
Proof.
  intros Hmsg Hver Hlen Hentry Hinst Hdata Hdp Hfind Hk Hready v m1 view len forwarded.
  assert (Hv : 0 <= v < MAX_DAQ_VERDICT).
  { unfold v, sanitize_verdict, MAX_DAQ_VERDICT in *.
    destruct (Z.leb_spec 7 verdict); cbn; lia. }
  assert (Hn : exists n, verdicts (stats (afpc m)) !! Z.to_nat v = Some n).
  { apply lookup_lt_is_Some. rewrite Hlen. unfold MAX_DAQ_VERDICT in *. lia. }
  destruct Hn as [n Hn].
  set (old := default 0 (verdicts (stats (afpc m)) !! Z.to_nat v)).
  assert (Hold : old = n) by (unfold old; rewrite Hn; reflexivity).
  assert (Hslot1 : is_Some (rx_slot_status m1 p k)).
  { unfold rx_slot_status. cbn. rewrite Hfind. destruct Hk as [e ->]. eauto. }
  (* what follows the transmission, whatever it did *)
  assert (Htail : forall m2 : Machine,
            stats (afpc m2) = stats (afpc m1) ->
            errbuf (afpc m2) = errbuf (afpc m1) ->
            (forall q, option_map rx_ring (find_instance q (instances (afpc m2)))
                       = option_map rx_ring (find_instance q (instances (afpc m1)))) ->
            exists m',
              afpacket_free_packet (curr_packet (afpc m)) m2 = Ret m' /\
              verdicts (stats (afpc m'))
              = <[Z.to_nat v := u64 (old + 1)]> (verdicts (stats (afpc m))) /\
              packets_injected (stats (afpc m')) = packets_injected (stats (afpc m)) /\
              errbuf (afpc m') = errbuf (afpc m) /\
              rx_slot_status m' p k = Some TP_STATUS_KERNEL /\
              trace m' = trace m2).
  { intros m2 Hs He Hrx.
    destruct (free_packet_releases (curr_packet (afpc m)) m2 p k Hentry)
      as (m' & Hfree & Hst & Hs' & He' & Ht').
    { unfold rx_slot_status in *. specialize (Hrx p).
      destruct (find_instance p (instances (afpc m2))) as [i2|];
        destruct (find_instance p (instances (afpc m1))) as [i1|];
        cbn in Hrx; try discriminate; [|destruct Hslot1; discriminate].
      injection Hrx as ->.
      destruct (entries (rx_ring i1) !! k); [eauto|destruct Hslot1; discriminate]. }
    exists m'. rewrite Hs', He', Hs, He. unfold m1.
    cbn [with_afpc afpc count_verdict set_stats stats set_verdicts verdicts
         packets_injected errbuf].
    auto 10. }
  unfold afpacket_daq_msg_finalize. rewrite Hmsg. cbn [bind negb orb].
  fold v. destruct (Z.ltb_spec v 0) as [|_]; [lia|].
  rewrite Hn. cbn [deref bind].
  assert (Hm1 : with_afpc (set_stats (set_verdicts (<[Z.to_nat v := u64 (n + 1)]>
                  (verdicts (stats (afpc m)))) (stats (afpc m))) (afpc m)) m = m1).
  { unfold m1, count_verdict. fold old. rewrite Hold. reflexivity. }
  rewrite Hm1.
  assert (Hsan : (MAX_DAQ_VERDICT <= verdict -> v = verdict_value DAQ_VERDICT_PASS) /\
                 (verdict < MAX_DAQ_VERDICT -> v = verdict)).
  { unfold v, sanitize_verdict.
    destruct (Z.leb_spec MAX_DAQ_VERDICT verdict); split; intros; try reflexivity; lia. }
  destruct Hsan as [Hsan1 Hsan2].
  assert (Hfull : forall view' len',
            tx_full (instances (afpc m)) (peer instance) ->
            afpacket_transmit_packet (peer instance) view' len' m1 = Ret (m1, DAQ_ERROR_AGAIN)).
  { intros view' len' Hf. apply transmit_tx_full. exact Hf. }
  assert (Hpass : exists m2 rc,
            afpacket_transmit_packet (peer instance) view len m1 = Ret (m2, rc)).
  { apply transmit_returns. exact Hready. }
  destruct Hpass as (m2 & rc & Htx).
  destruct (transmit_preserves _ _ _ _ _ _ Htx) as (Hs2 & He2 & _ & Hrx2).
  destruct (Htail m2 Hs2 He2 Hrx2) as (mp & Hfp & Hvp & Hip & Hep & Hsp & Htp).
  destruct (Htail m1 eq_refl eq_refl (fun q => eq_refl))
    as (mb & Hfb & Hvb & Hib & Heb & Hsb & Htb).
  assert (Htable :
            (verdict_translation_table !! Z.to_nat v = Some DAQ_VERDICT_PASS /\ forwarded /\
             ~ (v = verdict_value DAQ_VERDICT_BLOCK \/ v = verdict_value DAQ_VERDICT_BLACKLIST \/
                v = verdict_value DAQ_VERDICT_RETRY)) \/
            (verdict_translation_table !! Z.to_nat v = Some DAQ_VERDICT_BLOCK /\ ~ forwarded)).
  { unfold forwarded. unfold MAX_DAQ_VERDICT in Hv.
    assert (Hcases : v = 0 \/ v = 1 \/ v = 2 \/ v = 3 \/ v = 4 \/ v = 5 \/ v = 6) by lia.
    clearbody v. clear - Hcases.
    destruct Hcases as [E|[E|[E|[E|[E|[E|E]]]]]]; rewrite E; cbn;
      first [left; split; [reflexivity|]; split; lia | right; split; [reflexivity|lia]]. }
  destruct Htable as [(Htab & Hf & Hnb)|(Htab & Hnf)]; rewrite Htab; cbn [deref bind].
  - (* the verdicts that forward *)
    rewrite Hinst. cbn [deref bind].
    unfold m1 at 1. cbn [with_afpc afpc instances count_verdict set_stats].
    rewrite Hfind. cbn [deref bind]. rewrite Hdata. cbn [deref bind].
    unfold read_data. unfold m1 at 1. cbn [with_afpc afpc instances count_verdict set_stats].
    rewrite Hdp, Hfind. cbn [deref bind]. fold view. fold len.
    rewrite Htx. cbn [bind]. rewrite Hfp. cbn [bind].
    pose proof (free_packet_others _ _ _ _ _ Hentry Hfp) as Hothers.
    exists mp.
    split; [reflexivity|]. split; [exact Hsan1|]. split; [exact Hsan2|].
    split; [exact Hvp|]. split; [exact Hip|]. split; [exact Hep|]. split; [exact Hsp|].
    split; [intros Hb; contradiction|].
    split; [intros _; exists m2, rc; auto|].
    split.
    { intros Hfl. rewrite (Hfull _ _ Hfl) in Htx. injection Htx as <- <-. exact Htp. }
    split.
    { intros q Hq Hnot. rewrite (Hothers q Hq).
      destruct (peer instance) as [q0|] eqn:Hpeer.
      - apply (transmit_others _ _ _ _ _ _ Htx).
        intros ->. apply Hnot. split; [exact Hf|reflexivity].
      - cbn in Htx. injection Htx as <- <-. reflexivity. }
    split.
    { intros Hfl q Hq. rewrite (Hothers q Hq).
      rewrite (Hfull _ _ Hfl) in Htx. injection Htx as <- <-. reflexivity. }
    split.
    { intros _ Hnone. rewrite Hnone in Htx. cbn in Htx. injection Htx as <- <-.
      exact Htp. }
    split.
    { intros _ q e Hq He Hz. rewrite Hq in Htx.
      destruct (transmit_sendto q view len m1 e He Hz) as (m2' & rc' & Htx' & Htr).
      rewrite Htx' in Htx. injection Htx as <- <-. rewrite Htp. exact Htr. }
    split.
    { intros _ q e c te Hq Hqp Hslot Hsz Hst Hsend Hfits. rewrite Hq in Htx.
      destruct (transmit_queues q view len m1 e c te Hslot Hsz Hst Hsend Hfits)
        as (m2' & e' & Htx' & Hfe & Hcur & Hent & Hstat & Hln & Hby & _ & Hmem & Htr & _).
      rewrite Htx' in Htx. injection Htx as <- <-.
      exists e'. rewrite (Hothers q Hqp), Htp.
      split; [exact Hfe|]. split; [exact Hcur|]. split; [exact Hent|]. split; [exact Hstat|].
      split; [exact Hln|]. split; [exact Hby|]. split; [exact Hmem|exact Htr]. }
    intros entry Hentry' Hnot.
    eapply free_packet_self; [exact Hentry| |exact Hentry'|exact Hfp].
    destruct (peer instance) as [q0|] eqn:Hpeer.
    + rewrite (transmit_others _ _ _ _ _ _ Htx); [exact Hfind|].
      intros ->. apply Hnot. split; [exact Hf|reflexivity].
    + cbn in Htx. injection Htx as <- <-. exact Hfind.
  - (* the verdicts that block *)
    cbn [bind]. rewrite Hfb. cbn [bind].
    pose proof (free_packet_others _ _ _ _ _ Hentry Hfb) as Hothers.
    exists mb.
    split; [reflexivity|]. split; [exact Hsan1|]. split; [exact Hsan2|].
    split; [exact Hvb|]. split; [exact Hib|]. split; [exact Heb|]. split; [exact Hsb|].
    split; [intros _; exact Htb|].
    split; [intros Hf; contradiction|].
    split; [intros _; exact Htb|].
    split; [intros q Hq _; exact (Hothers q Hq)|].
    split; [intros _ q Hq; exact (Hothers q Hq)|].
    split; [intros Hf; contradiction|].
    split; [intros Hf; contradiction|].
    split; [intros Hf; contradiction|].
    intros entry Hentry' _.
    exact (free_packet_self _ m1 _ _ _ _ _ Hentry Hfind Hentry' Hfb).
Qed.

(** C10. Called with a message that is not the current message of the
    context, or whose descriptor is not the current packet descriptor,
    [afpacket_daq_msg_finalize] returns DAQ_ERROR and the state it leaves
    is the state it found: no counter, ring, frame or system call
    differs. *)
Theorem finalize_rejects_other_message (m : Machine) (msg0 : msg_ref) (verdict : Z) :
  msg0 <> MsgNull ->
  msg0 <> MsgCurr \/ message_desc m msg0 <> Some DescCurr ->
  afpacket_daq_msg_finalize msg0 verdict m = Ret (m, DAQ_ERROR).
Proof.
  intros Hnull Hother. unfold afpacket_daq_msg_finalize, message_desc in *.
  destruct msg0 as [| |m0]; [congruence| |].
  - cbn [bind negb orb]. destruct (msg (curr_msg (afpc m))); try reflexivity.
    destruct Hother; congruence.
  - reflexivity.
Qed.

(** The instance [afpacket_find_packet] claims an entry of becomes the
    current instance. *)
Lemma find_packet_loop_curr (fuel : nat) :
  forall (m m1 : Machine) (curr instance p k : nat),
    find_packet_loop fuel m curr instance = Ret (m1, Some (p, k)) ->
    curr_instance (afpc m1) = Some p.
Proof.
  induction fuel as [|fuel IH]; intros m m1 curr instance p k H; [discriminate|].
  cbn [find_packet_loop] in H.
  destruct (next_or_first (instances (afpc m)) instance) as [i|]; cbn [deref bind] in H;
    [|discriminate].
  destruct (cursor (rx_ring i)) as [c|]; cbn [deref bind] in H; [|discriminate].
  destruct (entries (rx_ring i) !! c) as [entry|]; cbn [deref bind] in H; [|discriminate].
  destruct (negb (Z.land (tp_status (hdr (mem i (raw entry)))) TP_STATUS_USER =? 0)).
  - injection H as <- <- <-. reflexivity.
  - destruct (self i =? curr)%nat; [discriminate|]. eapply IH. exact H.
Qed.

Lemma find_packet_curr (m m1 : Machine) (p k : nat) :
  afpacket_find_packet m = Ret (m1, Some (p, k)) -> curr_instance (afpc m1) = Some p.
Proof.
  unfold afpacket_find_packet.
  destruct (curr_instance (afpc m)); cbn [deref bind]; [|discriminate].
  apply find_packet_loop_curr.
Qed.

(** The bytes after the tag has been put back. *)
Lemma insert_vlan_tag_spec (b : Z -> Z) (data tpid tci : Z) :
  let b' := insert_vlan_tag b data tpid tci in
  (forall j, 0 <= j < 12 -> b' (data + j) = b (data + 4 + j)) /\
  b' (data + 12) = tpid / 256 /\ b' (data + 13) = tpid mod 256 /\
  b' (data + 14) = tci / 256 /\ b' (data + 15) = tci mod 256 /\
  (forall a, a < data \/ data + 16 <= a -> b' a = b a).
Proof.
  unfold insert_vlan_tag, vlan_offset, ETH_ALEN, VLAN_TAG_LEN. cbn zeta.
  repeat split; intros;
    repeat match goal with
           | |- context [?x =? ?y] => destruct (Z.eqb_spec x y); try lia
           | |- context [?x <=? ?y] => destruct (Z.leb_spec x y); try lia
           | |- context [?x <? ?y] => destruct (Z.ltb_spec x y); try lia
           end; cbn [andb]; try reflexivity; try (f_equal; lia).
Qed.

(** C4, amended.  For a frame claimed on a TPACKET_V2 instance whose
    header reports a stripped VLAN tag (a non-zero TCI, or the vlan-valid
    status bit where the headers define it) and at least 12 captured
    bytes, and which lies inside its slot with the 4 bytes before its
    MAC offset past the tpacket header, [afpacket_daq_msg_receive]
    delivers the frame from 4 bytes before its MAC offset: the 12 address
    bytes moved down by 4 in place, then a tag whose TPID is the kernel's
    value when the tpid-valid bit is set and that value is not zero, and
    0x8100 otherwise, and whose TCI is the kernel's; the capture and the
    wire length are those of the header plus 4 (for lengths below
    2^32 - 4). *)
Theorem receive_restores_vlan_tag (fuel : nat) (m m1 : Machine) (p k : nat)
    (i : AFPacketInstance) (entry : AFPacketEntry) :
  afpacket_find_packet m = Ret (m1, Some (p, k)) ->
  find_instance p (instances (afpc m1)) = Some i ->
  entries (rx_ring i) !! k = Some entry ->
  let h := hdr (mem i (raw entry)) in
  let b := bytes (mem i (raw entry)) in
  let data := tp_mac h - 4 in
  tp_version i = TPACKET_V2 ->
  (tp_vlan_tci h <> 0 \/
   exists bit, TP_STATUS_VLAN_VALID = Some bit /\ Z.land (tp_status h) bit <> 0) ->
  12 <= tp_snaplen h ->
  SIZEOF_TPACKET2_HDR <= data ->
  tp_mac h + tp_snaplen h <= tp_frame_size (layout (rx_ring i)) ->
  u32 (tp_mac h + tp_snaplen h) <= tp_frame_size (layout (rx_ring i)) ->
  tp_snaplen h + 4 < 2 ^ 32 ->
  0 <= tp_len h -> tp_len h + 4 < 2 ^ 32 ->
  0 <= tp_vlan_tci h < 2 ^ 16 ->
  0 <= tp_vlan_tpid h < 2 ^ 16 ->
  (forall prog, fcode (afpc m1) = Some prog ->
     prog (fun j => insert_vlan_tag b data (vlan_tpid h) (tp_vlan_tci h) (data + j))
          (tp_len h + 4) (tp_snaplen h + 4) <> 0) ->
  (forall q, peer i = Some q -> is_Some (find_instance q (instances (afpc m1)))) ->
  exists m' i',
    afpacket_daq_msg_receive (S fuel) m = Ret (m', DAQ_SUCCESS, MsgCurr) /\
    find_instance p (instances (afpc m')) = Some i' /\
    let d := curr_packet (afpc m') in
    let b' := bytes (mem i' (raw entry)) in
    let tpid' := b' (data + 12) * 256 + b' (data + 13) in
    let tci' := b' (data + 14) * 256 + b' (data + 15) in
    desc_data d = Some {| dp_inst := p; dp_frame := raw entry; dp_off := data |} /\
    desc_length d = tp_snaplen h + 4 /\
    caplen (pkthdr d) = tp_snaplen h + 4 /\
    pktlen (pkthdr d) = tp_len h + 4 /\
    (forall j, 0 <= j < 12 -> b' (data + j) = b (tp_mac h + j)) /\
    (forall bit, TP_STATUS_VLAN_TPID_VALID = Some bit ->
       Z.land (tp_status h) bit <> 0 -> tp_vlan_tpid h <> 0 -> tpid' = tp_vlan_tpid h) /\
    (TP_STATUS_VLAN_TPID_VALID = None \/
     (exists bit, TP_STATUS_VLAN_TPID_VALID = Some bit /\ Z.land (tp_status h) bit = 0) \/
     tp_vlan_tpid h = 0 ->
     tpid' = 0x8100) /\
    tci' = tp_vlan_tci h /\
    (forall a, a < data \/ data + 16 <= a -> b' a = b a).
Proof.
  intros Hfind Hi He h b data Hver Hvlan Hcap _ _ Hok Hcl Hw0 Hwl Htci Htpid Hfilter Hpeer.
  pose proof (find_packet_curr _ _ _ _ Hfind) as Hcurr.
  pose proof (find_self _ _ _ Hi) as Hself.
  assert (Hstripped : vlan_stripped i h (tp_snaplen h) = true).
  { unfold vlan_stripped. rewrite Hver, Z.eqb_refl. cbn [andb].
    apply andb_true_intro. split.
    - destruct Hvlan as [Hnz|(bit & Hbit & Hset)].
      + destruct (Z.eqb_spec (tp_vlan_tci h) 0); [contradiction|reflexivity].
      + rewrite Hbit. destruct (Z.eqb_spec (Z.land (tp_status h) bit) 0);
          [contradiction|]. apply orb_true_r.
    - apply Z.leb_le. exact Hcap. }
  set (b2 := insert_vlan_tag b data (vlan_tpid h) (tp_vlan_tci h)).
  set (m2 := update_machine_instance p
               (fun i' => store_frame (raw entry)
                  (set_bytes (insert_vlan_tag (bytes (mem i' (raw entry))) data
                                (vlan_tpid h) (tp_vlan_tci h))
                             (mem i' (raw entry))) i') m1).
  assert (Hi2 : find_instance p (instances (afpc m2))
                = Some (store_frame (raw entry) (set_bytes b2 (mem i (raw entry))) i)).
  { unfold m2. cbn [update_machine_instance with_afpc afpc instances set_instances].
    rewrite find_update_instance by reflexivity. rewrite Hi, Hself, Nat.eqb_refl.
    reflexivity. }
  assert (Hegress : exists egress,
            match peer i with
            | None => Some DAQ_PKTHDR_UNKNOWN
            | Some pp => option_map index (find_instance pp (instances (afpc m2)))
            end = Some egress).
  { destruct (peer i) as [q|] eqn:Hq; [|eauto].
    destruct (Hpeer q eq_refl) as [e Hq'].
    unfold m2. cbn [update_machine_instance with_afpc afpc instances set_instances].
    rewrite find_update_instance by reflexivity. rewrite Hq'. cbn. eauto. }
  destruct Hegress as [egress Hegress].
  cbn [afpacket_daq_msg_receive]. unfold receive_round. rewrite Hfind.
  unfold receive_entry. rewrite Hi, He, Hcurr, Hi. cbn zeta. fold h.
  destruct (Z.ltb_spec (tp_frame_size (layout (rx_ring i))) (u32 (tp_mac h + tp_snaplen h)));
    [lia|].
  rewrite Hstripped. change VLAN_TAG_LEN with 4. fold b data m2.
  unfold read_data. cbn [dp_inst dp_frame dp_off]. rewrite Hi2. cbn [deref bind].
  cbn [store_frame mem set_bytes bytes]. rewrite Z.eqb_refl. cbn [set_bytes bytes].
  fold b2.
  rewrite (u32_small (tp_snaplen h + 4)) by lia.
  rewrite (u32_small (tp_len h + 4)) by lia.
  assert (Hadmit : match fcode (afpc m2) with
                   | Some prog =>
                     prog (fun k0 => b2 (data + k0)) (tp_len h + 4) (tp_snaplen h + 4) =? 0
                   | None => false
                   end = false).
  { change (fcode (afpc m2)) with (fcode (afpc m1)).
    destruct (fcode (afpc m1)) as [prog|] eqn:Hprog; [|reflexivity].
    apply Z.eqb_neq. apply Hfilter. reflexivity. }
  rewrite Hadmit. rewrite Hegress.
  destruct (insert_vlan_tag_spec b data (vlan_tpid h) (tp_vlan_tci h))
    as (Hmove & H12 & H13 & H14 & H15 & Hrest).
  fold b2 in Hmove, H12, H13, H14, H15, Hrest.
  eexists. eexists. split; [reflexivity|].
  cbn [with_afpc afpc set_curr instances curr_packet].
  split; [exact Hi2|].
  cbn [store_frame mem set_bytes bytes desc_data desc_length pkthdr caplen pktlen].
  rewrite Z.eqb_refl. cbn [set_bytes bytes].
  split; [reflexivity|]. split; [reflexivity|]. split; [reflexivity|].
  split; [reflexivity|].
  split.
  { intros j Hj. rewrite (Hmove j Hj). f_equal. unfold data. lia. }
  rewrite H12, H13, H14, H15.
  assert (Hbe : forall x, x / 256 * 256 + x mod 256 = x).
  { intros x. pose proof (Z.div_mod x 256). lia. }
  rewrite !Hbe.
  split.
  { intros bit Hbit Hset Hnz. unfold vlan_tpid. rewrite Hbit.
    destruct (Z.eqb_spec (tp_vlan_tpid h) 0); [contradiction|].
    destruct (Z.eqb_spec (Z.land (tp_status h) bit) 0); [contradiction|]. reflexivity. }
  split.
  { intros Hdef. unfold vlan_tpid.
    destruct TP_STATUS_VLAN_TPID_VALID as [bit|]; [|reflexivity].
    destruct Hdef as [Hn|[(bit' & Hb & Hz)|Hz]]; [discriminate| |].
    - injection Hb as <-. rewrite Hz. rewrite andb_false_r. reflexivity.
    - rewrite Hz. reflexivity. }
  split; [reflexivity|]. exact Hrest.
Qed.


Lemma last_char_app_colon (s : string) : last_char (s ++ ":") = Some ":"%char.
Proof.
  induction s as [|c s IH]; [reflexivity|].
  cbn [String.append last_char]. rewrite IH.
  destruct (s ++ ":")%string eqn:E; [|reflexivity].
  destruct s; discriminate.
Qed.

Lemma has_double_colon_app (s1 s2 : string) : has_double_colon (s1 ++ "::" ++ s2) = true.
Proof.
  induction s1 as [|c s1 IH]; [reflexivity|].
  change (String c s1 ++ "::" ++ s2)%string with (String c (s1 ++ "::" ++ s2)).
  destruct (s1 ++ "::" ++ s2)%string as [|a s] eqn:E; [destruct s1; discriminate|].
  change (has_double_colon (String c (String a s)))
    with ((Ascii.eqb c ":" && Ascii.eqb a ":") || has_double_colon (String a s)).
  rewrite IH. apply orb_true_r.
Qed.

(** [afpacket_daq_initialize] rejects a device string that starts with a
    colon, one that ends with a colon and, in passive mode, one with two
    colons in a row, as an invalid interface specification. *)
Theorem initialize_rejects_empty_tokens (env : InitEnv) (config : DAQ_ModuleConfig) :
  (exists rest, cfg_input config = (":" ++ rest)%string) \/
  (exists s, cfg_input config = (s ++ ":")%string) \/
  (cfg_mode config = DAQ_MODE_PASSIVE /\
   exists s1 s2, cfg_input config = (s1 ++ "::" ++ s2)%string) ->
  afpacket_daq_initialize env config
  = Ret (inl (DAQ_ERROR, Err_invalid_interface_specification (cfg_input config))).
Proof.
  intros H. unfold afpacket_daq_initialize.
  match goal with |- (if ?c then _ else _) = _ => assert (Hc : c = true) end.
  { destruct H as [[rest ->]|[[s ->]|[Hmode (s1 & s2 & ->)]]].
    - reflexivity.
    - rewrite last_char_app_colon. cbn. apply orb_true_iff. left. apply orb_true_r.
    - rewrite Hmode, has_double_colon_app. cbn. apply orb_true_r. }
  rewrite Hc. reflexivity.
Qed.

Lemma split_colon_first (s : string) :
  split_colon s
  = string_take (strcspn_colon s) s
    :: tail (split_colon (string_drop (strcspn_colon s) s)).
Proof.
  induction s as [|c s IH]; [reflexivity|].
  cbn [split_colon strcspn_colon]. destruct (Ascii.eqb c ":") eqn:Hc.
  - cbn [string_take string_drop split_colon]. rewrite Hc. reflexivity.
  - cbn [string_take string_drop]. rewrite IH at 1. reflexivity.
Qed.

Lemma strcspn_colon_drop (s : string) :
  strcspn_colon (string_drop (strcspn_colon s) s) = 0%nat.
Proof.
  induction s as [|c s IH]; [reflexivity|].
  cbn [strcspn_colon]. destruct (Ascii.eqb c ":") eqn:Hc.
  - cbn [string_drop strcspn_colon]. rewrite Hc. reflexivity.
  - cbn [string_drop]. exact IH.
Qed.

Lemma length_take_strcspn (s : string) :
  String.length (string_take (strcspn_colon s) s) = strcspn_colon s.
Proof.
  induction s as [|c s IH]; [reflexivity|].
  cbn [strcspn_colon]. destruct (Ascii.eqb c ":"); [reflexivity|].
  cbn [string_take String.length]. rewrite IH. reflexivity.
Qed.

Lemma length_string_drop (n : nat) (s : string) :
  String.length (string_drop n s) = (String.length s - n)%nat.
Proof.
  revert s. induction n as [|n IH]; intros s.
  - cbn. lia.
  - destruct s as [|c s]; [reflexivity|]. cbn [string_drop String.length]. rewrite IH. lia.
Qed.

Lemma nonempty_tokens_strcspn_0 (s : string) :
  strcspn_colon s = 0%nat -> nonempty_tokens s = nonempty_tokens (string_drop 1 s).
Proof.
  destruct s as [|c s]; [reflexivity|].
  cbn [strcspn_colon]. destruct (Ascii.eqb c ":") eqn:Hc; [|discriminate].
  intros _. unfold nonempty_tokens. cbn [split_colon string_drop]. rewrite Hc. reflexivity.
Qed.

Lemma nonempty_tokens_first (s : string) :
  strcspn_colon s <> 0%nat ->
  nonempty_tokens s
  = string_take (strcspn_colon s) s :: nonempty_tokens (string_drop (strcspn_colon s) s).
Proof.
  intros Hn. unfold nonempty_tokens. rewrite (split_colon_first s) at 1.
  cbn [List.filter].
  assert (Htok : (string_take (strcspn_colon s) s =? "")%string = false).
  { apply String.eqb_neq. intros E. apply Hn. rewrite <- length_take_strcspn, E. reflexivity. }
  rewrite Htok. cbn [negb]. f_equal.
  rewrite (split_colon_first (string_drop (strcspn_colon s) s)) at 2.
  rewrite strcspn_colon_drop. cbn [List.filter].
  destruct (string_drop (strcspn_colon s) s); reflexivity.
Qed.

(** The loop over the device string does to the state what
    [parse_tokens] does over the non-empty tokens. *)
Lemma parse_loop_tokens (env : InitEnv) (mode : DAQ_Mode) (fuel : nat) :
  0 < IFNAMSIZ ->
  forall (dev : string) (st : parse_state),
    (String.length dev <= fuel)%nat ->
    parse_loop fuel env mode dev st = parse_tokens env mode (nonempty_tokens dev) st.
Proof.
  intros Hsz. induction fuel as [|fuel IH]; intros dev st Hlen.
  - destruct dev; [reflexivity|cbn in Hlen; lia].
  - destruct dev as [|c dev']; [reflexivity|].
    cbn [parse_loop]. set (dev := String c dev') in *.
    destruct (Nat.eq_dec (strcspn_colon dev) 0%nat) as [Hz|Hnz].
    + rewrite Hz. change (Z.of_nat 0) with 0. cbn [Nat.eqb negb].
      destruct (Z.leb_spec IFNAMSIZ 0); [lia|].
      rewrite (nonempty_tokens_strcspn_0 dev Hz). apply IH.
      rewrite length_string_drop. cbn [String.length] in *. lia.
    + rewrite (nonempty_tokens_first dev Hnz). cbn [parse_tokens].
      rewrite length_take_strcspn.
      destruct (IFNAMSIZ <=? Z.of_nat (strcspn_colon dev)); [reflexivity|].
      destruct (Nat.eqb_spec (strcspn_colon dev) 0%nat); [contradiction|]. cbn [negb].
      destruct (parse_token env mode _ st); try reflexivity.
      apply IH. rewrite length_string_drop. cbn [String.length] in *. lia.
Qed.

Lemma create_bridge_length (l l' : list AFPacketInstance) (n1 n2 : string) (rc : daq_rc) :
  create_bridge l n1 n2 = (l', rc) -> length l' = length l.
Proof.
  unfold create_bridge. destruct (find_peers l n1 n2 None None) as [[p1|] [p2|]];
    intros [= <- <-]; unfold update_instance; rewrite ?length_map; reflexivity.
Qed.

(** One interface name: an error, or the next round with the invariant
    kept, one instance more and, outside passive mode, the parity of
    [num_intfs] flipped.  The [break] is never taken. *)
Lemma parse_token_step (env : InitEnv) (mode : DAQ_Mode) (tok : string)
    (insts : list AFPacketInstance) (ic n : Z) :
  parse_inv mode (insts, ic, n) ->
  match parse_token env mode tok (insts, ic, n) with
  | Parse_error _ => True
  | Parse_next (insts', ic', n') =>
    parse_inv mode (insts', ic', n') /\
    length insts' = S (length insts) /\
    (is_passive mode = false -> n' = (n + 1) mod 2)
  | Parse_break _ => False
  | Parse_fault => False
  end.
Proof.
  unfold parse_inv, AF_PACKET_MAX_INTERFACES. intros (Hic & Hcap & Hn & Hpar).
  unfold parse_token, AF_PACKET_MAX_INTERFACES.
  rewrite (u32_small (ic + 1)) by lia.
  destruct (Z.leb_spec 32 (ic + 1)); [exact I|].
  destruct (create_instance env (length insts) tok) as [instance|]; [|exact I].
  destruct (is_passive mode) eqn:Hmode; cbn [negb].
  - cbn [length]. repeat split; try lia; try discriminate; intros; congruence.
  - destruct (Hpar eq_refl) as [-> | ->].
    + cbn -[length Z.of_nat].
      repeat split; cbn [length]; try lia; auto.
    + change (1 + 1 =? 2) with true. cbn match.
      destruct insts as [|i1 insts]; [cbn in Hn; lia|].
      destruct (create_bridge (instance :: i1 :: insts) (name i1) (name instance))
        as [insts' rc] eqn:Hbridge.
      apply create_bridge_length in Hbridge.
      destruct rc; try exact I.
      repeat split; rewrite ?Hbridge; cbn [length] in *; try lia; auto.
Qed.

Lemma parse_tokens_result (env : InitEnv) (mode : DAQ_Mode) (toks : list string) :
  forall (insts : list AFPacketInstance) (ic n : Z),
    parse_inv mode (insts, ic, n) ->
    (exists e, parse_tokens env mode toks (insts, ic, n) = Ret (inl e)) \/
    (exists insts' ic' n',
       parse_tokens env mode toks (insts, ic, n) = Ret (inr (insts', ic', n')) /\
       parse_inv mode (insts', ic', n') /\
       length insts' = (length insts + length toks)%nat /\
       Forall (fun tok => Z.of_nat (String.length tok) < IFNAMSIZ) toks /\
       (is_passive mode = false -> n' = (n + Z.of_nat (length toks)) mod 2)).
Proof.
  induction toks as [|tok toks IH]; intros insts ic n Hinv.
  - right. exists insts, ic, n. cbn [parse_tokens length]. rewrite Nat.add_0_r, Z.add_0_r.
    split; [reflexivity|]. split; [exact Hinv|]. split; [reflexivity|].
    split; [constructor|].
    intros Hmode. destruct Hinv as (_ & _ & _ & Hpar).
    destruct (Hpar Hmode) as [-> | ->]; reflexivity.
  - cbn [parse_tokens].
    destruct (Z.leb_spec IFNAMSIZ (Z.of_nat (String.length tok))) as [|Hshort]; [eauto|].
    pose proof (parse_token_step env mode tok insts ic n Hinv) as Hstep.
    destruct (parse_token env mode tok (insts, ic, n)) as [e|[[insts1 ic1] n1]| |];
      [eauto| |contradiction|contradiction].
    destruct Hstep as (Hinv1 & Hlen1 & Hpar1).
    destruct (IH insts1 ic1 n1 Hinv1) as [Herr|(insts' & ic' & n' & Hrun & Hinv' & Hlen' & Hall & Hpar')];
      [left; exact Herr|].
    right. exists insts', ic', n'. split; [exact Hrun|]. split; [exact Hinv'|].
    split; [cbn [length]; lia|]. split; [constructor; assumption|].
    intros Hmode. rewrite (Hpar' Hmode), (Hpar1 Hmode). cbn [length].
    rewrite Nat2Z.inj_succ. rewrite Zplus_mod_idemp_l. f_equal. lia.
Qed.

(** [afpacket_daq_initialize] rejects a device string with a token as
    long as IFNAMSIZ or longer, one with 32 or more non-empty tokens and,
    outside passive mode, one with an odd number of non-empty tokens. *)
Theorem initialize_rejects_bad_tokens (env : InitEnv) (config : DAQ_ModuleConfig) :
  0 < IFNAMSIZ ->
  (exists tok, In tok (split_colon (cfg_input config)) /\
               IFNAMSIZ <= Z.of_nat (String.length tok)) \/
  AF_PACKET_MAX_INTERFACES <= Z.of_nat (length (nonempty_tokens (cfg_input config))) \/
  (cfg_mode config <> DAQ_MODE_PASSIVE /\
   Z.of_nat (length (nonempty_tokens (cfg_input config))) mod 2 = 1) ->
  exists e, afpacket_daq_initialize env config = Ret (inl (DAQ_ERROR, e)).
Proof.
  intros Hsz Hbad. unfold afpacket_daq_initialize.
  match goal with |- context [if ?c then _ else _] => destruct c end; [eauto|].
  rewrite (parse_loop_tokens env (cfg_mode config) _ Hsz) by lia.
  assert (Hinv0 : parse_inv (cfg_mode config) ([], 0, 0)).
  { unfold parse_inv, AF_PACKET_MAX_INTERFACES. cbn. repeat split; try lia; auto. }
  destruct (parse_tokens_result env (cfg_mode config) (nonempty_tokens (cfg_input config))
              [] 0 0 Hinv0)
    as [[e ->]|(insts & ic & n & -> & Hinv & Hlen & Hall & Hpar)]; cbn [bind]; [eauto|].
  destruct Hinv as (Hic & Hcap & Hn & _). cbn [length] in Hlen. rewrite Nat.add_0_l in Hlen.
  destruct Hbad as [(tok & Hin & Hlong)|[Hmany|(Hmode & Hodd)]].
  - exfalso. rewrite Forall_forall in Hall.
    assert (Hne : In tok (nonempty_tokens (cfg_input config))).
    { unfold nonempty_tokens. apply filter_In. split; [exact Hin|].
      destruct tok; [cbn in Hlong; lia|reflexivity]. }
    specialize (Hall tok (proj2 (list_elem_of_In _ _) Hne)). cbn beta in Hall. lia.
  - exfalso. lia.
  - assert (Hpassive : is_passive (cfg_mode config) = false).
    { destruct (cfg_mode config); try reflexivity. congruence. }
    rewrite Hpassive. rewrite (Hpar Hpassive), Z.add_0_l, Hodd.
    cbn. rewrite orb_true_r. eauto.
Qed.

Lemma find_peers_none (l : list AFPacketInstance) (n1 n2 : string) (p1 p2 : option nat) :
  (forall r, In r l -> name r <> n1 /\ name r <> n2) ->
  find_peers l n1 n2 p1 p2 = (p1, p2).
Proof.
  induction l as [|r l IH]; intros H; [reflexivity|].
  cbn [find_peers]. destruct (H r (or_introl eq_refl)) as [H1 H2].
  destruct (String.eqb_spec (name r) n1); [contradiction|].
  destruct (String.eqb_spec (name r) n2); [contradiction|].
  apply IH. intros r' Hr'. apply H. right. exact Hr'.
Qed.

Lemma update_instance_other (p : nat) (f : AFPacketInstance -> AFPacketInstance)
    (l : list AFPacketInstance) :
  (forall r, In r l -> self r <> p) -> update_instance p f l = l.
Proof.
  induction l as [|r l IH]; intros H; [reflexivity|].
  cbn [update_instance map]. fold (update_instance p f l).
  destruct (Nat.eqb_spec (self r) p) as [E|_].
  - destruct (H r (or_introl eq_refl) E).
  - f_equal. apply IH. intros r' Hr'. apply H. right. exact Hr'.
Qed.

Lemma update_instance_cons (p : nat) (f : AFPacketInstance -> AFPacketInstance)
    (i : AFPacketInstance) (l : list AFPacketInstance) :
  update_instance p f (i :: l)
  = (if (self i =? p)%nat then f i else i) :: update_instance p f l.
Proof. reflexivity. Qed.

Lemma paired_weaken (l l' : list AFPacketInstance) (a : AFPacketInstance) :
  (forall b, In b l -> In b l') -> paired l a -> paired l' a.
Proof. intros Hsub (b & Hb & H). exists b. split; [apply Hsub; exact Hb|exact H]. Qed.

(** Outside passive mode and with a name not read before, one more
    interface keeps [pair_inv]: the loop never breaks or faults. *)
Lemma parse_token_pairs (env : InitEnv) (mode : DAQ_Mode) (tok : string)
    (done : list string) (st : parse_state) :
  is_passive mode = false ->
  List.NoDup done -> ~ In tok done ->
  pair_inv done st ->
  match parse_token env mode tok st with
  | Parse_error _ => True
  | Parse_next st' => pair_inv (done ++ [tok]) st'
  | Parse_break _ => False
  | Parse_fault => False
  end.
Proof.
  intros Hmode Hnodup Hfresh. destruct st as [[insts ic] n].
  intros (Hnames & Hself & Hselfs & Hpairs).
  unfold parse_token. destruct (_ <=? _); [exact I|].
  unfold create_instance.
  destruct (env_socket env (length insts)) as [sock|]; [|exact I].
  destruct (env_ifindex env tok) as [ifindex|]; [|exact I].
  cbv beta iota zeta. rewrite Hmode. cbn [negb].
  match goal with |- context [?x :: insts] => set (inst := x) end.
  assert (Hnew : forall r, In r insts -> self r <> self inst).
  { intros r Hr. specialize (Hself r Hr). cbn. lia. }
  assert (Hname : forall r, In r insts -> name r <> tok).
  { intros r Hr E. apply Hfresh. apply in_rev. rewrite <- Hnames, <- E.
    apply in_map. exact Hr. }
  assert (Hlen : forall i, In i (inst :: insts) -> (self i < length (inst :: insts))%nat).
  { intros i [<-|Hi]; cbn [length]; [cbn; lia|]. specialize (Hself i Hi). lia. }
  assert (Hnd : List.NoDup (map self (inst :: insts))).
  { cbn [map]. constructor; [|exact Hselfs].
    intros Hin. apply in_map_iff in Hin. destruct Hin as (r & E & Hr).
    exact (Hnew r Hr E). }
  assert (Hnm : map name (inst :: insts) = rev (done ++ [tok])).
  { rewrite rev_app_distr. cbn [rev app map]. rewrite Hnames. reflexivity. }
  destruct Hpairs as [[-> Hall]|(-> & i1 & rest & -> & Hpeer & Hrest)].
  - (* the first interface of a pair *)
    cbn match. change (0 + 1 =? 2) with false. change (2 <? 0 + 1) with false. cbn match.
    split; [exact Hnm|]. split; [exact Hlen|]. split; [exact Hnd|].
    right. split; [reflexivity|]. exists inst, insts. auto.
  - (* the second interface: the bridge *)
    change (1 + 1 =? 2) with true. cbn match.
    assert (Hn1 : name inst <> name i1).
    { cbn [name inst]. intros E. apply (Hname i1 (or_introl eq_refl)). auto. }
    assert (Hrest_names : forall r, In r rest -> name r <> name i1 /\ name r <> name inst).
    { intros r Hr. split.
      - cbn [map] in Hnames.
        assert (Hd : List.NoDup (name i1 :: map name rest)).
        { rewrite Hnames. apply List.NoDup_rev. exact Hnodup. }
        inversion Hd as [|? ? Hni _]. intros E. apply Hni. rewrite <- E.
        apply in_map. exact Hr.
      - cbn [name inst]. apply Hname. right. exact Hr. }
    unfold create_bridge. cbn [find_peers].
    destruct (String.eqb_spec (name inst) (name i1)) as [E|_]; [contradiction|].
    rewrite String.eqb_refl, String.eqb_refl.
    rewrite (find_peers_none rest _ _ _ _ Hrest_names).
    assert (Hs12 : self i1 <> self inst) by (apply Hnew; left; reflexivity).
    assert (Hrest1 : forall r, In r rest -> self r <> self i1).
    { intros r Hr E. cbn [map] in Hselfs. inversion Hselfs as [|? ? Hni _].
      apply Hni. rewrite <- E. apply in_map. exact Hr. }
    assert (Hrest2 : forall r, In r rest -> self r <> self inst).
    { intros r Hr. apply Hnew. right. exact Hr. }
    rewrite !update_instance_cons.
    rewrite (update_instance_other _ _ rest Hrest1), (update_instance_other _ _ rest Hrest2).
    destruct (Nat.eqb_spec (self inst) (self i1)) as [E|_]; [congruence|].
    rewrite !Nat.eqb_refl. cbn [self set_peer].
    destruct (Nat.eqb_spec (self i1) (self inst)) as [E|_]; [congruence|].
    set (i2' := set_peer (Some (self i1)) inst).
    set (i1' := set_peer (Some (self inst)) i1).
    split; [exact Hnm|].
    split.
    { intros i [<-|[<-|Hi]]; [apply (Hlen inst); left; reflexivity
                              |apply (Hlen i1); right; left; reflexivity
                              |apply (Hlen i); right; right; exact Hi]. }
    split; [exact Hnd|].
    left. split; [reflexivity|].
    intros a [<-|[<-|Ha]].
    + exists i1'. split; [right; left; reflexivity|]. cbn. auto.
    + exists i2'. split; [left; reflexivity|]. cbn. auto.
    + apply (paired_weaken rest); [|apply Hrest; exact Ha].
      intros b Hb. right. right. exact Hb.
Qed.

Lemma parse_tokens_pairs (env : InitEnv) (mode : DAQ_Mode) (toks : list string) :
  is_passive mode = false ->
  forall (done : list string) (st st' : parse_state),
    List.NoDup (done ++ toks) ->
    pair_inv done st ->
    parse_tokens env mode toks st = Ret (inr st') ->
    pair_inv (done ++ toks) st'.
Proof.
  intros Hmode. induction toks as [|tok toks IH]; intros done st st' Hnd Hinv Hrun.
  - cbn in Hrun. injection Hrun as <-. rewrite app_nil_r. exact Hinv.
  - cbn [parse_tokens] in Hrun.
    destruct (_ <=? _); [discriminate|].
    assert (Hdone : List.NoDup done /\ ~ In tok done).
    { split.
      - apply List.NoDup_app_remove_r in Hnd. exact Hnd.
      - intros Hin. apply List.NoDup_remove_2 in Hnd. apply Hnd. apply in_or_app. left. exact Hin. }
    pose proof (parse_token_pairs env mode tok done st Hmode (proj1 Hdone) (proj2 Hdone) Hinv)
      as Hstep.
    destruct (parse_token env mode tok st) as [e|st1| |];
      [discriminate| |contradiction|contradiction].
    replace (done ++ tok :: toks) with ((done ++ [tok]) ++ toks) in *
      by (rewrite <- app_assoc; reflexivity).
    eapply IH; eauto.
Qed.

(** Outside passive mode, when no interface name occurs twice, a
    successful [afpacket_daq_initialize] leaves every instance bridged:
    its peer is another instance, whose peer it is.  The instances carry
    the names of the non-empty tokens, latest first. *)
Theorem initialize_pairs_distinct_names (env : InitEnv) (config : DAQ_ModuleConfig)
    (afpc : AFPacket_Context) :
  0 < IFNAMSIZ ->
  cfg_mode config <> DAQ_MODE_PASSIVE ->
  List.NoDup (nonempty_tokens (cfg_input config)) ->
  afpacket_daq_initialize env config = Ret (inr afpc) ->
  map name (instances afpc) = rev (nonempty_tokens (cfg_input config)) /\
  forall a, In a (instances afpc) -> paired (instances afpc) a.
Proof.
  intros Hsz Hmode Hnd. unfold afpacket_daq_initialize.
  assert (Hpassive : is_passive (cfg_mode config) = false).
  { destruct (cfg_mode config); try reflexivity. congruence. }
  match goal with |- context [if ?c then _ else _] => destruct c end; [discriminate|].
  rewrite (parse_loop_tokens env (cfg_mode config) _ Hsz) by lia.
  destruct (parse_tokens env (cfg_mode config) (nonempty_tokens (cfg_input config)) ([], 0, 0))
    as [[e|[[insts ic] n]]| | |] eqn:Hrun; cbn [bind]; try discriminate.
  rewrite Hpassive. cbn [negb andb].
  destruct insts as [|i0 insts0] eqn:Hinsts; [discriminate|]. cbn [orb]. rewrite <- Hinsts.
  destruct (Z.eqb_spec n 0) as [->|]; [|discriminate]. cbn [negb].
  destruct (read_variables _ _) as [e|[[s dbg] fo]]; [discriminate|].
  intros [= <-]. cbn [instances].
  assert (Hinv0 : pair_inv [] ([], 0, 0)).
  { cbn. split; [reflexivity|]. split; [intros i []|]. split; [constructor|].
    left. split; [reflexivity|]. intros a []. }
  pose proof (parse_tokens_pairs env _ _ Hpassive [] _ _ Hnd Hinv0 Hrun) as Hinv.
  cbn [app] in Hinv. destruct Hinv as (Hnames & _ & _ & [[_ Hall]|[Hn _]]).
  - rewrite Hinsts. split; [exact Hnames|exact Hall].
  - discriminate.
Qed.




End EngineFacts.

(** ** The rest of the module *)

Section ModuleFacts.
Context {hdrs : Headers} {exts : Externals}.

Lemma u64_add_l (a b : Z) : u64 (u64 a + b) = u64 (a + b).
Proof. unfold u64. apply Zplus_mod_idemp_l. Qed.

Lemma add_hw_stats_fold (kernel : Z -> option tpacket_stats) (l : list AFPacketInstance) :
  forall s : DAQ_Stats,
    (forall i k, In i l -> kernel (fd i) = Some k ->
                 0 <= tp_drops k <= tp_packets k /\ tp_packets k < 2 ^ 32) ->
    0 <= hw_packets_received s < 2 ^ 64 ->
    0 <= hw_packets_dropped s < 2 ^ 64 ->
    let s' := fold_left (add_hw_stats kernel) l s in
    hw_packets_received s'
    = u64 (hw_packets_received s
           + kernel_total (fun k => tp_packets k - tp_drops k) kernel l) /\
    hw_packets_dropped s' = u64 (hw_packets_dropped s + kernel_total tp_drops kernel l) /\
    packets_filtered s' = packets_filtered s /\
    packets_injected s' = packets_injected s /\
    verdicts s' = verdicts s.
Proof.
  induction l as [|i l IH]; intros s Hk Hr0 Hd0; cbn [fold_left kernel_total].
  - cbn zeta. rewrite !Z.add_0_r. unfold u64. rewrite !Z.mod_small by assumption. auto.
  - destruct (IH (add_hw_stats kernel s i)) as (Hr & Hd & Hf & Hi & Hv).
    { intros j k Hj. apply Hk. right. exact Hj. }
    { unfold add_hw_stats. destruct (kernel (fd i)); [|exact Hr0].
      cbn. unfold u64. apply Z.mod_pos_bound. lia. }
    { unfold add_hw_stats. destruct (kernel (fd i)); [|exact Hd0].
      cbn. unfold u64. apply Z.mod_pos_bound. lia. }
    cbn zeta. rewrite Hr, Hd, Hf, Hi, Hv. unfold add_hw_stats.
    destruct (kernel (fd i)) as [k|] eqn:Hki.
    + destruct (Hk i k (or_introl eq_refl) Hki) as (Hdrops & Hpk).
      cbn [hw_packets_received hw_packets_dropped packets_filtered packets_injected verdicts].
      rewrite (u32_small (tp_packets k - tp_drops k)) by lia.
      rewrite !u64_add_l, !Z.add_assoc. auto.
    + rewrite !Z.add_0_l. auto.
Qed.

(** While the context is started, [afpacket_daq_get_stats] adds to the
    two hardware counters what the kernel reports for each instance
    (packets minus drops, and drops), modulo 2^64, skips the instances
    whose reading fails, and leaves the software counters as they are; the
    sum of the two counters grows by the packets the kernel has seen.  In
    any other state it returns the counters unchanged. *)
Theorem get_stats_adds_kernel_counters (kernel : Z -> option tpacket_stats)
    (c : AFPacket_Context) :
  (forall i k, In i (instances c) -> kernel (fd i) = Some k ->
               0 <= tp_drops k <= tp_packets k /\ tp_packets k < 2 ^ 32) ->
  0 <= hw_packets_received (stats c) < 2 ^ 64 ->
  0 <= hw_packets_dropped (stats c) < 2 ^ 64 ->
  exists c' s,
    afpacket_daq_get_stats kernel c = (c', s, DAQ_SUCCESS) /\
    stats c' = s /\
    packets_filtered s = packets_filtered (stats c) /\
    packets_injected s = packets_injected (stats c) /\
    verdicts s = verdicts (stats c) /\
    (state c = DAQ_STATE_STARTED ->
     hw_packets_received s
     = u64 (hw_packets_received (stats c)
            + kernel_total (fun k => tp_packets k - tp_drops k) kernel (instances c)) /\
     hw_packets_dropped s
     = u64 (hw_packets_dropped (stats c) + kernel_total tp_drops kernel (instances c)) /\
     u64 (hw_packets_received s + hw_packets_dropped s)
     = u64 (hw_packets_received (stats c) + hw_packets_dropped (stats c)
            + (kernel_total (fun k => tp_packets k - tp_drops k) kernel (instances c)
               + kernel_total tp_drops kernel (instances c)))) /\
    (state c <> DAQ_STATE_STARTED -> c' = c).
Proof.
  intros Hk Hr0 Hd0. unfold afpacket_daq_get_stats, update_hw_stats.
  destruct (add_hw_stats_fold kernel (instances c) (stats c) Hk Hr0 Hd0)
    as (Hr & Hd & Hf & Hi & Hv).
  cbn zeta in *.
  destruct (state c) eqn:Hst; eexists; eexists; (split; [reflexivity|]);
    cbn [stats set_stats]; repeat split; auto; try congruence.
  rewrite Hr, Hd. unfold u64.
  rewrite <- Zplus_mod. f_equal. ring.
Qed.

(** [afpacket_daq_stop] on a started context reads the kernel counters
    one last time, as [afpacket_daq_get_stats] does, and leaves a stopped
    context without instances; reading the statistics afterwards returns
    the counters of that last reading whatever the kernel would answer,
    and changes nothing. *)
Theorem stop_takes_last_reading (kernel : Z -> option tpacket_stats) (c : AFPacket_Context) :
  state c = DAQ_STATE_STARTED ->
  (forall i k, In i (instances c) -> kernel (fd i) = Some k ->
               0 <= tp_drops k <= tp_packets k /\ tp_packets k < 2 ^ 32) ->
  0 <= hw_packets_received (stats c) < 2 ^ 64 ->
  0 <= hw_packets_dropped (stats c) < 2 ^ 64 ->
  exists c1,
    afpacket_daq_stop kernel c = (c1, DAQ_SUCCESS) /\
    afpacket_daq_check_status c1 = DAQ_STATE_STOPPED /\
    instances c1 = [] /\
    hw_packets_received (stats c1)
    = u64 (hw_packets_received (stats c)
           + kernel_total (fun k => tp_packets k - tp_drops k) kernel (instances c)) /\
    hw_packets_dropped (stats c1)
    = u64 (hw_packets_dropped (stats c) + kernel_total tp_drops kernel (instances c)) /\
    packets_filtered (stats c1) = packets_filtered (stats c) /\
    packets_injected (stats c1) = packets_injected (stats c) /\
    verdicts (stats c1) = verdicts (stats c) /\
    forall kernel', afpacket_daq_get_stats kernel' c1 = (c1, stats c1, DAQ_SUCCESS).
Proof.
  intros Hst Hk Hr0 Hd0.
  destruct (add_hw_stats_fold kernel (instances c) (stats c) Hk Hr0 Hd0)
    as (Hr & Hd & Hf & Hi & Hv).
  cbn zeta in *.
  unfold afpacket_daq_stop, af_packet_close, update_hw_stats. rewrite Hst.
  eexists. split; [reflexivity|]. cbn.
  repeat split; assumption.
Qed.

Lemma device_index_loop_found (env : InitEnv) (l : list AFPacketInstance) (device : string) :
  (forall i, In i l -> env_ifindex env (name i) = Some (index i)) ->
  In device (map name l) ->
  exists idx, env_ifindex env device = Some idx /\ device_index_loop l device = inl idx.
Proof.
  induction l as [|i l IH]; intros Hidx Hin; [destruct Hin|].
  cbn [device_index_loop]. destruct (String.eqb_spec device (name i)) as [->|Hne].
  - exists (index i). split; [apply Hidx; left; reflexivity|reflexivity].
  - destruct Hin as [Heq|Hin]; [congruence|].
    apply IH; [intros j Hj; apply Hidx; right; exact Hj|exact Hin].
Qed.

(** [afpacket_daq_get_device_index] returns the index of the first
    instance of the list that carries the name, and DAQ_ERROR_NODEV
    exactly when no instance carries it. *)
Theorem get_device_index_first_match (c : AFPacket_Context) (device : string) :
  (forall before i after,
     instances c = before ++ i :: after ->
     name i = device -> (forall j, In j before -> name j <> device) ->
     afpacket_daq_get_device_index c device = inl (index i)) /\
  (afpacket_daq_get_device_index c device = inr DAQ_ERROR_NODEV
   <-> forall j, In j (instances c) -> name j <> device).
Proof.
  unfold afpacket_daq_get_device_index. generalize (instances c) as l. intros l. split.
  - intros before. revert l. induction before as [|b before IH]; intros l i after -> Hn Hb.
    + cbn. rewrite <- Hn, String.eqb_refl. reflexivity.
    + cbn. destruct (String.eqb_spec device (name b)) as [E|_].
      * exfalso. apply (Hb b); [left; reflexivity|congruence].
      * eapply IH; [reflexivity|exact Hn|]. intros j Hj. apply Hb. right. exact Hj.
  - induction l as [|i l IH]; cbn [device_index_loop].
    + split; [intros _ j []|reflexivity].
    + destruct (String.eqb_spec device (name i)) as [E|Hne].
      * split; [discriminate|]. intros H. exfalso. apply (H i); [left; reflexivity|congruence].
      * rewrite IH. split.
        -- intros H j [<-|Hj]; [congruence|apply H; exact Hj].
        -- intros H j Hj. apply H. right. exact Hj.
Qed.

Lemma update_instance_set_peer_names (p : nat) (q : option nat) (l : list AFPacketInstance) :
  map name (update_instance p (set_peer q) l) = map name l.
Proof.
  unfold update_instance. rewrite map_map. apply map_ext.
  intros i. destruct (self i =? p)%nat; reflexivity.
Qed.

Lemma update_instance_set_peer_in (p : nat) (q : option nat) (l : list AFPacketInstance)
    (i : AFPacketInstance) :
  In i (update_instance p (set_peer q) l) ->
  exists j, In j l /\ name i = name j /\ index i = index j /\ tx_ring i = tx_ring j.
Proof.
  unfold update_instance. rewrite in_map_iff. intros (j & <- & Hj).
  exists j. destruct (self j =? p)%nat; auto.
Qed.

Lemma parse_token_created (env : InitEnv) (mode : DAQ_Mode) (tok : string)
    (done : list string) (st : parse_state) :
  created_inv env mode done st ->
  match parse_token env mode tok st with
  | Parse_next st' | Parse_break st' => created_inv env mode (done ++ [tok]) st'
  | _ => True
  end.
Proof.
  destruct st as [[insts ic] n]. intros (Hnames & Hidx & Hpeer & Htx).
  unfold parse_token.
  destruct (AF_PACKET_MAX_INTERFACES <=? u32 (ic + 1)); [exact I|].
  unfold create_instance.
  destruct (env_socket env (length insts)) as [sock|]; [|exact I].
  destruct (env_ifindex env tok) as [ifindex|] eqn:Hif; [|exact I].
  cbv beta iota zeta.
  match goal with |- context [?x :: insts] => set (instance := x) end.
  assert (Hinv : forall ic' n', created_inv env mode (done ++ [tok])
                                  (instance :: insts, ic', n')).
  { intros ic' n'. cbn [created_inv]. rewrite rev_app_distr. cbn [rev app map].
    split; [f_equal; exact Hnames|]. split; [|split].
    - intros i [<-|Hi]; [exact Hif|apply Hidx; exact Hi].
    - intros Hm i [<-|Hi]; [reflexivity|apply Hpeer; assumption].
    - intros i [<-|Hi]; [reflexivity|apply Htx; exact Hi]. }
  destruct (is_passive mode) eqn:Hmode; cbn [negb]; [apply Hinv|].
  destruct (n + 1 =? 2).
  - destruct insts as [|i1 insts]; [exact I|].
    unfold create_bridge.
    destruct (find_peers _ _ _ None None) as [[p1|] [p2|]]; try exact I.
    specialize (Hinv 0 0). destruct Hinv as (Hn' & Hi' & _ & Ht').
    cbn [created_inv]. rewrite !update_instance_set_peer_names.
    split; [exact Hn'|].
    assert (Hboth : forall i,
              In i (update_instance p2 (set_peer (Some p1))
                      (update_instance p1 (set_peer (Some p2)) (instance :: i1 :: insts))) ->
              exists j, In j (instance :: i1 :: insts) /\ name i = name j /\
                        index i = index j /\ tx_ring i = tx_ring j).
    { intros i Hi.
      apply update_instance_set_peer_in in Hi. destruct Hi as (j & Hj & Hnj & Hij & Htj).
      apply update_instance_set_peer_in in Hj. destruct Hj as (j' & Hj' & Hnj' & Hij' & Htj').
      exists j'. split; [exact Hj'|]. split; [congruence|]. split; congruence. }
    split; [|split; [intros E; congruence|]].
    + intros i Hi. destruct (Hboth i Hi) as (j & Hj & -> & -> & _). apply Hi'. exact Hj.
    + intros i Hi. destruct (Hboth i Hi) as (j & Hj & _ & _ & ->). apply Ht'. exact Hj.
  - destruct (2 <? n + 1); apply Hinv.
Qed.

Lemma parse_tokens_created (env : InitEnv) (mode : DAQ_Mode) (toks : list string) :
  forall (done : list string) (st st' : parse_state),
    created_inv env mode done st ->
    parse_inv mode st ->
    parse_tokens env mode toks st = Ret (inr st') ->
    created_inv env mode (done ++ toks) st'.
Proof.
  induction toks as [|tok toks IH]; intros done st st' Hinv Hp Hrun.
  - cbn in Hrun. injection Hrun as <-. rewrite app_nil_r. exact Hinv.
  - cbn [parse_tokens] in Hrun.
    destruct (IFNAMSIZ <=? Z.of_nat (String.length tok)); [discriminate|].
    pose proof (parse_token_created env mode tok done st Hinv) as Hstep.
    destruct st as [[insts ic] n].
    pose proof (parse_token_step env mode tok insts ic n Hp) as Hstep2.
    destruct (parse_token env mode tok (insts, ic, n)) as [e|st1|st1|];
      try discriminate; try contradiction.
    destruct st1 as [[insts1 ic1] n1]. destruct Hstep2 as (Hp1 & _).
    replace (done ++ tok :: toks) with ((done ++ [tok]) ++ toks)
      by (rewrite <- app_assoc; reflexivity).
    eapply IH; eauto.
Qed.

(** What a successful [afpacket_daq_initialize] has built. *)
Lemma initialize_created (env : InitEnv) (config : DAQ_ModuleConfig) (afpc : AFPacket_Context) :
  0 < IFNAMSIZ ->
  afpacket_daq_initialize env config = Ret (inr afpc) ->
  created_inv env (cfg_mode config) (nonempty_tokens (cfg_input config))
    (instances afpc, intf_count afpc, 0) /\
  parse_inv DAQ_MODE_PASSIVE (instances afpc, intf_count afpc, 0) /\
  instances afpc <> [] /\
  state afpc = DAQ_STATE_INITIALIZED /\
  curr_instance afpc = option_map self (head (instances afpc)).
Proof.
  intros Hifn H. unfold afpacket_daq_initialize in H.
  match type of H with (if ?c then _ else _) = _ => destruct c end; [discriminate|].
  rewrite (parse_loop_tokens env (cfg_mode config) _ Hifn) in H by lia.
  destruct (parse_tokens env (cfg_mode config) (nonempty_tokens (cfg_input config)) ([], 0, 0))
    as [[e|[[insts ic] ni]]| | |] eqn:Hrun; cbn [bind] in H; try discriminate.
  match type of H with (if ?c then _ else _) = _ => destruct c eqn:Hc end; [discriminate|].
  destruct (read_variables _ _) as [e|[[s dbg] fo]]; [discriminate|].
  injection H as <-. cbn [instances intf_count state curr_instance].
  assert (Hp0 : parse_inv (cfg_mode config) ([], 0, 0)).
  { unfold parse_inv, AF_PACKET_MAX_INTERFACES. cbn. repeat split; try lia; auto. }
  assert (Hc0 : created_inv env (cfg_mode config) [] ([], 0, 0)).
  { cbn. split; [reflexivity|]. split; [intros i []|]. split; [intros _ i []|intros i []]. }
  pose proof (parse_tokens_created env (cfg_mode config) _ [] _ _ Hc0 Hp0 Hrun) as Hcr.
  destruct (parse_tokens_result env (cfg_mode config) (nonempty_tokens (cfg_input config))
              [] 0 0 Hp0) as [(e & He)|(insts' & ic' & n' & Hrun' & Hinv' & _)];
    [congruence|].
  rewrite Hrun in Hrun'. injection Hrun' as <- <- <-.
  cbn [app] in Hcr. split.
  { destruct Hcr as (A & B & C & D). repeat split; assumption. }
  split.
  { destruct Hinv' as (A & B & C & _). unfold parse_inv. repeat split; try lia; auto. }
  split; [|auto].
  destruct insts; [discriminate|congruence].
Qed.

(** A successful [afpacket_daq_initialize] leaves one instance for each
    non-empty token of the device string, latest first, each with the
    name of its token and the interface index the system reports for it;
    [intf_count] is their number, between 1 and 31; the context is in the
    initialized state; and in passive mode no instance has a peer. *)
Theorem initialize_instances (env : InitEnv) (config : DAQ_ModuleConfig)
    (afpc : AFPacket_Context) :
  0 < IFNAMSIZ ->
  afpacket_daq_initialize env config = Ret (inr afpc) ->
  map name (instances afpc) = rev (nonempty_tokens (cfg_input config)) /\
  (forall i, In i (instances afpc) -> env_ifindex env (name i) = Some (index i)) /\
  intf_count afpc = Z.of_nat (length (instances afpc)) /\
  1 <= intf_count afpc < AF_PACKET_MAX_INTERFACES /\
  afpacket_daq_check_status afpc = DAQ_STATE_INITIALIZED /\
  (cfg_mode config = DAQ_MODE_PASSIVE -> forall i, In i (instances afpc) -> peer i = None).
Proof.
  intros Hifn H.
  destruct (initialize_created env config afpc Hifn H)
    as ((Hn & Hi & Hp & _) & (Hc & Hcap & _) & Hne & Hst & _).
  split; [exact Hn|]. split; [exact Hi|]. split; [exact Hc|].
  split.
  { split; [|exact Hcap]. rewrite Hc. destruct (instances afpc); [congruence|cbn; lia]. }
  split; [exact Hst|].
  intros Hmode. apply Hp. rewrite Hmode. reflexivity.
Qed.

(** After a successful [afpacket_daq_initialize],
    [afpacket_daq_get_device_index] answers, for every interface named in
    the device string, with the index the system reported for that name;
    for a name that is not in the string it answers DAQ_ERROR_NODEV. *)
Theorem initialize_device_index (env : InitEnv) (config : DAQ_ModuleConfig)
    (afpc : AFPacket_Context) (device : string) :
  0 < IFNAMSIZ ->
  afpacket_daq_initialize env config = Ret (inr afpc) ->
  (In device (nonempty_tokens (cfg_input config)) ->
   exists idx, env_ifindex env device = Some idx /\
               afpacket_daq_get_device_index afpc device = inl idx) /\
  (~ In device (nonempty_tokens (cfg_input config)) ->
   afpacket_daq_get_device_index afpc device = inr DAQ_ERROR_NODEV).
Proof.
  intros Hifn H.
  destruct (initialize_created env config afpc Hifn H) as ((Hn & Hi & _) & _).
  split.
  - intros Hin. apply device_index_loop_found; [exact Hi|].
    rewrite Hn. apply in_rev. rewrite rev_involutive. exact Hin.
  - intros Hnot. unfold afpacket_daq_get_device_index.
    assert (Hl : forall j, In j (instances afpc) -> name j <> device).
    { intros j Hj E. apply Hnot. apply in_rev. rewrite <- Hn, <- E. apply in_map. exact Hj. }
    revert Hl. generalize (instances afpc) as l.
    induction l as [|i l IH]; intros Hl; [reflexivity|].
    cbn [device_index_loop]. destruct (String.eqb_spec device (name i)) as [E|_].
    + exfalso. apply (Hl i); [left; reflexivity|congruence].
    + apply IH. intros j Hj. apply Hl. right. exact Hj.
Qed.

Lemma find_first_with_index (l : list AFPacketInstance) (idx : Z) (i : AFPacketInstance) :
  first_with_index l idx i ->
  List.find (fun i => index i =? idx) l = Some i.
Proof.
  intros (before & after & -> & Hi & Hb).
  induction before as [|b before IH]; cbn [app List.find].
  - rewrite Hi, Z.eqb_refl. reflexivity.
  - destruct (Z.eqb_spec (index b) idx) as [E|_].
    + exfalso. apply (Hb b); [left; reflexivity|exact E].
    + apply IH. intros j Hj. apply Hb. right. exact Hj.
Qed.

Lemma find_no_index (l : list AFPacketInstance) (idx : Z) :
  (forall i, In i l -> index i <> idx) ->
  List.find (fun i => index i =? idx) l = None.
Proof.
  induction l as [|b l IH]; intros H; [reflexivity|]. cbn [List.find].
  destruct (Z.eqb_spec (index b) idx) as [E|_].
  - exfalso. apply (H b); [left; reflexivity|exact E].
  - apply IH. intros j Hj. apply H. right. exact Hj.
Qed.

(** [afpacket_daq_inject] without an instance to send on: no instance
    has the ingress index of the header, or the packet is to go forward
    and the instance with that index has no peer.  The call returns
    DAQ_ERROR with its message in the error buffer; nothing is sent and
    nothing is counted. *)
Theorem inject_without_egress (idx : Z) (packet_data : Z -> Z) (len : Z) (reverse : bool)
    (m : Machine) :
  (forall i, In i (instances (afpc m)) -> index i <> idx) \/
  (reverse = false /\
   exists i, first_with_index (instances (afpc m)) idx i /\ peer i = None) ->
  afpacket_daq_inject idx packet_data len reverse m
  = Ret (with_afpc (DPE Err_no_inject_instance (afpc m)) m, DAQ_ERROR).
Proof.
  unfold afpacket_daq_inject. intros [Hnone|(-> & i & Hi & Hp)].
  - rewrite (find_no_index _ _ Hnone). reflexivity.
  - rewrite (find_first_with_index _ _ _ Hi), Hp. reflexivity.
Qed.

(** [afpacket_daq_inject] with an instance to send on.  A forward
    injection goes out of the peer of the first instance with the ingress
    index of the header, a reverse injection out of that instance itself.
    The return value is that of [afpacket_transmit_packet];
    [packets_injected] goes up by one on success only, a full TX ring is
    recorded in the error buffer as such, and any other failure as a send
    error. *)
Theorem inject_transmits_and_counts (idx : Z) (packet_data : Z -> Z) (len : Z)
    (reverse : bool) (m : Machine) (i : AFPacketInstance) (q : nat) :
  first_with_index (instances (afpc m)) idx i ->
  (if reverse then Some (self i) else peer i) = Some q ->
  tx_ready (instances (afpc m)) (Some q) ->
  exists m1 rc m',
    afpacket_transmit_packet (Some q) packet_data len m = Ret (m1, rc) /\
    afpacket_daq_inject idx packet_data len reverse m = Ret (m', rc) /\
    trace m' = trace m1 /\ instances (afpc m') = instances (afpc m1) /\
    (rc = DAQ_SUCCESS ->
     packets_injected (stats (afpc m')) = u64 (packets_injected (stats (afpc m)) + 1) /\
     errbuf (afpc m') = errbuf (afpc m)) /\
    (rc = DAQ_ERROR_AGAIN ->
     stats (afpc m') = stats (afpc m) /\ errbuf (afpc m') = Err_tx_ring_full) /\
    (rc <> DAQ_SUCCESS -> rc <> DAQ_ERROR_AGAIN ->
     stats (afpc m') = stats (afpc m) /\ errbuf (afpc m') = Err_sending_packet).
Proof.
  intros Hi Hq Hready.
  destruct (transmit_returns (Some q) packet_data len m Hready) as (m1 & rc & Htx).
  destruct (transmit_preserves _ _ _ _ _ _ Htx) as (Hs & He & _ & _).
  unfold afpacket_daq_inject. rewrite (find_first_with_index _ _ _ Hi), Hq, Htx.
  cbn [bind]. exists m1, rc.
  destruct rc; eexists; (split; [reflexivity|]); (split; [reflexivity|]);
    (split; [reflexivity|]); (split; [reflexivity|]);
    cbn [with_afpc afpc stats set_stats set_packets_injected packets_injected errbuf DPE];
    rewrite ?Hs, ?He; repeat split; intros; congruence.
Qed.

(** [afpacket_daq_inject] when the TX ring of the egress instance is
    full: DAQ_ERROR_AGAIN, the failure is recorded in the error buffer,
    and nothing else changes. *)
Theorem inject_tx_ring_full (idx : Z) (packet_data : Z -> Z) (len : Z) (reverse : bool)
    (m : Machine) (i : AFPacketInstance) :
  first_with_index (instances (afpc m)) idx i ->
  tx_full (instances (afpc m)) (if reverse then Some (self i) else peer i) ->
  afpacket_daq_inject idx packet_data len reverse m
  = Ret (with_afpc (DPE Err_tx_ring_full (afpc m)) m, DAQ_ERROR_AGAIN).
Proof.
  intros Hi Hfull. pose proof Hfull as (q & e & c & te & Hq & _).
  unfold afpacket_daq_inject. rewrite (find_first_with_index _ _ _ Hi), Hq.
  rewrite Hq in Hfull. rewrite (transmit_tx_full _ packet_data len m Hfull). reflexivity.
Qed.

(** [afpacket_transmit_packet] on an instance with a TX ring whose
    cursor slot is available, for a packet that fits the frame of the
    slot, when [send] succeeds: the packet bytes are copied into the frame
    past the aligned header, the rest of the frame and the other frames
    stay as they were, the frame gets the length and the status
    TP_STATUS_SEND_REQUEST, one [send] is made on the socket, and the
    cursor moves to the next slot. *)
Theorem transmit_queues_frame (q : nat) (packet_data : Z -> Z) (len : Z) (m : Machine)
    (e : AFPacketInstance) (c : nat) (te : AFPacketEntry) :
  tx_cursor_slot (instances (afpc m)) q = Some (e, c, te) ->
  ring_size (tx_ring e) <> 0 ->
  tp_status (hdr (mem e (raw te))) = TP_STATUS_AVAILABLE ->
  head (sends m) <> Some false ->
  SIZEOF_TPACKET2_HDR <= TPACKET_ALIGN (tp_hdrlen e) ->
  0 <= len ->
  TPACKET_ALIGN (tp_hdrlen e) + len <= tp_frame_size (layout (tx_ring e)) ->
  exists m' e',
    afpacket_transmit_packet (Some q) packet_data len m = Ret (m', DAQ_SUCCESS) /\
    find_instance q (instances (afpc m')) = Some e' /\
    cursor (tx_ring e') = next te /\
    entries (tx_ring e') = entries (tx_ring e) /\
    tp_status (hdr (mem e' (raw te))) = TP_STATUS_SEND_REQUEST /\
    tp_len (hdr (mem e' (raw te))) = len /\
    (forall j, 0 <= j < len ->
       bytes (mem e' (raw te)) (TPACKET_ALIGN (tp_hdrlen e) + j) = packet_data j) /\
    (forall a, a < TPACKET_ALIGN (tp_hdrlen e) \/ TPACKET_ALIGN (tp_hdrlen e) + len <= a ->
       bytes (mem e' (raw te)) a = bytes (mem e (raw te)) a) /\
    (forall a, a <> raw te -> mem e' a = mem e a) /\
    trace m' = Sys_send (fd e) :: trace m /\
    rx_ring e' = rx_ring e.
Proof.
  intros Hslot Hsz Hst Hsend Hhdr Hlen Hfit.
  apply (transmit_queues q packet_data len m e c te); try assumption.
  split; [exact Hhdr|]. split; [exact Hlen|exact Hfit].
Qed.

(** [afpacket_transmit_packet] when [send] fails: the slot under the
    TX cursor has already been marked TP_STATUS_SEND_REQUEST and the
    cursor is not moved, so the call returns DAQ_ERROR and, as long as the
    kernel does not take the frame, every later transmission on the
    instance returns DAQ_ERROR_AGAIN without another [send]. *)
Theorem transmit_failed_send_blocks_ring (q : nat) (packet_data : Z -> Z) (len : Z)
    (m : Machine) (e : AFPacketInstance) (c : nat) (te : AFPacketEntry) :
  TP_STATUS_SEND_REQUEST <> TP_STATUS_AVAILABLE ->
  tx_cursor_slot (instances (afpc m)) q = Some (e, c, te) ->
  ring_size (tx_ring e) <> 0 ->
  tp_status (hdr (mem e (raw te))) = TP_STATUS_AVAILABLE ->
  head (sends m) = Some false ->
  exists m',
    afpacket_transmit_packet (Some q) packet_data len m = Ret (m', DAQ_ERROR) /\
    trace m' = Sys_send (fd e) :: trace m /\
    (exists e', tx_cursor_slot (instances (afpc m')) q = Some (e', c, te) /\
                tp_status (hdr (mem e' (raw te))) = TP_STATUS_SEND_REQUEST) /\
    forall packet_data' len',
      afpacket_transmit_packet (Some q) packet_data' len' m' = Ret (m', DAQ_ERROR_AGAIN).
Proof.
  unfold tx_cursor_slot. intros Hdiff Hslot Hsz Hst Hsend.
  destruct (find_instance q (instances (afpc m))) as [e0|] eqn:He; [|discriminate].
  destruct (cursor (tx_ring e0)) as [c0|] eqn:Hc; [|discriminate].
  destruct (entries (tx_ring e0) !! c0) as [te0|] eqn:Hte; [|discriminate].
  injection Hslot as -> -> ->.
  unfold afpacket_transmit_packet at 1. rewrite He. cbn [deref bind].
  destruct (Z.eqb_spec (ring_size (tx_ring e)) 0); [contradiction|]. cbn [negb].
  rewrite Hc. cbn [deref bind]. rewrite Hte. cbn [deref bind].
  rewrite Hst, Z.eqb_refl. cbn [negb].
  unfold do_syscall. cbn [update_machine_instance with_afpc sends].
  destruct (sends m) as [|[|] rest]; try discriminate. cbn [negb].
  eexists. split; [reflexivity|]. cbn [trace afpc]. split; [reflexivity|].
  match goal with |- context [update_machine_instance q ?f m] => set (upd := f) end.
  assert (Hfind : find_instance q (instances (afpc (update_machine_instance q upd m)))
                  = Some (upd e)).
  { cbn [update_machine_instance with_afpc afpc instances set_instances].
    apply find_instance_updated; [reflexivity|exact He]. }
  assert (Hstatus : tp_status (hdr (mem (upd e) (raw te))) = TP_STATUS_SEND_REQUEST).
  { unfold upd. cbn [store_frame mem]. rewrite Z.eqb_refl. reflexivity. }
  assert (Hring : tx_ring (upd e) = tx_ring e) by reflexivity.
  split.
  { exists (upd e). rewrite Hfind, Hring, Hc, Hte. split; [reflexivity|exact Hstatus]. }
  intros packet_data' len'. apply transmit_tx_full.
  exists q, (upd e), c, te. cbn [afpc].
  split; [reflexivity|]. split; [exact Hfind|]. rewrite Hring.
  split; [exact Hsz|]. split; [exact Hc|]. split; [exact Hte|].
  rewrite Hstatus. exact Hdiff.
Qed.

Lemma instance_after_split (a : list AFPacketInstance) (x : AFPacketInstance)
    (rest : list AFPacketInstance) :
  List.NoDup (map self (a ++ x :: rest)) ->
  instance_after (a ++ x :: rest) (self x) = Some (head rest).
Proof.
  induction a as [|b a IH]; cbn [app instance_after map]; intros Hnd.
  - rewrite Nat.eqb_refl. reflexivity.
  - destruct (Nat.eqb_spec (self b) (self x)) as [E|_].
    + exfalso. apply List.NoDup_cons_iff in Hnd. apply (proj1 Hnd).
      rewrite E. apply in_map. apply in_or_app. right. left. reflexivity.
    + apply IH. apply List.NoDup_cons_iff in Hnd. exact (proj2 Hnd).
Qed.

Lemma next_or_first_mid (a : list AFPacketInstance) (x y : AFPacketInstance)
    (b : list AFPacketInstance) :
  List.NoDup (map self (a ++ x :: y :: b)) ->
  next_or_first (a ++ x :: y :: b) (self x) = Some y.
Proof.
  intros Hnd. unfold next_or_first. rewrite instance_after_split by exact Hnd. reflexivity.
Qed.

Lemma next_or_first_last (a : list AFPacketInstance) (x : AFPacketInstance) :
  List.NoDup (map self (a ++ [x])) ->
  next_or_first (a ++ [x]) (self x) = head (a ++ [x]).
Proof.
  intros Hnd. unfold next_or_first. rewrite instance_after_split by exact Hnd. reflexivity.
Qed.

Lemma chain_consecutive (mid : list AFPacketInstance) :
  forall (a : list AFPacketInstance) (x : AFPacketInstance) (b : list AFPacketInstance),
    List.NoDup (map self (a ++ x :: mid ++ b)) ->
    succ_chain (a ++ x :: mid ++ b) (self x) mid.
Proof.
  induction mid as [|y mid IH]; intros a x b Hnd; cbn [succ_chain]; [exact I|].
  split.
  - apply (next_or_first_mid a x y (mid ++ b)). exact Hnd.
  - replace (a ++ x :: (y :: mid) ++ b) with ((a ++ [x]) ++ y :: mid ++ b)
      by (rewrite <- app_assoc; reflexivity).
    apply IH. rewrite <- app_assoc. exact Hnd.
Qed.

Lemma succ_chain_app (l : list AFPacketInstance) (s1 s2 : list AFPacketInstance) :
  forall prev : nat,
    succ_chain l prev s1 ->
    succ_chain l (fold_left (fun _ y => self y) s1 prev) s2 ->
    succ_chain l prev (s1 ++ s2).
Proof.
  induction s1 as [|y s1 IH]; intros prev H1 H2; cbn [app fold_left succ_chain] in *;
    [exact H2|].
  destruct H1 as (Hn & H1). split; [exact Hn|]. apply IH; assumption.
Qed.

(** The instances in the order the scan visits them, from the one after
    the current instance round to the current instance itself. *)
Lemma scan_chain (before : list AFPacketInstance) (cur : AFPacketInstance)
    (after : list AFPacketInstance) :
  List.NoDup (map self (before ++ cur :: after)) ->
  succ_chain (before ++ cur :: after) (self cur) (after ++ before ++ [cur]).
Proof.
  intros Hnd. set (l := before ++ cur :: after) in *.
  apply succ_chain_app.
  - unfold l. rewrite <- (app_nil_r after) at 1. apply chain_consecutive.
    rewrite app_nil_r. exact Hnd.
  - assert (Hlast : exists a' z, l = a' ++ [z] /\
                      fold_left (fun _ y => self y) after (self cur) = self z).
    { unfold l. destruct after as [|z after'] using rev_ind.
      - exists before, cur. split; reflexivity.
      - exists (before ++ cur :: after'), z. rewrite fold_left_app. cbn.
        split; [rewrite <- app_assoc; reflexivity|reflexivity]. }
    destruct Hlast as (a' & z & Hl & Hz). rewrite Hz.
    assert (Hhead : exists h t, before ++ [cur] = h :: t).
    { destruct before as [|h t]; [exists cur, []|exists h, (t ++ [cur])]; reflexivity. }
    destruct Hhead as (h & t & Hht).
    assert (Hl2 : l = [] ++ h :: t ++ after).
    { unfold l. cbn [app]. rewrite app_comm_cons, <- Hht, <- app_assoc. reflexivity. }
    rewrite Hht. cbn [succ_chain]. split.
    + rewrite Hl. rewrite next_or_first_last by (rewrite <- Hl; exact Hnd).
      rewrite <- Hl, Hl2. reflexivity.
    + rewrite Hl2. apply chain_consecutive. rewrite <- Hl2. exact Hnd.
Qed.

Lemma find_packet_loop_scan (m : Machine) (cur : AFPacketInstance) :
  forall (pre : list AFPacketInstance) (prev : nat) (fuel : nat),
    succ_chain (instances (afpc m)) prev (pre ++ [cur]) ->
    (forall y, In y pre -> self y <> self cur) ->
    (forall y, In y (pre ++ [cur]) -> is_Some (rx_cursor_slot y)) ->
    (length pre < fuel)%nat ->
    find_packet_loop fuel m (self cur) prev
    = match List.find rx_has_packet (pre ++ [cur]) with
      | Some i =>
        match rx_cursor_slot i with
        | Some (c, entry) => Ret (claimed m i entry, Some (self i, c))
        | None => Fault
        end
      | None => Ret (m, None)
      end.
Proof.
  induction pre as [|y pre IH]; intros prev fuel Hchain Hne Hwf Hfuel;
    (destruct fuel as [|fuel]; [lia|]); cbn [app] in *; cbn [find_packet_loop List.find];
    destruct Hchain as (Hnext & Hchain); rewrite Hnext; cbn [deref bind].
  - destruct (Hwf cur (or_introl eq_refl)) as ((c & entry) & Hslot).
    pose proof Hslot as Hs. unfold rx_cursor_slot in Hs.
    unfold rx_has_packet. rewrite Hslot.
    destruct (cursor (rx_ring cur)) as [c0|]; [|discriminate]. cbn [deref bind].
    destruct (entries (rx_ring cur) !! c0) as [e0|]; [|discriminate]. cbn [deref bind].
    injection Hs as -> ->.
    destruct (negb (Z.land (tp_status (hdr (mem cur (raw entry)))) TP_STATUS_USER =? 0));
      [rewrite Hslot; reflexivity|].
    rewrite Nat.eqb_refl. reflexivity.
  - destruct (Hwf y (or_introl eq_refl)) as ((c & entry) & Hslot).
    pose proof Hslot as Hs. unfold rx_cursor_slot in Hs.
    unfold rx_has_packet at 1. rewrite Hslot.
    destruct (cursor (rx_ring y)) as [c0|]; [|discriminate]. cbn [deref bind].
    destruct (entries (rx_ring y) !! c0) as [e0|]; [|discriminate]. cbn [deref bind].
    injection Hs as -> ->.
    destruct (negb (Z.land (tp_status (hdr (mem y (raw entry)))) TP_STATUS_USER =? 0));
      [rewrite Hslot; reflexivity|].
    destruct (Nat.eqb_spec (self y) (self cur)) as [E|_].
    + exfalso. apply (Hne y); [left; reflexivity|exact E].
    + apply IH; [exact Hchain| | |cbn [length] in Hfuel; lia].
      * intros z Hz. apply Hne. right. exact Hz.
      * intros z Hz. apply Hwf. right. exact Hz.
Qed.

Lemma find_packet_scan (m : Machine) (before : list AFPacketInstance)
    (cur : AFPacketInstance) (after : list AFPacketInstance) :
  instances (afpc m) = before ++ cur :: after ->
  curr_instance (afpc m) = Some (self cur) ->
  List.NoDup (map self (instances (afpc m))) ->
  (forall i, In i (instances (afpc m)) -> is_Some (rx_cursor_slot i)) ->
  afpacket_find_packet m
  = match List.find rx_has_packet (after ++ before ++ [cur]) with
    | Some i =>
      match rx_cursor_slot i with
      | Some (c, entry) => Ret (claimed m i entry, Some (self i, c))
      | None => Fault
      end
    | None => Ret (m, None)
    end.
Proof.
  intros Hl Hcur Hnd Hwf. unfold afpacket_find_packet. rewrite Hcur. cbn [deref bind].
  rewrite app_assoc. apply find_packet_loop_scan.
  - rewrite <- app_assoc, Hl. apply scan_chain. rewrite <- Hl. exact Hnd.
  - intros y Hy E. rewrite Hl in Hnd.
    rewrite map_app in Hnd. cbn [map] in Hnd.
    apply in_app_or in Hy. destruct Hy as [Hy|Hy].
    + apply List.NoDup_remove_1 in Hnd as Hnd'.
      apply List.NoDup_app_remove_l in Hnd.
      apply List.NoDup_cons_iff in Hnd. apply (proj1 Hnd). rewrite <- E.
      apply in_map. exact Hy.
    + apply List.NoDup_remove_2 in Hnd. apply Hnd. rewrite <- E.
      apply in_or_app. left. apply in_map. exact Hy.
  - intros y Hy. apply Hwf. rewrite Hl.
    rewrite <- app_assoc in Hy.
    apply in_app_or in Hy. destruct Hy as [Hy|Hy]; [apply in_or_app; right; right; exact Hy|].
    apply in_app_or in Hy. destruct Hy as [Hy|[<-|[]]].
    + apply in_or_app. left. exact Hy.
    + apply in_or_app. right. left. reflexivity.
  - rewrite Hl, !length_app. cbn [length]. lia.
Qed.


Lemma check_revents_clean (revents : list Z) (c : AFPacket_Context) :
  Forall (fun r => Z.land r bad_revents = 0) revents ->
  check_revents revents c = (c, Wait_1).
Proof.
  induction 1 as [|r rest Hr _ IH]; cbn [check_revents]; [reflexivity|].
  rewrite Hr. cbn. exact IH.
Qed.

Lemma check_revents_bad (r : Z) (rest : list Z) (c : AFPacket_Context) :
  Z.land r bad_revents <> 0 ->
  check_revents (r :: rest) c = (DPE (revents_error r) c, Wait_rc DAQ_ERROR).
Proof.
  intros Hbad. cbn [check_revents]. unfold revents_error.
  destruct (Z.eqb_spec (Z.land r bad_revents) 0) as [|_]; [contradiction|]. cbn [negb].
  destruct (Z.eqb_spec (Z.land r (Z.lor POLLHUP POLLRDHUP)) 0) as [Hh|_]; [|reflexivity].
  cbn [negb].
  destruct (Z.eqb_spec (Z.land r POLLERR) 0) as [He|_]; [|reflexivity]. cbn [negb].
  destruct (Z.eqb_spec (Z.land r POLLNVAL) 0) as [Hn|_]; [|reflexivity].
  exfalso. apply Hbad. unfold bad_revents.
  rewrite !Z.land_lor_distr_r in *. rewrite He, Hn.
  apply Z.lor_eq_0_iff in Hh. destruct Hh as (-> & ->). reflexivity.
Qed.

(** [afpacket_wait_for_packet] after [poll] has reported events: it
    looks at the revents of the first [intf_count] sockets in order.  If
    none has a hang-up, error or invalid-request bit the result is 1 and
    nothing changes; otherwise the result is DAQ_ERROR and the error buffer
    holds the message for the first socket that has one, a hang-up taking
    precedence over an error and an error over an invalid request. *)
Theorem wait_for_packet_checks_revents (revents : list Z) (c : AFPacket_Context) :
  let checked := take (Z.to_nat (intf_count c)) revents in
  (Forall (fun r => Z.land r bad_revents = 0) checked ->
   afpacket_wait_for_packet (PollReady revents) c = (c, Wait_1)) /\
  (forall before r after,
     checked = before ++ r :: after ->
     Forall (fun r => Z.land r bad_revents = 0) before ->
     Z.land r bad_revents <> 0 ->
     afpacket_wait_for_packet (PollReady revents) c
     = (DPE (revents_error r) c, Wait_rc DAQ_ERROR)).
Proof.
  intros checked. cbn [afpacket_wait_for_packet]. fold checked. split.
  - apply check_revents_clean.
  - intros before r after -> Hclean Hbad.
    induction Hclean as [|r0 before Hr0 _ IH]; cbn [app].
    + apply check_revents_bad. exact Hbad.
    + cbn [check_revents]. rewrite Hr0. cbn. exact IH.
Qed.

Lemma find_packet_none (m : Machine) (before : list AFPacketInstance)
    (cur : AFPacketInstance) (after : list AFPacketInstance) :
  instances (afpc m) = before ++ cur :: after ->
  curr_instance (afpc m) = Some (self cur) ->
  List.NoDup (map self (instances (afpc m))) ->
  (forall i, In i (instances (afpc m)) -> is_Some (rx_cursor_slot i)) ->
  (forall i, In i (instances (afpc m)) -> rx_has_packet i = false) ->
  afpacket_find_packet m = Ret (m, None).
Proof.
  intros Hl Hcur Hnd Hwf Hnone.
  rewrite (find_packet_scan m before cur after Hl Hcur Hnd Hwf).
  assert (Hfind : List.find rx_has_packet (after ++ before ++ [cur]) = None).
  { assert (Hall : forall j, In j (after ++ before ++ [cur]) -> rx_has_packet j = false).
    { intros j Hj. apply Hnone. rewrite Hl.
      apply in_app_or in Hj. destruct Hj as [Hj|Hj];
        [apply in_or_app; right; right; exact Hj|].
      apply in_app_or in Hj. destruct Hj as [Hj|[<-|[]]].
      - apply in_or_app. left. exact Hj.
      - apply in_or_app. right. left. reflexivity. }
    revert Hall. generalize (after ++ before ++ [cur]) as o.
    induction o as [|s o IH]; intros Hall; [reflexivity|]. cbn [List.find].
    rewrite (Hall s (or_introl eq_refl)). apply IH.
    intros j Hj. apply Hall. right. exact Hj. }
  rewrite Hfind. reflexivity.
Qed.

(** [afpacket_daq_msg_receive] when no instance has a packet under its
    RX cursor: the call polls, and returns without a message and without
    any other change DAQ_SUCCESS (the zero [afpacket_wait_for_packet]
    returns) when [poll] times out, and DAQ_ERROR with the poll-failure
    message when [poll] fails with an error other than EINTR. *)
Theorem receive_without_packet (fuel : nat) (m : Machine) (before : list AFPacketInstance)
    (cur : AFPacketInstance) (after : list AFPacketInstance) :
  instances (afpc m) = before ++ cur :: after ->
  curr_instance (afpc m) = Some (self cur) ->
  List.NoDup (map self (instances (afpc m))) ->
  (forall i, In i (instances (afpc m)) -> is_Some (rx_cursor_slot i)) ->
  (forall i, In i (instances (afpc m)) -> rx_has_packet i = false) ->
  (forall rest, polls m = PollTimeout :: rest ->
     afpacket_daq_msg_receive (S fuel) m = Ret (with_polls rest m, DAQ_SUCCESS, MsgNull)) /\
  (forall rest, polls m = PollFailed :: rest ->
     afpacket_daq_msg_receive (S fuel) m
     = Ret (with_polls rest (with_afpc (DPE Err_poll_failed (afpc m)) m),
            DAQ_ERROR, MsgNull)).
Proof.
  intros Hl Hcur Hnd Hwf Hnone.
  pose proof (find_packet_none m before cur after Hl Hcur Hnd Hwf Hnone) as Hfind.
  split; intros rest Hpolls; cbn [afpacket_daq_msg_receive]; unfold receive_round;
    rewrite Hfind, Hpolls; cbn [wait_loop afpacket_wait_for_packet];
    destruct m; reflexivity.
Qed.

(** A run of interrupted [poll] calls is retried inside the loop of line
    1129; what the handler has done to [break_loop] is all that is left
    of it. *)
Lemma wait_loop_interrupted (called : list bool) (rest : list poll_outcome) (m : Machine) :
  wait_loop (map PollInterrupted called ++ rest) m
  = wait_loop rest (with_afpc (after_interruptions called (afpc m)) m).
Proof.
  revert m. induction called as [|b l IH]; intros m; cbn [map app].
  - destruct m; reflexivity.
  - cbn [wait_loop afpacket_wait_for_packet]. rewrite IH. unfold after_interruptions.
    cbn [existsb id with_afpc afpc].
    destruct b; destruct (existsb id l); reflexivity.
Qed.

Lemma after_interruptions_break_loop (called : list bool) (c : AFPacket_Context) :
  break_loop (after_interruptions called c)
  = if existsb id called then 1 else break_loop c.
Proof. unfold after_interruptions. destruct (existsb id called); reflexivity. Qed.

(** [afpacket_daq_msg_receive] when no instance has a packet under its
    RX cursor and [poll] is interrupted by signals any number of times
    before it answers: the interrupted calls are all retried inside the
    same round, and the call returns what the first other answer decides,
    DAQ_SUCCESS without a message on a timeout and DAQ_ERROR with the
    poll-failure message on a failure.  The [poll] calls made are
    consumed, [break_loop] is set if a handler has asked for it during
    one of the interrupted calls, and nothing else changes. *)
Theorem receive_retries_interrupted_polls (fuel : nat) (m : Machine)
    (before : list AFPacketInstance) (cur : AFPacketInstance) (after : list AFPacketInstance)
    (called : list bool) (rest : list poll_outcome) :
  instances (afpc m) = before ++ cur :: after ->
  curr_instance (afpc m) = Some (self cur) ->
  List.NoDup (map self (instances (afpc m))) ->
  (forall i, In i (instances (afpc m)) -> is_Some (rx_cursor_slot i)) ->
  (forall i, In i (instances (afpc m)) -> rx_has_packet i = false) ->
  let c := if existsb id called then set_break_loop 1 (afpc m) else afpc m in
  (polls m = map PollInterrupted called ++ PollTimeout :: rest ->
   afpacket_daq_msg_receive (S fuel) m
   = Ret (with_polls rest (with_afpc c m), DAQ_SUCCESS, MsgNull)) /\
  (polls m = map PollInterrupted called ++ PollFailed :: rest ->
   afpacket_daq_msg_receive (S fuel) m
   = Ret (with_polls rest (with_afpc (DPE Err_poll_failed c) m), DAQ_ERROR, MsgNull)).
Proof.
  intros Hl Hcur Hnd Hwf Hnone c.
  pose proof (find_packet_none m before cur after Hl Hcur Hnd Hwf Hnone) as Hfind.
  split; intros Hpolls; cbn [afpacket_daq_msg_receive]; unfold receive_round;
    rewrite Hfind, Hpolls, wait_loop_interrupted;
    cbn [wait_loop afpacket_wait_for_packet]; reflexivity.
Qed.

(** The same when [poll], after the interrupted calls, reports events
    and none of the sockets has an error: the round ends in [continue],
    and the loop condition decides.  If [break_loop] is set by then (it
    was before the call, or a handler has set it during one of the
    interrupted calls) the call returns DAQ_SUCCESS without a message and
    without looking at the rings again; if not, the loop goes round again
    from the state reached. *)
Theorem receive_breaks_after_ready_poll (fuel : nat) (m : Machine)
    (before : list AFPacketInstance) (cur : AFPacketInstance) (after : list AFPacketInstance)
    (called : list bool) (revents : list Z) (rest : list poll_outcome) :
  instances (afpc m) = before ++ cur :: after ->
  curr_instance (afpc m) = Some (self cur) ->
  List.NoDup (map self (instances (afpc m))) ->
  (forall i, In i (instances (afpc m)) -> is_Some (rx_cursor_slot i)) ->
  (forall i, In i (instances (afpc m)) -> rx_has_packet i = false) ->
  polls m = map PollInterrupted called ++ PollReady revents :: rest ->
  Forall (fun r => Z.land r bad_revents = 0)
         (take (Z.to_nat (intf_count (afpc m))) revents) ->
  (break_loop (afpc m) <> 0 \/ In true called ->
   afpacket_daq_msg_receive (S fuel) m
   = Ret (with_polls rest
            (with_afpc (if existsb id called then set_break_loop 1 (afpc m) else afpc m) m),
          DAQ_SUCCESS, MsgNull)) /\
  (break_loop (afpc m) = 0 -> Forall (fun b => b = false) called ->
   afpacket_daq_msg_receive (S fuel) m = afpacket_daq_msg_receive fuel (with_polls rest m)).
Proof.
  intros Hl Hcur Hnd Hwf Hnone Hpolls Hclean.
  pose proof (find_packet_none m before cur after Hl Hcur Hnd Hwf Hnone) as Hfind.
  assert (Hround : receive_round m
                   = Continues (with_polls rest
                                  (with_afpc (after_interruptions called (afpc m)) m))).
  { unfold receive_round. rewrite Hfind, Hpolls, wait_loop_interrupted.
    cbn [wait_loop afpacket_wait_for_packet with_afpc afpc].
    assert (Hcount : intf_count (after_interruptions called (afpc m)) = intf_count (afpc m)).
    { unfold after_interruptions. destruct (existsb id called); reflexivity. }
    rewrite Hcount, (check_revents_clean _ _ Hclean). reflexivity. }
  cbn [afpacket_daq_msg_receive]. rewrite Hround.
  cbn [with_polls with_afpc afpc]. rewrite after_interruptions_break_loop.
  split.
  - intros Hset.
    assert (Hflag : (if existsb id called then 1 else break_loop (afpc m)) <> 0).
    { destruct (existsb id called) eqn:Hex; [lia|].
      destruct Hset as [Hset|Hin]; [exact Hset|].
      exfalso. assert (Hex' : existsb id called = true).
      { apply existsb_exists. exists true. split; [exact Hin|reflexivity]. }
      congruence. }
    destruct (Z.eqb_spec (if existsb id called then 1 else break_loop (afpc m)) 0);
      [contradiction|reflexivity].
  - intros Hzero Hnot.
    assert (Hex : existsb id called = false).
    { clear - Hnot. induction Hnot as [|b l -> _ IH]; [reflexivity|exact IH]. }
    unfold after_interruptions. rewrite Hex, Hzero. cbn [Z.eqb negb].
    destruct m; reflexivity.
Qed.


Lemma land_u32_r (y z : Z) : 0 <= y < 2 ^ 32 -> Z.land y (u32 z) = Z.land y z.
Proof.
  intros Hy. unfold u32. rewrite <- (Z.land_ones z 32) by lia.
  rewrite (Z.land_comm z), Z.land_assoc, Z.land_ones by lia.
  rewrite (Z.mod_small y) by exact Hy. reflexivity.
Qed.

(** [TPACKET_ALIGN] rounds up to the next multiple of the alignment,
    when that is a power of two and the sum does not wrap. *)
Lemma TPACKET_ALIGN_round_up (k x : Z) :
  0 <= k -> TPACKET_ALIGNMENT = 2 ^ k ->
  0 <= x -> x + TPACKET_ALIGNMENT - 1 < 2 ^ 32 ->
  TPACKET_ALIGN x = TPACKET_ALIGNMENT * ((x + TPACKET_ALIGNMENT - 1) / TPACKET_ALIGNMENT) /\
  x <= TPACKET_ALIGN x < x + TPACKET_ALIGNMENT.
Proof.
  intros Hk HA Hx Hsum. unfold TPACKET_ALIGN. rewrite HA in *.
  assert (Hpos : 0 < 2 ^ k) by (apply Z.pow_pos_nonneg; lia).
  set (y := x + 2 ^ k - 1) in *.
  rewrite (u32_small y) by lia.
  rewrite land_u32_r by lia.
  replace (2 ^ k - 1) with (Z.ones k) by (rewrite Z.ones_equiv; lia).
  rewrite <- Z.ldiff_land, Z.ldiff_ones_r by lia.
  rewrite Z.shiftr_div_pow2, Z.shiftl_mul_pow2 by lia.
  split; [ring|].
  pose proof (Z.div_mod y (2 ^ k) ltac:(lia)) as Hdm.
  pose proof (Z.mod_pos_bound y (2 ^ k) Hpos) as Hm.
  unfold y in *. split; nia.
Qed.

(** The frame size [calculate_layout] asks for: a multiple of the
    alignment that has room for the tpacket header, the link-layer socket
    address, the VLAN reservation and [snaplen] bytes of packet, with less
    than three alignment units to spare. *)
Theorem layout_frame_size_fits (k tp_hdrlen snaplen : Z) :
  0 <= k -> TPACKET_ALIGNMENT = 2 ^ k ->
  0 <= tp_hdrlen -> 0 <= snaplen -> 0 <= SIZEOF_SOCKADDR_LL -> 0 <= ETH_HLEN ->
  tp_hdrlen + SIZEOF_SOCKADDR_LL + ETH_HLEN + VLAN_TAG_LEN + snaplen
    + 3 * TPACKET_ALIGNMENT < 2 ^ 32 ->
  let frame_size := layout_frame_size tp_hdrlen snaplen in
  let needed := tp_hdrlen + SIZEOF_SOCKADDR_LL + VLAN_TAG_LEN + snaplen in
  frame_size mod TPACKET_ALIGNMENT = 0 /\
  needed <= frame_size < needed + 3 * TPACKET_ALIGNMENT.
Proof.
  intros Hk HA Hh Hs Hsll Heth Hsum frame_size needed. subst frame_size needed.
  assert (Hpos : 0 < TPACKET_ALIGNMENT) by (rewrite HA; apply Z.pow_pos_nonneg; lia).
  unfold VLAN_TAG_LEN in *.
  unfold layout_frame_size, VLAN_TAG_LEN.
  destruct (TPACKET_ALIGN_round_up k tp_hdrlen Hk HA Hh) as (_ & H1); [lia|].
  set (a1 := TPACKET_ALIGN tp_hdrlen) in *. clearbody a1.
  rewrite (u32_small (a1 + SIZEOF_SOCKADDR_LL)) by lia.
  rewrite (u32_small (a1 + SIZEOF_SOCKADDR_LL + ETH_HLEN)) by lia.
  destruct (TPACKET_ALIGN_round_up k (a1 + SIZEOF_SOCKADDR_LL + ETH_HLEN) Hk HA) as (_ & H2);
    [lia|lia|].
  set (a2 := TPACKET_ALIGN (a1 + SIZEOF_SOCKADDR_LL + ETH_HLEN)) in *. clearbody a2.
  rewrite (u32_small (a2 + 4)) by lia.
  rewrite (u32_small (a2 + 4 - ETH_HLEN + snaplen)) by lia.
  destruct (TPACKET_ALIGN_round_up k (a2 + 4 - ETH_HLEN + snaplen) Hk HA) as (H3e & H3);
    [lia|lia|].
  split; [|lia].
  rewrite H3e, Z.mul_comm. apply Z.mod_mul. lia.
Qed.

(** The layout [calculate_layout] returns, in closed form. *)
Lemma calculate_layout_result (afpc : AFPacket_Context) (layout0 : tpacket_req)
    (tp_hdrlen order : Z) :
  let fs := layout_frame_size tp_hdrlen (snaplen afpc) in
  let page_block := Z.shiftl getpagesize order in
  0 < page_block < 2 ^ 32 ->
  0 < fs <= 2 ^ 31 ->
  0 <= afpc_size afpc < 2 ^ 32 ->
  exists (k : nat),
    let bs := page_block * 2 ^ Z.of_nat k in
    let fpb := bs / fs in
    let nb := (afpc_size afpc / fs) / fpb in
    calculate_layout afpc layout0 tp_hdrlen order
    = Ret (afpc, {| tp_block_size := bs; tp_block_nr := nb;
                    tp_frame_size := fs; tp_frame_nr := nb * fpb |}, DAQ_SUCCESS) /\
    fs <= bs < 2 ^ 32 /\ 1 <= fpb /\ 0 <= nb /\
    nb * fpb * fs <= afpc_size afpc /\
    afpc_size afpc / fs - fpb < nb * fpb /\
    (k <> 0%nat -> bs < 2 * fs).
Proof.
  intros fs page_block Hpage Hfs Hsize.
  unfold calculate_layout. fold fs. fold page_block.
  rewrite (u32_small page_block) by lia.
  assert (Hfuel : 2 ^ 31 <= page_block * 2 ^ Z.of_nat 32).
  { change (Z.of_nat 32) with 32. lia. }
  destruct (grow_block_size_exits 32 page_block fs Hpage (proj2 Hfs) Hfuel)
    as (k & Hk & Hb & Hmin).
  rewrite Hk. unfold layout_counts.
  destruct (Z.eqb_spec fs 0) as [|_]; [lia|].
  exists k. cbn zeta.
  set (bs := page_block * 2 ^ Z.of_nat k) in *.
  assert (Hfpb : 1 <= bs / fs) by (apply Z.div_le_lower_bound; lia).
  destruct (Z.eqb_spec (bs / fs) 0) as [|_]; [lia|].
  set (fpb := bs / fs) in *.
  set (n := afpc_size afpc / fs).
  assert (Hn0 : 0 <= n) by (apply Z.div_pos; lia).
  assert (Hn1 : n * fs <= afpc_size afpc).
  { unfold n. rewrite Z.mul_comm. apply Z.mul_div_le. lia. }
  assert (Hnb0 : 0 <= n / fpb) by (apply Z.div_pos; lia).
  pose proof (Z.div_mod n fpb ltac:(lia)) as Hdm.
  pose proof (Z.mod_pos_bound n fpb ltac:(lia)) as Hmb.
  assert (Hfr : n / fpb * fpb <= n) by lia.
  split.
  { rewrite (u32_small (n / fpb * fpb)) by nia. reflexivity. }
  split; [exact Hb|]. split; [exact Hfpb|]. split; [exact Hnb0|].
  split; [nia|]. split; [lia|].
  intros Hk0. destruct k as [|k']; [congruence|].
  specialize (Hmin k' ltac:(lia)).
  unfold bs. rewrite Nat2Z.inj_succ, Z.pow_succ_r by lia. lia.
Qed.

(** The counts [calculate_layout] returns stay within the budget of
    the ring: the frames take at most [afpc->size] bytes, and fall short
    of the frames the budget has room for by less than one block of
    frames.  The blocks themselves, which the kernel allocates whole, take
    less than twice the budget. *)
Theorem calculate_layout_within_budget (afpc : AFPacket_Context) (layout0 : tpacket_req)
    (tp_hdrlen order : Z) :
  let fs := layout_frame_size tp_hdrlen (snaplen afpc) in
  0 < Z.shiftl getpagesize order < 2 ^ 32 ->
  0 < fs <= 2 ^ 31 ->
  0 <= afpc_size afpc < 2 ^ 32 ->
  exists layout,
    calculate_layout afpc layout0 tp_hdrlen order = Ret (afpc, layout, DAQ_SUCCESS) /\
    let fpb := tp_block_size layout / tp_frame_size layout in
    tp_frame_nr layout * tp_frame_size layout <= afpc_size afpc /\
    afpc_size afpc / fs - fpb < tp_frame_nr layout <= afpc_size afpc / fs /\
    tp_block_nr layout * tp_block_size layout < 2 * afpc_size afpc + 1 /\
    (1 <= tp_block_nr layout -> fs <= afpc_size afpc).
Proof.
  intros fs Hpage Hfs Hsize.
  destruct (calculate_layout_result afpc layout0 tp_hdrlen order Hpage Hfs Hsize)
    as (k & Hcall & Hb & Hfpb & Hnb & Hfit & Hshort & _).
  cbn zeta in *. fold fs in Hcall, Hb, Hfpb, Hnb, Hfit, Hshort.
  set (bs := Z.shiftl getpagesize order * 2 ^ Z.of_nat k) in *.
  set (fpb := bs / fs) in *. set (nb := afpc_size afpc / fs / fpb) in *.
  eexists. split; [exact Hcall|].
  cbn [tp_frame_nr tp_frame_size tp_block_size tp_block_nr]. fold fpb.
  pose proof (Z.div_mod bs fs ltac:(lia)) as Hdm.
  pose proof (Z.mod_pos_bound bs fs ltac:(lia)) as Hmb. fold fpb in Hdm.
  pose proof (Z.div_mod (afpc_size afpc / fs) fpb ltac:(lia)) as Hdm2.
  pose proof (Z.mod_pos_bound (afpc_size afpc / fs) fpb ltac:(lia)) as Hmb2.
  fold nb in Hdm2.
  split; [lia|]. split; [lia|]. split; [nia|]. nia.
Qed.

(** Where [set_up_ring] puts the slots. *)
Lemma set_up_ring_addresses (afpc : AFPacket_Context) (instance : AFPacketInstance)
    (ring : AFPacketRing) :
  let fs := tp_frame_size (layout ring) in
  let bs := tp_block_size (layout ring) in
  let fpb := bs / fs in
  let nb := tp_block_nr (layout ring) in
  let N := tp_frame_nr (layout ring) in
  0 < fs -> 0 <= bs -> nb * bs < 2 ^ 32 -> N = nb * fpb -> 1 <= N ->
  exists ring',
    set_up_ring true afpc instance ring = Ret (afpc, ring', DAQ_SUCCESS) /\
    layout ring' = layout ring /\ start ring' = start ring /\
    ring_size ring' = ring_size ring /\
    Z.of_nat (length (entries ring')) = N /\
    cursor ring' = Some 0%nat /\
    forall j, 0 <= j < N ->
      exists e, entries ring' !! Z.to_nat j = Some e /\ raw e = slot_address ring j.
Proof.
  intros fs bs fpb nb N Hfs Hbs Hfit HN HN1.
  assert (Hfpb : 0 <= fpb) by (apply Z.div_pos; lia).
  assert (Hnb : 0 < nb) by nia.
  unfold set_up_ring. cbn [negb]. fold fs bs fpb nb N.
  destruct (Z.eqb_spec fs 0) as [|_]; [lia|]. rewrite andb_false_r.
  destruct (block_loop_fills ring Hfs Hbs Hfit HN (Z.to_nat nb) 0
              (replicate (Z.to_nat N) {| next := None; raw := 0 |}))
    as (es & Hloop & Hlen & Hfill); fold fs bs fpb nb N; try lia.
  { rewrite length_replicate. lia. }
  { intros j Hj. lia. }
  fold fs bs fpb nb N in Hloop, Hlen, Hfill.
  change (0 * fpb) with 0 in Hloop. rewrite Hloop.
  destruct (Z.eqb_spec N 0) as [|_]; [lia|].
  rewrite (Hfill (N - 1)) by lia.
  eexists. split; [reflexivity|]. cbn [layout start ring_size entries cursor].
  do 3 (split; [reflexivity|]).
  split; [rewrite length_insert; exact Hlen|]. split; [reflexivity|].
  intros j Hj. unfold slot_address. fold fs bs fpb.
  destruct (Z.eq_dec j (N - 1)) as [->|Hne].
  - rewrite list_lookup_insert_eq by lia. eexists. split; reflexivity.
  - rewrite list_lookup_insert_ne by lia. rewrite (Hfill j Hj).
    eexists. split; reflexivity.
Qed.

Lemma set_up_ring_bounds (afpc : AFPacket_Context) (instance : AFPacketInstance)
    (ring : AFPacketRing) :
  let fs := tp_frame_size (layout ring) in
  let bs := tp_block_size (layout ring) in
  let nb := tp_block_nr (layout ring) in
  let N := tp_frame_nr (layout ring) in
  0 < fs -> 0 <= bs -> nb * bs < 2 ^ 32 -> N = nb * (bs / fs) -> 1 <= N ->
  exists ring',
    set_up_ring true afpc instance ring = Ret (afpc, ring', DAQ_SUCCESS) /\
    layout ring' = layout ring /\ start ring' = start ring /\
    ring_size ring' = ring_size ring /\ cursor ring' = Some 0%nat /\
    Z.of_nat (length (entries ring')) = N /\
    (forall j e, entries ring' !! j = Some e ->
       start ring <= raw e /\ raw e + fs <= start ring + nb * bs) /\
    (forall j j' e e', j <> j' ->
       entries ring' !! j = Some e -> entries ring' !! j' = Some e' ->
       raw e + fs <= raw e' \/ raw e' + fs <= raw e).
Proof.
  intros fs bs nb N Hfs Hbs Hfit HN HN1.
  destruct (set_up_ring_addresses afpc instance ring Hfs Hbs Hfit HN HN1)
    as (ring' & Hcall & Hlay & Hstart & Hrsz & Hlen & Hcur & Haddr).
  fold fs bs nb N in Hlen, Haddr.
  set (fpb := bs / fs) in *.
  assert (Hfpb0 : 0 <= fpb) by (apply Z.div_pos; lia).
  assert (Hfpb : 1 <= fpb).
  { destruct (Z.eq_dec fpb 0) as [E|]; [rewrite E, Z.mul_0_r in HN; lia|lia]. }
  assert (Hblock : fpb * fs <= bs).
  { unfold fpb. rewrite Z.mul_comm. apply Z.mul_div_le. lia. }
  assert (Hraw : forall j e, entries ring' !! j = Some e ->
            0 <= Z.of_nat j < N /\
            raw e = start ring + (Z.of_nat j / fpb) * bs + (Z.of_nat j mod fpb) * fs).
  { intros j e He.
    assert (Hj : 0 <= Z.of_nat j < N).
    { apply lookup_lt_Some in He. lia. }
    split; [exact Hj|].
    destruct (Haddr (Z.of_nat j) Hj) as (e0 & He0 & Hr).
    rewrite Nat2Z.id in He0. rewrite He in He0. injection He0 as <-. exact Hr. }
  assert (Hdm : forall j, 0 <= j < N ->
            j = fpb * (j / fpb) + j mod fpb /\ 0 <= j mod fpb < fpb /\ 0 <= j / fpb < nb).
  { intros j Hj. pose proof (Z.div_mod j fpb ltac:(lia)) as H1.
    pose proof (Z.mod_pos_bound j fpb ltac:(lia)) as H2.
    split; [exact H1|]. split; [exact H2|]. split; [apply Z.div_pos; lia|].
    apply Z.div_lt_upper_bound; lia. }
  exists ring'. split; [exact Hcall|]. split; [exact Hlay|]. split; [exact Hstart|].
  split; [exact Hrsz|]. split; [exact Hcur|]. split; [exact Hlen|]. split.
  - intros j e He. destruct (Hraw j e He) as (Hj & ->).
    destruct (Hdm _ Hj) as (_ & Hm & Hq). split; nia.
  - intros j j' e e' Hne He He'.
    destruct (Hraw j e He) as (Hj & ->). destruct (Hraw j' e' He') as (Hj' & ->).
    destruct (Hdm _ Hj) as (E & Hm & Hq). destruct (Hdm _ Hj') as (E' & Hm' & Hq').
    set (q := Z.of_nat j / fpb) in *. set (r := Z.of_nat j mod fpb) in *.
    set (q' := Z.of_nat j' / fpb) in *. set (r' := Z.of_nat j' mod fpb) in *.
    assert (Hdiff : q <> q' \/ r <> r') by lia.
    destruct (Z.lt_trichotomy q q') as [Hlt|[Heq|Hgt]].
    + left. nia.
    + rewrite Heq in *. destruct (Z.lt_trichotomy r r') as [Hr|[Hr|Hr]];
        [left; nia|lia|right; nia].
    + right. nia.
Qed.

(** After [set_up_ring], every slot of the ring points to a frame that
    lies inside the blocks of the ring, and the frames of two different
    slots do not overlap. *)
Theorem set_up_ring_frames_disjoint (afpc : AFPacket_Context) (instance : AFPacketInstance)
    (ring : AFPacketRing) :
  let fs := tp_frame_size (layout ring) in
  let bs := tp_block_size (layout ring) in
  let nb := tp_block_nr (layout ring) in
  let N := tp_frame_nr (layout ring) in
  0 < fs -> 0 <= bs -> nb * bs < 2 ^ 32 -> N = nb * (bs / fs) -> 1 <= N ->
  exists ring',
    set_up_ring true afpc instance ring = Ret (afpc, ring', DAQ_SUCCESS) /\
    Z.of_nat (length (entries ring')) = N /\
    (forall j e, entries ring' !! j = Some e ->
       start ring <= raw e /\ raw e + fs <= start ring + nb * bs) /\
    (forall j j' e e', j <> j' ->
       entries ring' !! j = Some e -> entries ring' !! j' = Some e' ->
       raw e + fs <= raw e' \/ raw e' + fs <= raw e).
Proof.
  intros fs bs nb N Hfs Hbs Hfit HN HN1.
  destruct (set_up_ring_bounds afpc instance ring Hfs Hbs Hfit HN HN1)
    as (ring' & Hcall & _ & _ & _ & _ & Hlen & Hin & Hdis).
  exists ring'. auto.
Qed.

Lemma calculate_layout_ignores_input (afpc afpc' : AFPacket_Context) (l0 l0' l : tpacket_req)
    (tp_hdrlen order : Z) :
  calculate_layout afpc l0 tp_hdrlen order = Ret (afpc', l, DAQ_SUCCESS) ->
  calculate_layout afpc l0' tp_hdrlen order = Ret (afpc', l, DAQ_SUCCESS).
Proof.
  unfold calculate_layout. destruct (grow_block_size _ _ _) as [bs|]; [|discriminate].
  unfold layout_counts.
  destruct (layout_frame_size tp_hdrlen (snaplen afpc) =? 0); [discriminate|].
  destruct (bs / layout_frame_size tp_hdrlen (snaplen afpc) =? 0); [discriminate|].
  intros [= <- <-]. reflexivity.
Qed.

(** The layout of an order from 0 to 3, whatever the layout before. *)
Lemma calculate_layout_order (afpc : AFPacket_Context) (tp_hdrlen order : Z) :
  layout_sizes_ok afpc tp_hdrlen -> 0 <= order <= 3 ->
  exists l,
    (forall l0, calculate_layout afpc l0 tp_hdrlen order = Ret (afpc, l, DAQ_SUCCESS)) /\
    tp_frame_size l = layout_frame_size tp_hdrlen (snaplen afpc) /\
    0 < tp_frame_size l <= tp_block_size l /\
    0 <= tp_block_nr l /\
    tp_frame_nr l = tp_block_nr l * (tp_block_size l / tp_frame_size l) /\
    tp_block_nr l * tp_block_size l < 2 ^ 32 /\
    (getpagesize * 8 <= afpc_size afpc -> tp_frame_size l <= afpc_size afpc ->
     1 <= tp_frame_nr l).
Proof.
  intros (Hp & Hp8 & Hfs & Hsize) Horder.
  assert (Hshift : 0 < Z.shiftl getpagesize order <= getpagesize * 8).
  { rewrite Z.shiftl_mul_pow2 by lia.
    assert (1 <= 2 ^ order <= 8).
    { assert (order = 0 \/ order = 1 \/ order = 2 \/ order = 3) as [-> | [-> | [-> | ->]]] by lia;
        cbn; lia. }
    nia. }
  destruct (calculate_layout_result afpc
              {| tp_block_size := 0; tp_block_nr := 0; tp_frame_size := 0; tp_frame_nr := 0 |}
              tp_hdrlen order)
    as (k & Hcall & Hb & Hfpb & Hnb & Hfit & Hshort & Hk); try lia.
  cbn zeta in *.
  set (fs := layout_frame_size tp_hdrlen (snaplen afpc)) in *.
  set (bs := Z.shiftl getpagesize order * 2 ^ Z.of_nat k) in *.
  set (fpb := bs / fs) in *. set (nb := afpc_size afpc / fs / fpb) in *.
  eexists. split.
  { intros l0. eapply calculate_layout_ignores_input. exact Hcall. }
  cbn [tp_frame_size tp_block_size tp_block_nr tp_frame_nr]. fold fpb.
  pose proof (Z.div_mod bs fs ltac:(lia)) as Hdm.
  pose proof (Z.mod_pos_bound bs fs ltac:(lia)) as Hmb. fold fpb in Hdm.
  split; [reflexivity|]. split; [lia|]. split; [exact Hnb|]. split; [reflexivity|].
  split; [nia|].
  intros Hpages Hfits.
  assert (Hbs : bs <= afpc_size afpc \/ fpb = 1).
  { destruct k as [|k'].
    - left. unfold bs. change (Z.of_nat 0) with 0. rewrite Z.pow_0_r. lia.
    - right. specialize (Hk ltac:(congruence)).
      assert (fpb < 2) by (apply Z.div_lt_upper_bound; lia). lia. }
  assert (Hn : fpb <= afpc_size afpc / fs).
  { destruct Hbs as [Hbs | ->].
    - apply Z.div_le_mono; lia.
    - apply Z.div_le_lower_bound; lia. }
  assert (1 <= nb) by (apply Z.div_le_lower_bound; lia).
  nia.
Qed.

Lemma set_layout_twice (l l' : tpacket_req) (r : AFPacketRing) :
  set_layout l (set_layout l' r) = set_layout l r.
Proof. reflexivity. Qed.

Lemma create_ring_loop_from (answer : Z -> ring_answer) (afpc : AFPacket_Context)
    (instance : AFPacketInstance) (o : Z) (l : tpacket_req) :
  layout_sizes_ok afpc (tp_hdrlen instance) -> 0 <= o <= 3 ->
  (forall l0, calculate_layout afpc l0 (tp_hdrlen instance) o = Ret (afpc, l, DAQ_SUCCESS)) ->
  forall (n : nat) (fuel : nat) (ring : AFPacketRing),
    o + Z.of_nat n <= 3 -> (Z.to_nat o + n < fuel)%nat ->
    (forall o', o < o' <= o + Z.of_nat n -> answer o' = Ring_ENOMEM) ->
    create_ring_loop fuel answer afpc instance ring (o + Z.of_nat n)
    = match answer o with
      | Ring_created =>
        Ret (set_ring_size (u32 (tp_block_size l * tp_block_nr l)) (set_layout l ring), None)
      | Ring_refused => Ret (set_layout l ring, Some Start_ring_refused)
      | Ring_ENOMEM =>
        create_ring_loop (fuel - S n) answer afpc instance (set_layout l ring) (o - 1)
      end.
Proof.
  intros Hok Ho Hl. induction n as [|n IH]; intros fuel ring Hn Hfuel Hmem.
  - rewrite Z.add_0_r. destruct fuel as [|fuel]; [lia|]. cbn [create_ring_loop].
    destruct (Z.ltb_spec o 0); [lia|]. rewrite Hl. cbn [bind].
    destruct (answer o); try reflexivity.
    replace (S fuel - 1)%nat with fuel by lia. reflexivity.
  - destruct fuel as [|fuel]; [lia|]. cbn [create_ring_loop].
    destruct (Z.ltb_spec (o + Z.of_nat (S n)) 0); [lia|].
    destruct (calculate_layout_order afpc (tp_hdrlen instance) (o + Z.of_nat (S n)) Hok)
      as (l1 & Hl1 & _); [lia|].
    rewrite Hl1. cbn [bind]. rewrite (Hmem (o + Z.of_nat (S n))) by lia.
    replace (o + Z.of_nat (S n) - 1) with (o + Z.of_nat n) by lia.
    rewrite IH; [|lia|lia|intros o' Ho'; apply Hmem; lia].
    rewrite set_layout_twice. replace (S fuel - S (S n))%nat with (fuel - S n)%nat by lia.
    reflexivity.
Qed.

(** [create_ring] asks the kernel for the layout of order 3 and, as
    long as the kernel answers ENOMEM, for that of the next lower order.
    The first other answer decides: the ring gets the layout of that order
    and, if the kernel has created it, the size of its blocks; another
    error ends the call with its message.  When order 0 is refused for
    lack of memory too, the call fails with the out-of-memory message. *)
Theorem create_ring_falls_back (answer : Z -> ring_answer) (afpc : AFPacket_Context)
    (instance : AFPacketInstance) (ring : AFPacketRing) (o : Z) :
  layout_sizes_ok afpc (tp_hdrlen instance) ->
  0 <= o <= 3 ->
  (forall o', o < o' <= 3 -> answer o' = Ring_ENOMEM) ->
  exists l,
    (forall l0, calculate_layout afpc l0 (tp_hdrlen instance) o = Ret (afpc, l, DAQ_SUCCESS)) /\
    tp_block_nr l * tp_block_size l < 2 ^ 32 /\
    (answer o = Ring_created ->
     create_ring answer afpc instance ring
     = Ret (set_ring_size (tp_block_size l * tp_block_nr l) (set_layout l ring), None)) /\
    (answer o = Ring_refused ->
     create_ring answer afpc instance ring
     = Ret (set_layout l ring, Some Start_ring_refused)) /\
    (answer o = Ring_ENOMEM -> o = 0 ->
     create_ring answer afpc instance ring
     = Ret (set_layout l ring, Some (Start_ring_no_memory (name instance)))).
Proof.
  intros Hok Ho Hmem.
  destruct (calculate_layout_order afpc (tp_hdrlen instance) o Hok Ho)
    as (l & Hl & _ & Hfs & Hnb & _ & Hfit & _).
  exists l. split; [exact Hl|]. split; [exact Hfit|].
  pose proof (create_ring_loop_from answer afpc instance o l Hok Ho Hl
                (Z.to_nat (3 - o)) 4 ring) as Hloop.
  replace (o + Z.of_nat (Z.to_nat (3 - o))) with 3 in Hloop by lia.
  specialize (Hloop ltac:(lia) ltac:(lia) Hmem).
  unfold create_ring, DEFAULT_ORDER. rewrite Hloop.
  split; [|split].
  - intros ->. rewrite u32_small by nia. reflexivity.
  - intros ->. reflexivity.
  - intros -> ->. replace (4 - S (Z.to_nat (3 - 0)))%nat with 0%nat by lia. reflexivity.
Qed.

Lemma create_ring_granted (answer : Z -> ring_answer) (afpc : AFPacket_Context)
    (instance : AFPacketInstance) (ring : AFPacketRing) :
  layout_sizes_ok afpc (tp_hdrlen instance) ->
  getpagesize * 8 <= afpc_size afpc ->
  layout_frame_size (tp_hdrlen instance) (snaplen afpc) <= afpc_size afpc ->
  answer DEFAULT_ORDER = Ring_created ->
  exists l,
    create_ring answer afpc instance ring
    = Ret (set_ring_size (tp_block_size l * tp_block_nr l) (set_layout l ring), None) /\
    0 < tp_frame_size l /\ 0 <= tp_block_size l /\
    tp_block_nr l * tp_block_size l < 2 ^ 32 /\
    tp_frame_nr l = tp_block_nr l * (tp_block_size l / tp_frame_size l) /\
    1 <= tp_frame_nr l.
Proof.
  intros Hok Hpages Hfits Hans.
  destruct (calculate_layout_order afpc (tp_hdrlen instance) 3 Hok ltac:(lia))
    as (l & Hl & Hfs & Hfsb & Hnb & HN & Hfit & HN1).
  exists l. split.
  - unfold create_ring, DEFAULT_ORDER in *. cbn [create_ring_loop].
    change (3 <? 0) with false. cbv iota. rewrite Hl. cbn [bind]. rewrite Hans.
    rewrite u32_small by nia. reflexivity.
  - split; [lia|]. split; [lia|]. split; [exact Hfit|]. split; [exact HN|].
    apply HN1; [exact Hpages|]. rewrite Hfs. exact Hfits.
Qed.

Lemma set_up_ring_step_ready (afpc : AFPacket_Context) (instance : AFPacketInstance)
    (ring : AFPacketRing) :
  0 < tp_frame_size (layout ring) -> 0 <= tp_block_size (layout ring) ->
  tp_block_nr (layout ring) * tp_block_size (layout ring) < 2 ^ 32 ->
  tp_frame_nr (layout ring)
  = tp_block_nr (layout ring) * (tp_block_size (layout ring) / tp_frame_size (layout ring)) ->
  1 <= tp_frame_nr (layout ring) ->
  ring_size ring = tp_block_size (layout ring) * tp_block_nr (layout ring) ->
  exists ring',
    set_up_ring_step true afpc instance ring = Ret (ring', None) /\
    layout ring' = layout ring /\ start ring' = start ring /\
    ring_size ring' = ring_size ring /\ cursor ring' = Some 0%nat /\
    entries ring' <> [] /\
    ring_within ring' (start ring) (start ring + ring_size ring).
Proof.
  intros Hfs Hbs Hfit HN HN1 Hsize.
  destruct (set_up_ring_bounds afpc instance ring Hfs Hbs Hfit HN HN1)
    as (ring' & Hcall & Hlay & Hstart & Hrsz & Hcur & Hlen & Hin & _).
  exists ring'. unfold set_up_ring_step. rewrite Hcall. cbn [bind].
  split; [reflexivity|]. split; [exact Hlay|]. split; [exact Hstart|].
  split; [exact Hrsz|]. split; [exact Hcur|]. split.
  - intros E. rewrite E in Hlen. cbn in Hlen. lia.
  - unfold ring_within. rewrite Hlay, Hsize. intros j e He.
    specialize (Hin j e He). lia.
Qed.

(** The rings of [instance], created by the kernel, are ready to be
    mapped: the RX ring has its layout and size, and the TX ring either is
    absent, for an instance without peer, or has its own. *)
Lemma map_and_set_up_granted (os : StartOS) (afpc : AFPacket_Context)
    (instance : AFPacketInstance) (hdrlen buffer : Z) (lrx ltx : tpacket_req)
    (rx0 tx0 : AFPacketRing) :
  os_grants os hdrlen buffer ->
  (forall l, l = lrx \/ l = ltx ->
     0 < tp_frame_size l /\ 0 <= tp_block_size l /\
     tp_block_nr l * tp_block_size l < 2 ^ 32 /\
     tp_frame_nr l = tp_block_nr l * (tp_block_size l / tp_frame_size l) /\
     1 <= tp_frame_nr l /\ tp_block_size l * tp_block_nr l <> 0) ->
  rx_ring instance = set_ring_size (tp_block_size lrx * tp_block_nr lrx) (set_layout lrx rx0) ->
  (peer instance = None /\ ring_size (tx_ring instance) = 0) \/
  (peer instance <> None /\
   tx_ring instance = set_ring_size (tp_block_size ltx * tp_block_nr ltx) (set_layout ltx tx0)) ->
  exists instance',
    map_and_set_up os afpc instance = Ret (instance', None) /\
    self instance' = self instance /\ name instance' = name instance /\
    index instance' = index instance /\ peer instance' = peer instance /\
    fd instance' = fd instance /\
    tp_version instance' = tp_version instance /\ tp_hdrlen instance' = tp_hdrlen instance /\
    mem instance' = os_mem os /\
    start (rx_ring instance') = buffer /\
    cursor (rx_ring instance') = Some 0%nat /\
    entries (rx_ring instance') <> [] /\
    ring_within (rx_ring instance') buffer (buffer + ring_size (rx_ring instance')) /\
    (peer instance = None -> tx_ring instance' = tx_ring instance) /\
    (peer instance <> None ->
     start (tx_ring instance') = buffer + ring_size (rx_ring instance') /\
     ring_size (tx_ring instance') <> 0 /\
     cursor (tx_ring instance') = Some 0%nat /\
     entries (tx_ring instance') <> [] /\
     ring_within (tx_ring instance') (start (tx_ring instance'))
                 (start (tx_ring instance') + ring_size (tx_ring instance'))).
Proof.
  intros (Heth & Hbind & Hso & Hmem & Hhw & Hhl & Hver & Hres & Hrx & Htx & Hmap & Hcrx & Hctx
          & Hfo) Hl Hrxr Hcase.
  destruct (Hl lrx (or_introl eq_refl)) as (Hfs & Hbs & Hfit & HN & HN1 & Hnz).
  unfold map_and_set_up, mmap_rings. rewrite Hmap.
  cbn [set_rx_ring set_mem rx_ring tx_ring].
  destruct Hcase as [(Hpeer & Htx0)|(Hpeer & Htxr)].
  - rewrite Htx0. cbn [Z.eqb negb].
    set (i4 := set_rx_ring (set_start buffer (rx_ring instance)) (set_mem (os_mem os) instance)).
    destruct (set_up_ring_step_ready afpc i4 (rx_ring i4))
      as (rx' & Hstep & Hlay & Hstart & Hsize & Hcur & Hne & Hin);
      try (unfold i4; cbn [set_rx_ring rx_ring set_start layout]; rewrite Hrxr;
           cbn [set_ring_size set_layout layout ring_size]; first [assumption|reflexivity]).
    rewrite Hcrx, Hstep. cbn [bind].
    assert (Hp5 : has_peer (set_rx_ring rx' i4) = false).
    { unfold has_peer. cbn [set_rx_ring peer i4 set_mem]. rewrite Hpeer. reflexivity. }
    rewrite Hp5. cbn [bind]. unfold configure_fanout. rewrite Hfo. cbn [negb].
    exists (set_tx_ring (tx_ring (set_rx_ring rx' i4)) (set_rx_ring rx' i4)).
    split; [destruct (PACKET_FANOUT && _); reflexivity|].
    cbn [set_tx_ring set_rx_ring i4 set_mem self name index peer fd tp_version tp_hdrlen mem
         rx_ring tx_ring].
    do 8 (split; [reflexivity|]).
    split; [rewrite Hstart; reflexivity|]. split; [exact Hcur|]. split; [exact Hne|].
    split.
    { rewrite Hsize. exact Hin. }
    split; [reflexivity|]. intros H. contradiction.
  - destruct (Hl ltx (or_intror eq_refl)) as (Hfs' & Hbs' & Hfit' & HN' & HN1' & Hnz').
    assert (Htxs : ring_size (tx_ring instance) = tp_block_size ltx * tp_block_nr ltx).
    { rewrite Htxr. reflexivity. }
    rewrite Htxs. destruct (Z.eqb_spec (tp_block_size ltx * tp_block_nr ltx) 0) as [|_];
      [contradiction|]. cbn [negb].
    cbn [set_rx_ring set_mem rx_ring tx_ring set_start ring_size].
    set (i4 := set_tx_ring _ _).
    destruct (set_up_ring_step_ready afpc i4 (rx_ring i4))
      as (rx' & Hstep & Hlay & Hstart & Hsize & Hcur & Hne & Hin);
      try (unfold i4; cbn [set_tx_ring set_rx_ring rx_ring set_start layout]; rewrite Hrxr;
           cbn [set_ring_size set_layout layout ring_size]; first [assumption|reflexivity]).
    rewrite Hcrx, Hstep. cbn [bind].
    assert (Hp5 : has_peer (set_rx_ring rx' i4) = true).
    { unfold has_peer. cbn [set_rx_ring set_tx_ring peer i4 set_mem].
      destruct (peer instance); [reflexivity|contradiction]. }
    rewrite Hp5.
    destruct (set_up_ring_step_ready afpc (set_rx_ring rx' i4) (tx_ring i4))
      as (tx' & Hstep' & Hlay' & Hstart' & Hsize' & Hcur' & Hne' & Hin');
      try (unfold i4; cbn [set_tx_ring set_rx_ring tx_ring set_start layout]; rewrite Htxr;
           cbn [set_ring_size set_layout layout ring_size]; first [assumption|reflexivity]).
    rewrite Hctx, Hstep'. cbn [bind]. unfold configure_fanout. rewrite Hfo. cbn [negb].
    exists (set_tx_ring tx' (set_rx_ring rx' i4)).
    split; [destruct (PACKET_FANOUT && _); reflexivity|].
    cbn [set_tx_ring set_rx_ring i4 set_mem self name index peer fd tp_version tp_hdrlen mem
         rx_ring tx_ring].
    do 8 (split; [reflexivity|]).
    assert (Hrs : ring_size rx' = ring_size (rx_ring instance)).
    { rewrite Hsize. reflexivity. }
    split; [rewrite Hstart; reflexivity|]. split; [exact Hcur|]. split; [exact Hne|].
    split.
    { rewrite Hrs. exact Hin. }
    split; [intros H; contradiction|]. intros _.
    assert (Hts : start tx' = buffer + ring_size (rx_ring instance)).
    { rewrite Hstart'. reflexivity. }
    assert (Htz : ring_size tx' = tp_block_size ltx * tp_block_nr ltx).
    { rewrite Hsize'. cbn [tx_ring i4 set_tx_ring set_start ring_size].
      exact Htxs. }
    split; [rewrite Hts, Hrs; reflexivity|]. split; [rewrite Htz; exact Hnz'|].
    split; [exact Hcur'|]. split; [exact Hne'|].
    rewrite Hts, Htz.
    cbn [tx_ring i4 set_tx_ring set_start start ring_size] in Hin'.
    rewrite Htxs in Hin'. exact Hin'.
Qed.

(** [start_instance] when the system grants every request. *)
Lemma start_instance_granted (os : StartOS) (afpc : AFPacket_Context)
    (instance : AFPacketInstance) (hdrlen buffer : Z) :
  os_grants os hdrlen buffer ->
  layout_sizes_ok afpc (u32 hdrlen) ->
  getpagesize * 8 <= afpc_size afpc ->
  layout_frame_size (u32 hdrlen) (snaplen afpc) <= afpc_size afpc ->
  ring_size (tx_ring instance) = 0 ->
  exists instance',
    start_instance os afpc instance = Ret (instance', None) /\
    started_as hdrlen buffer (os_mem os) instance instance'.
Proof.
  intros Hos Hok Hpages Hfits Htx0. pose proof Hos as Hos'.
  destruct Hos' as (Heth & Hbind & Hso & Hmem & Hhw & Hhl & Hver & Hres & Hrx & Htx & _).
  unfold start_instance, bind_instance_interface, iface_get_arptype.
  rewrite Hbind, Hso, Hmem, Hhw. cbn [negb Z.eqb].
  destruct (Z.ltb_spec ARPHRD_ETHER 0) as [Hneg|_]; [lia|].
  rewrite Z.eqb_refl. cbn [negb].
  unfold determine_version. rewrite Hhl, Hver, Hres. cbn [negb].
  set (i2 := set_version TPACKET_V2 (u32 hdrlen) instance).
  destruct (create_ring_granted (os_rx_ring os) afpc i2 (rx_ring i2) Hok Hpages Hfits Hrx)
    as (lrx & Hcreate & Hfacts).
  rewrite Hcreate. cbn [bind].
  set (rx := set_ring_size (tp_block_size lrx * tp_block_nr lrx) (set_layout lrx (rx_ring i2))).
  set (i3 := set_rx_ring rx i2).
  assert (Hnz : forall l,
            0 < tp_frame_size l /\ 0 <= tp_block_size l /\
            tp_block_nr l * tp_block_size l < 2 ^ 32 /\
            tp_frame_nr l = tp_block_nr l * (tp_block_size l / tp_frame_size l) /\
            1 <= tp_frame_nr l ->
            tp_block_size l * tp_block_nr l <> 0).
  { intros l (Hfs & Hbs & Hfit & HN & HN1).
    assert (0 <= tp_block_size l / tp_frame_size l) by (apply Z.div_pos; lia).
    assert (1 <= tp_block_nr l) by nia.
    assert (tp_frame_size l <= tp_block_size l).
    { destruct (Z.lt_ge_cases (tp_block_size l) (tp_frame_size l)) as [Hlt|]; [|lia].
      rewrite (Z.div_small (tp_block_size l) (tp_frame_size l)) in HN by lia. lia. }
    nia. }
  destruct (peer instance) as [q|] eqn:Hpeer.
  - assert (Hp3 : has_peer i3 = true) by (unfold has_peer; cbn; rewrite Hpeer; reflexivity).
    rewrite Hp3.
    destruct (create_ring_granted (os_tx_ring os) afpc i3 (tx_ring i3) Hok Hpages Hfits Htx)
      as (ltx & Hcreate' & Hfacts').
    rewrite Hcreate'. cbn [bind].
    destruct (map_and_set_up_granted os afpc
                (set_tx_ring (set_ring_size (tp_block_size ltx * tp_block_nr ltx)
                                            (set_layout ltx (tx_ring i3))) i3)
                hdrlen buffer lrx ltx (rx_ring i2) (tx_ring i3) Hos)
      as (i' & Hrun & Hprops).
    { intros l [->| ->]; repeat split; try tauto; apply Hnz; tauto. }
    { reflexivity. }
    { right. split; [cbn; rewrite Hpeer; discriminate|reflexivity]. }
    exists i'. split; [exact Hrun|].
    destruct Hprops as (A1 & A2 & A3 & A4 & A5 & A6 & A7 & A8 & A9 & A10 & A11 & A12 & A13 & A14).
    unfold started_as. cbn in A1, A2, A3, A4, A5, A6, A7.
    repeat (split; [first [assumption|congruence]|]).
    intros _. apply A14. cbn. rewrite Hpeer. discriminate.
  - assert (Hp3 : has_peer i3 = false) by (unfold has_peer; cbn; rewrite Hpeer; reflexivity).
    rewrite Hp3. cbn [bind].
    destruct (map_and_set_up_granted os afpc (set_tx_ring (tx_ring i3) i3)
                hdrlen buffer lrx lrx (rx_ring i2) (tx_ring i3) Hos)
      as (i' & Hrun & Hprops).
    { intros l [->| ->]; repeat split; try tauto; apply Hnz; tauto. }
    { reflexivity. }
    { left. split; [cbn; exact Hpeer|cbn; exact Htx0]. }
    exists i'. split; [exact Hrun|].
    destruct Hprops as (A1 & A2 & A3 & A4 & A5 & A6 & A7 & A8 & A9 & A10 & A11 & A12 & A13 & A14).
    unfold started_as. cbn in A1, A2, A3, A4, A5, A6, A7.
    repeat (split; [first [assumption|congruence]|]).
    first [ intros E; congruence
          | split; [intros _; apply A13; cbn; exact Hpeer|intros E; congruence] ].
Qed.

(** [start_instance] on an instance fresh from initialization, when
    the system grants every request: the instance gets TPACKET_V2 and the
    header length the kernel reports; its RX ring is mapped at the address
    of the mapping, with every slot inside the ring and the cursor on slot
    0; an instance without peer gets no TX ring, and a bridged one gets its
    TX ring right after the RX ring, so that the frames of the two rings do
    not overlap. *)
Theorem start_instance_maps_rings (os : StartOS) (afpc : AFPacket_Context)
    (instance : AFPacketInstance) (hdrlen buffer : Z) :
  os_grants os hdrlen buffer ->
  layout_sizes_ok afpc (u32 hdrlen) ->
  getpagesize * 8 <= afpc_size afpc ->
  layout_frame_size (u32 hdrlen) (snaplen afpc) <= afpc_size afpc ->
  ring_size (tx_ring instance) = 0 ->
  exists instance',
    start_instance os afpc instance = Ret (instance', None) /\
    started_as hdrlen buffer (os_mem os) instance instance' /\
    forall j j' e e',
      entries (rx_ring instance') !! j = Some e ->
      entries (tx_ring instance') !! j' = Some e' ->
      peer instance <> None ->
      raw e + tp_frame_size (layout (rx_ring instance')) <= raw e'.
Proof.
  intros Hos Hok Hpages Hfits Htx0.
  destruct (start_instance_granted os afpc instance hdrlen buffer Hos Hok Hpages Hfits Htx0)
    as (i' & Hrun & Hst).
  exists i'. split; [exact Hrun|]. split; [exact Hst|].
  intros j j' e e' He He' Hpeer.
  destruct Hst as (_ & _ & _ & _ & _ & _ & _ & _ & _ & _ & _ & Hrx & _ & Htx).
  destruct (Htx Hpeer) as (Hstart & _ & _ & _ & Hin).
  specialize (Hrx j e He). specialize (Hin j' e' He'). lia.
Qed.

Lemma start_loop_granted (os : nat -> StartOS) (afpc : AFPacket_Context)
    (hdrlen : Z) (buffer : nat -> Z) (todo : list AFPacketInstance) :
  layout_sizes_ok afpc (u32 hdrlen) ->
  getpagesize * 8 <= afpc_size afpc ->
  layout_frame_size (u32 hdrlen) (snaplen afpc) <= afpc_size afpc ->
  (forall i, In i todo ->
     os_grants (os (self i)) hdrlen (buffer (self i)) /\ ring_size (tx_ring i) = 0) ->
  exists done,
    start_loop os afpc todo = Ret (done, None) /\
    Forall2 (fun i i' => started_as hdrlen (buffer (self i)) (os_mem (os (self i))) i i')
            todo done.
Proof.
  intros Hok Hpages Hfits. induction todo as [|i todo IH]; intros Hall.
  - exists []. split; [reflexivity|constructor].
  - destruct (Hall i (or_introl eq_refl)) as (Hos & Htx0).
    destruct (start_instance_granted (os (self i)) afpc i hdrlen (buffer (self i))
                Hos Hok Hpages Hfits Htx0) as (i' & Hrun & Hst).
    destruct IH as (done & Hloop & Hdone).
    { intros j Hj. apply Hall. right. exact Hj. }
    exists (i' :: done). cbn [start_loop]. rewrite Hrun. cbn [bind]. rewrite Hloop.
    split; [reflexivity|]. constructor; assumption.
Qed.

(** [afpacket_daq_start] after a successful [afpacket_daq_initialize],
    when the system grants every request of every instance: the call
    returns DAQ_SUCCESS, the context is in the started state with all
    counters at zero, and every instance is started as
    [start_instance] leaves it. *)
Theorem initialize_then_start (env : InitEnv) (config : DAQ_ModuleConfig)
    (afpc : AFPacket_Context) (os : nat -> StartOS) (hdrlen : Z) (buffer : nat -> Z) :
  0 < IFNAMSIZ ->
  afpacket_daq_initialize env config = Ret (inr afpc) ->
  (forall p, os_grants (os p) hdrlen (buffer p)) ->
  layout_sizes_ok afpc (u32 hdrlen) ->
  getpagesize * 8 <= afpc_size afpc ->
  layout_frame_size (u32 hdrlen) (snaplen afpc) <= afpc_size afpc ->
  exists afpc',
    afpacket_daq_start os afpc = Ret (afpc', DAQ_SUCCESS, None) /\
    afpacket_daq_check_status afpc' = DAQ_STATE_STARTED /\
    stats afpc' = zero_stats /\
    intf_count afpc' = Z.of_nat (length (instances afpc')) /\
    curr_instance afpc' = option_map self (head (instances afpc')) /\
    Forall2 (fun i i' => started_as hdrlen (buffer (self i)) (os_mem (os (self i))) i i')
            (instances afpc) (instances afpc').
Proof.
  intros Hifn Hinit Hos Hok Hpages Hfits.
  destruct (initialize_created env config afpc Hifn Hinit)
    as ((_ & _ & _ & Htx) & (Hc & _) & Hne & _ & Hcur).
  destruct (start_loop_granted os afpc hdrlen buffer (instances afpc) Hok Hpages Hfits)
    as (done & Hloop & Hdone).
  { intros i Hi. split; [apply Hos|apply Htx; exact Hi]. }
  unfold afpacket_daq_start. rewrite Hloop. cbn [bind].
  eexists. split; [reflexivity|].
  cbn [afpacket_daq_check_status set_state reset_stats set_stats set_instances state stats
       intf_count instances curr_instance].
  split; [reflexivity|]. split; [reflexivity|].
  split.
  { rewrite Hc. f_equal. apply Forall2_length in Hdone. exact Hdone. }
  split; [|exact Hdone].
  rewrite Hcur. destruct Hdone as [|i i' l l' Hi _]; [reflexivity|].
  cbn. f_equal. symmetry. exact (proj1 Hi).
Qed.

(** What [afpacket_daq_start] does when the instance [i] fails to
    start after those before it have started. *)
Lemma start_loop_fails (os : nat -> StartOS) (afpc : AFPacket_Context)
    (before before' : list AFPacketInstance) (i i' : AFPacketInstance)
    (after : list AFPacketInstance) (e : start_error) :
  instances afpc = before ++ i :: after ->
  Forall2 (fun j j' => start_instance (os (self j)) afpc j = Ret (j', None)) before before' ->
  start_instance (os (self i)) afpc i = Ret (i', Some e) ->
  exists afpc',
    afpacket_daq_start os afpc = Ret (afpc', DAQ_ERROR, Some e) /\
    instances afpc' = before' ++ i' :: after /\
    afpacket_daq_check_status afpc' = afpacket_daq_check_status afpc /\
    stats afpc' = stats afpc.
Proof.
  intros Hl Hbefore Hfail.
  assert (Hloop : start_loop os afpc (before ++ i :: after)
                  = Ret (before' ++ i' :: after, Some e)).
  { clear Hl. induction Hbefore as [|j j' l l' Hj _ IH]; cbn [app start_loop].
    - rewrite Hfail. reflexivity.
    - rewrite Hj. cbn [bind]. rewrite IH. reflexivity. }
  unfold afpacket_daq_start. rewrite Hl, Hloop. cbn [bind].
  eexists. split; [reflexivity|]. repeat split.
Qed.

(** [afpacket_daq_start] stops at the first instance that fails to
    start: it returns DAQ_ERROR with the message of that failure, leaves
    the state and the counters of the context as they were, keeps the
    instances before it started, and does not touch those after it.  An
    interface that is bound but is not an Ethernet is such a failure: the
    message names the interface and its hardware type, and the instance
    is left as it was, with no protocol version set and no ring, whatever
    the system would have answered to the later requests. *)
Theorem start_stops_at_first_failure (os : nat -> StartOS) (afpc : AFPacket_Context)
    (before before' : list AFPacketInstance) (i : AFPacketInstance)
    (after : list AFPacketInstance) :
  instances afpc = before ++ i :: after ->
  Forall2 (fun j j' => start_instance (os (self j)) afpc j = Ret (j', None)) before before' ->
  (forall i' e,
     start_instance (os (self i)) afpc i = Ret (i', Some e) ->
     exists afpc',
       afpacket_daq_start os afpc = Ret (afpc', DAQ_ERROR, Some e) /\
       instances afpc' = before' ++ i' :: after /\
       afpacket_daq_check_status afpc' = afpacket_daq_check_status afpc /\
       stats afpc' = stats afpc) /\
  (forall arptype,
     os_bind (os (self i)) = true ->
     os_so_error (os (self i)) = Some 0 ->
     os_add_membership (os (self i)) = true ->
     os_hwaddr (os (self i)) = Hwaddr_family arptype ->
     0 <= arptype -> arptype <> ARPHRD_ETHER ->
     start_instance (os (self i)) afpc i
     = Ret (i, Some (Start_invalid_interface_type (name i) arptype)) /\
     exists afpc',
       afpacket_daq_start os afpc
       = Ret (afpc', DAQ_ERROR, Some (Start_invalid_interface_type (name i) arptype)) /\
       instances afpc' = before' ++ i :: after /\
       afpacket_daq_check_status afpc' = afpacket_daq_check_status afpc /\
       stats afpc' = stats afpc).
Proof.
  intros Hl Hbefore. split.
  - intros i' e Hfail. exact (start_loop_fails os afpc before before' i i' after e Hl Hbefore Hfail).
  - intros arptype Hbind Herr Hmember Hhw Hpos Hether.
    assert (Hfail : start_instance (os (self i)) afpc i
                    = Ret (i, Some (Start_invalid_interface_type (name i) arptype))).
    { unfold start_instance, bind_instance_interface, iface_get_arptype.
      rewrite Hbind, Herr, Hmember, Hhw. cbn [negb Z.eqb].
      destruct (Z.ltb_spec arptype 0); [lia|].
      destruct (Z.eqb_spec arptype ARPHRD_ETHER); [contradiction|]. reflexivity. }
    split; [exact Hfail|].
    exact (start_loop_fails os afpc before before' i i after _ Hl Hbefore Hfail).
Qed.

Lemma given_spec (key : string) (p : option string -> bool)
    (vars : list (string * option string)) :
  given key p vars = true <-> exists v, In (key, v) vars /\ p v = true.
Proof.
  unfold given. rewrite existsb_exists. split.
  - intros ([k v] & Hin & Hk). cbn [fst snd] in Hk. apply andb_true_iff in Hk.
    destruct Hk as (Hk & Hp). apply String.eqb_eq in Hk. subst k. eauto.
  - intros (v & Hin & Hp). exists (key, v). cbn [fst snd].
    rewrite String.eqb_refl, Hp. auto.
Qed.

Lemma read_variables_flags (vars : list (string * option string)) :
  forall size_str0 dbg0 fo0 size_str dbg fo,
    read_variables vars (size_str0, dbg0, fo0) = inr (size_str, dbg, fo) ->
    fanout_enabled fo
    = fanout_enabled fo0 || (PACKET_FANOUT && given "fanout_type" has_value vars) /\
    fanout_flag_rollover fo
    = fanout_flag_rollover fo0
      || (PACKET_FANOUT && given "fanout_flag" (is_value "rollover") vars) /\
    fanout_flag_defrag fo
    = fanout_flag_defrag fo0
      || (PACKET_FANOUT && given "fanout_flag" (is_value "defrag") vars) /\
    (dbg =? 1) = (dbg0 =? 1) || given "debug" (fun _ => true) vars.
Proof.
  induction vars as [|[k v] rest IH]; intros s0 d0 fo0 s d fo H.
  - cbn in H. injection H as <- <- <-. cbn. rewrite !andb_false_r, !orb_false_r. auto.
  - cbn [read_variables] in H. unfold given in *. cbn [existsb fst snd].
    destruct (String.eqb_spec k "buffer_size_mb") as [->|Hk1].
    { apply IH in H. destruct H as (A & B & C & D). rewrite A, B, C, D. cbn. auto. }
    destruct (String.eqb_spec k "debug") as [->|Hk2].
    { apply IH in H. destruct H as (A & B & C & D). rewrite A, B, C, D. cbn.
      rewrite !orb_true_r. auto. }
    cbn [andb orb].
    destruct PACKET_FANOUT eqn:Hpf; cbn [andb] in *.
    2:{ apply IH in H. destruct H as (A & B & C & D). rewrite A, B, C, D. auto. }
    destruct (String.eqb_spec k "fanout_type") as [->|Hk3].
    { destruct v as [v|]; [|discriminate].
      repeat match type of H with
             | context [if ?c then _ else _] => destruct c
             end; try discriminate;
        apply IH in H; destruct H as (A & B & C & D); rewrite A, B, C, D;
        cbn; rewrite ?orb_true_r; auto. }
    destruct (String.eqb_spec k "fanout_flag") as [->|Hk4].
    { destruct v as [v|]; [|discriminate]. cbn [is_value has_value andb orb].
      destruct (String.eqb_spec v "rollover") as [->|Hv1].
      { apply IH in H. destruct H as (A & B & C & D). rewrite A, B, C, D.
        cbn. rewrite ?orb_true_r. auto. }
      destruct (String.eqb_spec v "defrag") as [->|Hv2]; [|discriminate].
      apply IH in H. destruct H as (A & B & C & D). rewrite A, B, C, D.
      cbn. rewrite ?orb_true_r. auto. }
    cbn [andb orb]. apply IH in H. exact H.
Qed.

(** What the loop over the configuration variables of
    [afpacket_daq_initialize] leaves, when it meets no error.  Fan-out is
    enabled exactly when the module is built with PACKET_FANOUT and a
    fanout_type variable is given: fanout_flag variables set their flag
    but do not enable it.  The debug flag is set exactly when a debug
    variable is given, and variables with other names are ignored. *)
Theorem read_variables_fanout (vars : list (string * option string))
    (size_str : option string) (dbg : Z) (fo : AFPacketFanoutCfg) :
  read_variables vars (None, 0, no_fanout) = inr (size_str, dbg, fo) ->
  (fanout_enabled fo = true <->
   PACKET_FANOUT = true /\ exists v, In ("fanout_type"%string, Some v) vars) /\
  (fanout_flag_rollover fo = true <->
   PACKET_FANOUT = true /\ In ("fanout_flag"%string, Some "rollover"%string) vars) /\
  (fanout_flag_defrag fo = true <->
   PACKET_FANOUT = true /\ In ("fanout_flag"%string, Some "defrag"%string) vars) /\
  (dbg = 1 <-> exists v, In ("debug"%string, v) vars) /\
  size_str = buffer_size_mb_value vars None.
Proof.
  intros H. pose proof (read_variables_size_str _ _ _ _ _ _ _ H) as Hs.
  apply read_variables_flags in H. destruct H as (He & Hr & Hd & Hdbg).
  cbn [no_fanout fanout_enabled fanout_flag_rollover fanout_flag_defrag orb] in *.
  assert (Hval : forall s, (exists v, In ("fanout_flag"%string, v) vars /\ is_value s v = true)
                           <-> In ("fanout_flag"%string, Some s) vars).
  { intros s0. split.
    - intros ([v|] & Hin & Hv); [|discriminate]. cbn in Hv.
      apply String.eqb_eq in Hv. subst v. exact Hin.
    - intros Hin. exists (Some s0). cbn. rewrite String.eqb_refl. auto. }
  split.
  { rewrite He, andb_true_iff, given_spec. split; intros (Hp & Hg); (split; [exact Hp|]).
    - destruct Hg as ([v|] & Hin & Hv); [eauto|discriminate].
    - destruct Hg as (v & Hin). exists (Some v). auto. }
  split; [rewrite Hr, andb_true_iff, given_spec, Hval; reflexivity|].
  split; [rewrite Hd, andb_true_iff, given_spec, Hval; reflexivity|].
  split; [|exact Hs].
  rewrite <- Z.eqb_eq, Hdbg. cbn [Z.eqb orb]. rewrite given_spec.
  split; [intros (v & Hin & _); eauto|intros (v & Hin); eauto].
Qed.

(** [afpacket_daq_initialize] fails with DAQ_ERROR whenever the device
    string names an interface for which the system has no index: no
    context is returned for a device string with an unknown interface,
    wherever it stands in the string. *)
Theorem initialize_rejects_unknown_device (env : InitEnv) (config : DAQ_ModuleConfig)
    (device : string) :
  0 < IFNAMSIZ ->
  In device (nonempty_tokens (cfg_input config)) ->
  env_ifindex env device = None ->
  exists e, afpacket_daq_initialize env config = Ret (inl (DAQ_ERROR, e)).
Proof.
  intros Hifn Hin Hnone. unfold afpacket_daq_initialize.
  match goal with |- context [if ?c then _ else _] => destruct c end; [eauto|].
  rewrite (parse_loop_tokens env (cfg_mode config) _ Hifn) by lia.
  assert (Hp0 : parse_inv (cfg_mode config) ([], 0, 0)).
  { unfold parse_inv, AF_PACKET_MAX_INTERFACES. cbn. repeat split; try lia; auto. }
  assert (Hc0 : created_inv env (cfg_mode config) [] ([], 0, 0)).
  { cbn. split; [reflexivity|]. split; [intros i []|]. split; [intros _ i []|intros i []]. }
  destruct (parse_tokens_result env (cfg_mode config) (nonempty_tokens (cfg_input config))
              [] 0 0 Hp0) as [(e & He)|(insts & ic & n & Hrun & _)].
  - rewrite He. cbn [bind]. eauto.
  - exfalso.
    pose proof (parse_tokens_created env (cfg_mode config) _ [] _ _ Hc0 Hp0 Hrun) as Hcr.
    cbn [app] in Hcr. destruct Hcr as (Hnames & Hidx & _).
    assert (Hname : In device (map name insts)).
    { rewrite Hnames. apply in_rev. rewrite rev_involutive. exact Hin. }
    apply in_map_iff in Hname. destruct Hname as (i & Hi & Hini).
    specialize (Hidx i Hini). rewrite Hi in Hidx. congruence.
Qed.

End ModuleFacts.

Lemma calculate_layout_spec_witness :
  (exists (k : nat) afpc' layout rc,
     calculate_layout (hdrs := linux) ctx_eth0_16M no_layout 32 3 = Ret (afpc', layout, rc) /\
     tp_frame_size layout = 1600 /\
     tp_block_size layout = 32768 * 2 ^ Z.of_nat k /\
     1600 <= tp_block_size layout /\
     (forall j : nat, (j < k)%nat -> 32768 * 2 ^ Z.of_nat j < 1600) /\
     let frames_per_block := tp_block_size layout / 1600 in
     rc = DAQ_SUCCESS /\
     tp_block_nr layout = (16777216 / 1600) / frames_per_block /\
     tp_frame_nr layout = tp_block_nr layout * frames_per_block) /\
  (forall block_size : Z,
     block_size / 1600 = 0 ->
     exists afpc' layout,
       layout_counts ctx_eth0_16M no_layout 1600 block_size = Ret (afpc', layout, DAQ_ERROR)).
Proof.
  apply (calculate_layout_spec (hdrs := linux) ctx_eth0_16M no_layout 32 3);
    vm_compute; split; congruence.
Defined.

Lemma set_up_ring_spec_witness :
  exists ring',
    set_up_ring true ctx_eth0_16M eth0_mapped ring_2x2
      = Ret (ctx_eth0_16M, ring', DAQ_SUCCESS) /\
    layout ring' = layout ring_2x2 /\
    start ring' = 0x10000 /\
    Z.of_nat (length (entries ring')) = 4 /\
    cursor ring' = Some 0%nat /\
    forall b f : Z, 0 <= b < 2 -> 0 <= f < 4096 / 2048 ->
      let idx := b * (4096 / 2048) + f in
      exists e,
        entries ring' !! Z.to_nat idx = Some e /\
        raw e = 0x10000 + b * 4096 + f * 2048 /\
        next e = Some (if idx =? 4 - 1 then 0%nat else Z.to_nat (idx + 1)).
Proof.
  apply (set_up_ring_spec ctx_eth0_16M eth0_mapped ring_2x2);
    vm_compute; congruence.
Defined.

Lemma initialize_buffer_split_witness :
  exists afpc,
    afpacket_daq_initialize (hdrs := linux) host_env
      (config_of "eth0" DAQ_MODE_PASSIVE [("buffer_size_mb"%string, Some "16"%string)])
      = Ret (inr afpc) /\
    afpc_size afpc = 16 * MiB /\
    afpc_size afpc
    = total_buffer_size host_env
        (buffer_size_mb_value [("buffer_size_mb"%string, Some "16"%string)] None)
      / (unbridged (instances afpc) + 2 * bridged (instances afpc)).
Proof.
  eexists. split; [vm_compute; reflexivity|]. split; [vm_compute; reflexivity|].
  eapply (initialize_buffer_split (hdrs := linux) host_env
            (config_of "eth0" DAQ_MODE_PASSIVE [("buffer_size_mb"%string, Some "16"%string)])).
  vm_compute; reflexivity.
Defined.

(** C5 as stated fails: with two rings for the bridged pair eth0:eth1 the
    share would be 64 MiB, and the module gives 32 MiB. *)
Lemma initialize_buffer_split_counterexample :
  exists afpc,
    afpacket_daq_initialize (hdrs := linux) host_env
      (config_of "eth0:eth1" DAQ_MODE_INLINE []) = Ret (inr afpc) /\
    unbridged (instances afpc) = 0 /\ bridged (instances afpc) = 2 /\
    rings_as_claimed (instances afpc) = 2 /\
    total_buffer_size host_env (buffer_size_mb_value [] None) = 128 * MiB /\
    afpc_size afpc = 32 * MiB /\
    afpc_size afpc
    <> total_buffer_size host_env (buffer_size_mb_value [] None)
       / rings_as_claimed (instances afpc).
Proof.
  eexists. split; [vm_compute; reflexivity|].
  vm_compute. repeat split; congruence.
Qed.

Lemma finalize_rejects_other_message_witness :
  afpacket_daq_msg_finalize (hdrs := linux)
    (MsgOther {| type := DAQ_MSG_TYPE_PACKET; msg := DescCurr |})
    (verdict_value DAQ_VERDICT_PASS) (after_receive 1 m_bridge)
  = Ret (after_receive 1 m_bridge, DAQ_ERROR).
Proof.
  apply (finalize_rejects_other_message (hdrs := linux)).
  - discriminate.
  - left. discriminate.
Defined.

Lemma finalize_current_message_witness :
  exists m' e',
    afpacket_daq_msg_finalize (hdrs := linux) MsgCurr (verdict_value DAQ_VERDICT_PASS)
      (after_receive 1 m_bridge) = Ret (m', DAQ_SUCCESS) /\
    verdicts (stats (afpc m')) = [1; 0; 0; 0; 0; 0; 0] /\
    rx_slot_status m' 0 0 = Some 0 /\
    errbuf (afpc m') = NoError /\
    find_instance 1 (instances (afpc m')) = Some e' /\
    cursor (tx_ring e') = Some 1%nat /\
    tp_status (hdr (mem e' 0x20000)) = 1 /\
    tp_len (hdr (mem e' 0x20000)) = 100 /\
    bytes (mem e' 0x20000) 32 = 1 /\ bytes (mem e' 0x20000) 131 = 1 /\
    trace m' = [Sys_send 4].
Proof.
  edestruct (finalize_current_message (hdrs := linux) (after_receive 1 m_bridge)
               (verdict_value DAQ_VERDICT_PASS) 0%nat 0%nat)
    as (m' & Hfin & _ & _ & Hv & _ & He & Hs & _ & _ & _ & _ & _ & _ & _ & Hqueued & _).
  - vm_compute; reflexivity.
  - vm_compute; congruence.
  - vm_compute; reflexivity.
  - vm_compute; reflexivity.
  - vm_compute; reflexivity.
  - vm_compute; reflexivity.
  - vm_compute; reflexivity.
  - vm_compute; reflexivity.
  - vm_compute. eexists. reflexivity.
  - eexists. split; [vm_compute; reflexivity|]. right. eexists. eexists.
    split; vm_compute; reflexivity.
  - edestruct Hqueued as (e' & Hfe & Hcur & _ & Hst & Hln & Hby & _ & Htr).
    + left. vm_compute; reflexivity.
    + vm_compute; reflexivity.
    + congruence.
    + vm_compute; reflexivity.
    + vm_compute; congruence.
    + vm_compute; reflexivity.
    + vm_compute; congruence.
    + vm_compute. repeat split; congruence.
    + exists m', e'. split; [exact Hfin|]. split; [exact Hv|]. split; [exact Hs|].
      split; [exact He|]. split; [exact Hfe|]. split; [exact Hcur|]. split; [exact Hst|].
      split; [exact Hln|].
      split; [exact (Hby 0 ltac:(vm_compute; split; congruence))|].
      split; [exact (Hby 99 ltac:(vm_compute; split; congruence))|exact Htr].
Defined.

(** C2 as stated fails: with the TX ring of the peer full,
    [afpacket_daq_msg_finalize] returns DAQ_SUCCESS and the error buffer
    holds what it held before, which is no record of the full ring. *)
Lemma finalize_tx_full_counterexample :
  exists m',
    tx_full (hdrs := linux) (instances (afpc (after_receive (hdrs := linux) 1 m_bridge_tx_full)))
      (Some 1%nat) /\
    errbuf (afpc (after_receive (hdrs := linux) 1 m_bridge_tx_full)) = NoError /\
    afpacket_daq_msg_finalize (hdrs := linux) MsgCurr (verdict_value DAQ_VERDICT_PASS)
      (after_receive 1 m_bridge_tx_full) = Ret (m', DAQ_SUCCESS) /\
    errbuf (afpc m') = NoError /\
    errbuf (afpc m') <> Err_tx_ring_full.
Proof.
  eexists. split.
  { exists 1%nat. eexists. exists 0%nat. eexists.
    split; [reflexivity|]. split; [vm_compute; reflexivity|].
    split; [vm_compute; congruence|]. split; [vm_compute; reflexivity|].
    split; [vm_compute; reflexivity|]. vm_compute; congruence. }
  split; [vm_compute; reflexivity|].
  split; [vm_compute; reflexivity|].
  split; [vm_compute; reflexivity|].
  vm_compute; congruence.
Qed.

Lemma receive_restores_vlan_tag_witness :
  exists m',
    afpacket_daq_msg_receive (hdrs := linux) 1 (m_one_frame (vlan_frame 81 100 0x88a8))
      = Ret (m', DAQ_SUCCESS, MsgCurr) /\
    caplen (pkthdr (curr_packet (afpc m'))) = 104 /\
    pktlen (pkthdr (curr_packet (afpc m'))) = 104 /\
    desc_data (curr_packet (afpc m'))
      = Some {| dp_inst := 0; dp_frame := 0x10000; dp_off := 76 |}.
Proof.
  edestruct (receive_restores_vlan_tag (hdrs := linux) 0
               (m_one_frame (vlan_frame 81 100 0x88a8))) with (p := 0%nat) (k := 0%nat)
    as (m' & i' & Hrecv & _ & Hdata & _ & Hcap & Hpkt & _).
  - vm_compute; reflexivity.
  - vm_compute; reflexivity.
  - vm_compute; reflexivity.
  - vm_compute; reflexivity.
  - left. vm_compute; congruence.
  - vm_compute; congruence.
  - vm_compute; congruence.
  - vm_compute; congruence.
  - vm_compute; congruence.
  - vm_compute; reflexivity.
  - vm_compute; congruence.
  - vm_compute; reflexivity.
  - vm_compute; split; congruence.
  - vm_compute; split; congruence.
  - intros prog Hprog. vm_compute in Hprog. discriminate.
  - intros q Hq. vm_compute in Hq. discriminate.
  - exists m'. split; [exact Hrecv|]. split; [exact Hcap|]. split; [exact Hpkt|exact Hdata].
Defined.

(** C4 as stated fails: with the tpid-valid bit set and a kernel TPID of
    zero, the tag carries 0x8100 and not the kernel's value. *)
Lemma vlan_tpid_counterexample :
  exists m',
    afpacket_daq_msg_receive (hdrs := linux) 1 (m_one_frame (vlan_frame 81 100 0))
      = Ret (m', DAQ_SUCCESS, MsgCurr) /\
    TP_STATUS_VLAN_TPID_VALID (Headers := linux) = Some 64 /\
    Z.land (tp_status (hdr (vlan_frame 81 100 0))) 64 <> 0 /\
    tp_vlan_tpid (hdr (vlan_frame 81 100 0)) = 0 /\
    delivered_byte m' 12 = Some 0x81 /\ delivered_byte m' 13 = Some 0x00 /\
    delivered_byte m' 14 = Some 0x00 /\ delivered_byte m' 15 = Some 0x64 /\
    0x81 * 256 + 0x00 <> tp_vlan_tpid (hdr (vlan_frame 81 100 0)).
Proof.
  eexists. split; [vm_compute; reflexivity|].
  vm_compute. repeat split; congruence.
Qed.

(** C1. The filter path releases the slot of the descriptor of the
    previous delivery ([afpc->curr_packet]), not the slot of the frame it
    has just dropped.  When the first frame of a capture is rejected that
    descriptor is still null; after a delivery, the slot of the rejected
    frame stays owned by user space. *)
Theorem filtered_frame_slot_not_released :
  afpacket_daq_msg_receive (hdrs := linux) 2 m_filter_first = Fault /\
  exists m1 m2 m3,
    afpacket_daq_msg_receive (hdrs := linux) 1 m_filter_two = Ret (m1, DAQ_SUCCESS, MsgCurr) /\
    afpacket_daq_msg_finalize (hdrs := linux) MsgCurr (verdict_value DAQ_VERDICT_PASS) m1
      = Ret (m2, DAQ_SUCCESS) /\
    rx_slot_status m2 0 0 = Some (TP_STATUS_KERNEL (Headers := linux)) /\
    rx_slot_status m2 0 1 = Some (TP_STATUS_USER (Headers := linux)) /\
    afpacket_daq_msg_receive (hdrs := linux) 2 m2 = Ret (m3, DAQ_SUCCESS, MsgNull) /\
    packets_filtered (stats (afpc m3)) = 1 /\
    rx_slot_status m3 0 1 = Some (TP_STATUS_USER (Headers := linux)) /\
    rx_slot_status m3 0 1 <> Some (TP_STATUS_KERNEL (Headers := linux)).
Proof.
  split; [vm_compute; reflexivity|].
  eexists. eexists. eexists.
  split; [vm_compute; reflexivity|].
  split; [vm_compute; reflexivity|].
  split; [vm_compute; reflexivity|].
  split; [vm_compute; reflexivity|].
  split; [vm_compute; reflexivity|].
  vm_compute. repeat split; congruence.
Qed.

(** C3. An interrupted [poll] is retried inside
    [afpacket_wait_for_packet]'s caller without a look at [break_loop]:
    with the flag set by the signal handler, the call still ends in the
    error of the next [poll], or never ends when [poll] blocks.  Only a
    [poll] that reports a ready socket leads to the loop boundary where
    the flag is read. *)
Theorem interrupted_poll_ignores_break_loop :
  (exists m',
     afpacket_daq_msg_receive (hdrs := linux) 1
       (m_idle [PollInterrupted true; PollReady [POLLHUP (Headers := linux)]])
     = Ret (m', DAQ_ERROR, MsgNull) /\
     break_loop (afpc m') = 1 /\ errbuf (afpc m') = Err_poll_hangup) /\
  (forall fuel : nat,
     afpacket_daq_msg_receive (hdrs := linux) (S fuel) (m_idle [PollInterrupted true]) = Hang) /\
  (exists m',
     afpacket_daq_msg_receive (hdrs := linux) 1 (m_idle [PollInterrupted true; PollReady [1]])
     = Ret (m', DAQ_SUCCESS, MsgNull) /\
     break_loop (afpc m') = 1).
Proof.
  split.
  { eexists. split; [vm_compute; reflexivity|]. vm_compute. split; reflexivity. }
  split.
  { intros fuel. vm_compute. reflexivity. }
  eexists. split; [vm_compute; reflexivity|]. vm_compute. reflexivity.
Qed.

(** C9. The bound check adds the MAC offset and the capture length as
    32-bit unsigned integers: a header whose sum wraps passes it, and the
    frame is delivered with its capture length. *)
Theorem corrupt_frame_check_wraps :
  tp_mac (hdr wrapping_frame) + tp_snaplen (hdr wrapping_frame) > 2048 /\
  exists m',
    afpacket_daq_msg_receive (hdrs := linux) 1 (m_one_frame wrapping_frame)
      = Ret (m', DAQ_SUCCESS, MsgCurr) /\
    caplen (pkthdr (curr_packet (afpc m'))) = 4294967280 /\
    errbuf (afpc m') = NoError /\
    option_map (fun i => tp_frame_size (layout (rx_ring i)))
               (find_instance 0 (instances (afpc m'))) = Some 2048.
Proof.
  split; [vm_compute; reflexivity|].
  eexists. split; [vm_compute; reflexivity|].
  vm_compute. repeat split; congruence.
Qed.

(** C6. With an interface named twice, [create_bridge] pairs by name:
    for "eth0:eth1:eth0:eth2" the fourth interface is bridged with the
    first, which drops its link to the second, and the third is left
    without a peer; initialization succeeds all the same. *)
Theorem initialize_pairs_by_name :
  exists afpc,
    afpacket_daq_initialize (hdrs := linux) host_env
      (config_of "eth0:eth1:eth0:eth2" DAQ_MODE_INLINE []) = Ret (inr afpc) /\
    map (fun i => (self i, name i, peer i)) (instances afpc)
    = [ (3%nat, "eth2"%string, Some 0%nat); (2%nat, "eth0"%string, None);
        (1%nat, "eth1"%string, Some 0%nat); (0%nat, "eth0"%string, Some 3%nat) ] /\
    exists a b,
      find_instance 1 (instances afpc) = Some b /\
      find_instance 0 (instances afpc) = Some a /\
      peer b = Some (self a) /\ peer a <> Some (self b).
Proof.
  eexists. split; [vm_compute; reflexivity|].
  split; [vm_compute; reflexivity|].
  eexists. eexists.
  split; [vm_compute; reflexivity|].
  split; [vm_compute; reflexivity|].
  vm_compute. split; congruence.
Qed.


Lemma initialize_rejects_empty_tokens_witness :
  afpacket_daq_initialize (hdrs := linux) host_env (config_of "eth0::eth1" DAQ_MODE_PASSIVE [])
  = Ret (inl (DAQ_ERROR, Err_invalid_interface_specification "eth0::eth1")).
Proof.
  apply (initialize_rejects_empty_tokens (hdrs := linux) host_env
           (config_of "eth0::eth1" DAQ_MODE_PASSIVE [])).
  right. right. split; [reflexivity|]. exists "eth0"%string, "eth1"%string. reflexivity.
Defined.

Lemma initialize_rejects_bad_tokens_witness :
  exists e,
    afpacket_daq_initialize (hdrs := linux) host_env
      (config_of "eth0:eth1:eth2" DAQ_MODE_INLINE []) = Ret (inl (DAQ_ERROR, e)).
Proof.
  apply (initialize_rejects_bad_tokens (hdrs := linux) host_env
           (config_of "eth0:eth1:eth2" DAQ_MODE_INLINE [])).
  - reflexivity.
  - right. right. split; [discriminate|reflexivity].
Defined.

Lemma initialize_pairs_distinct_names_witness :
  exists afpc,
    afpacket_daq_initialize (hdrs := linux) host_env
      (config_of "eth0:eth1:eth2:eth3" DAQ_MODE_INLINE []) = Ret (inr afpc) /\
    map name (instances afpc) = ["eth3"; "eth2"; "eth1"; "eth0"]%string /\
    forall a, In a (instances afpc) -> paired (instances afpc) a.
Proof.
  eexists. split; [vm_compute; reflexivity|].
  apply (initialize_pairs_distinct_names (hdrs := linux) host_env
           (config_of "eth0:eth1:eth2:eth3" DAQ_MODE_INLINE [])).
  - reflexivity.
  - discriminate.
  - vm_compute. repeat constructor; cbn; intuition discriminate.
  - vm_compute; reflexivity.
Defined.


Lemma stop_takes_last_reading_witness :
  exists c1,
    afpacket_daq_stop (exts := linux_exts) kernel_after_burst two_passive = (c1, DAQ_SUCCESS) /\
    hw_packets_received (stats c1) = 1490 /\ hw_packets_dropped (stats c1) = 10 /\
    afpacket_daq_get_stats (fun _ => Some {| tp_packets := 7; tp_drops := 0 |}) c1
    = (c1, stats c1, DAQ_SUCCESS).
Proof.
  destruct (stop_takes_last_reading (exts := linux_exts) kernel_after_burst two_passive)
    as (c1 & Hstop & _ & _ & Hr & Hd & _ & _ & _ & Hfrozen).
  - reflexivity.
  - intros i k [<-|[<-|[]]]; cbn; intros [= <-]; cbn; lia.
  - cbn; lia.
  - cbn; lia.
  - exists c1. split; [exact Hstop|]. rewrite Hr, Hd.
    split; [reflexivity|]. split; [reflexivity|]. apply Hfrozen.
Defined.

Lemma get_stats_adds_kernel_counters_witness :
  exists c' s,
    afpacket_daq_get_stats kernel_after_burst two_passive = (c', s, DAQ_SUCCESS) /\
    hw_packets_received s = 1490 /\ hw_packets_dropped s = 10.
Proof.
  destruct (get_stats_adds_kernel_counters kernel_after_burst two_passive)
    as (c' & s & Hcall & _ & _ & _ & _ & Hhw & _).
  - intros i k [<-|[<-|[]]]; cbn; intros [= <-]; cbn; lia.
  - cbn; lia.
  - cbn; lia.
  - exists c', s. split; [exact Hcall|].
    destruct (Hhw eq_refl) as (Hr & Hd & _). rewrite Hr, Hd. split; reflexivity.
Defined.

Lemma initialize_instances_witness :
  exists afpc,
    afpacket_daq_initialize (hdrs := linux) host_env
      (config_of "eth0:eth1:eth2" DAQ_MODE_PASSIVE []) = Ret (inr afpc) /\
    map name (instances afpc) = ["eth2"; "eth1"; "eth0"]%string /\
    intf_count afpc = 3.
Proof.
  eexists. split; [vm_compute; reflexivity|].
  edestruct (initialize_instances (hdrs := linux) host_env
               (config_of "eth0:eth1:eth2" DAQ_MODE_PASSIVE []))
    as (Hn & _ & Hc & _).
  - reflexivity.
  - vm_compute; reflexivity.
  - split; [exact Hn|exact Hc].
Defined.

Lemma initialize_device_index_witness :
  exists afpc,
    afpacket_daq_initialize (hdrs := linux) host_env
      (config_of "eth0:eth1" DAQ_MODE_INLINE []) = Ret (inr afpc) /\
    afpacket_daq_get_device_index afpc "eth1" = inl 3 /\
    afpacket_daq_get_device_index afpc "eth7" = inr DAQ_ERROR_NODEV.
Proof.
  eexists. split; [vm_compute; reflexivity|].
  edestruct (initialize_device_index (hdrs := linux) host_env
               (config_of "eth0:eth1" DAQ_MODE_INLINE []))
    as (Hin & _).
  - reflexivity.
  - vm_compute; reflexivity.
  - destruct Hin as (idx & _ & _); [vm_compute; auto|].
    split; vm_compute; reflexivity.
Defined.

Lemma inject_without_egress_witness :
  afpacket_daq_inject (hdrs := linux) 9 (fun _ => 0) 60 false m_bridge
  = Ret (with_afpc (DPE Err_no_inject_instance (afpc m_bridge)) m_bridge, DAQ_ERROR).
Proof.
  apply (inject_without_egress (hdrs := linux)). left.
  intros i [<-|[<-|[]]]; cbn; lia.
Defined.

Lemma inject_transmits_and_counts_witness :
  exists m',
    afpacket_daq_inject (hdrs := linux) 2 (fun _ => 0) 60 false m_bridge
    = Ret (m', DAQ_SUCCESS) /\
    packets_injected (stats (afpc m')) = 1 /\
    trace m' = [Sys_send 4].
Proof.
  edestruct (inject_transmits_and_counts (hdrs := linux) 2 (fun _ => 0) 60 false m_bridge)
    as (m1 & rc & m' & Htx & Hinj & Htr & _ & Hok & _).
  - exists [hd (eth0_started zero_frame zero_frame) (bridged_pair (user_frame 100 1) 0)],
           (@nil AFPacketInstance).
    split; [reflexivity|]. split; [reflexivity|].
    intros j [<-|[]]. cbn. lia.
  - reflexivity.
  - eexists. split; [reflexivity|]. right. exists 0%nat. eexists. split; reflexivity.
  - vm_compute in Htx. injection Htx as <- <-.
    exists m'. split; [exact Hinj|].
    destruct (Hok eq_refl) as (Hc & _). rewrite Hc, Htr. split; reflexivity.
Defined.

Lemma inject_tx_ring_full_witness :
  afpacket_daq_inject (hdrs := linux) 2 (fun _ => 0) 60 false m_bridge_tx_full
  = Ret (with_afpc (DPE Err_tx_ring_full (afpc m_bridge_tx_full)) m_bridge_tx_full,
         DAQ_ERROR_AGAIN).
Proof.
  eapply (inject_tx_ring_full (hdrs := linux)).
  - exists [hd (eth0_started zero_frame zero_frame) (bridged_pair (user_frame 100 1) 1)],
           (@nil AFPacketInstance).
    split; [reflexivity|]. split; [reflexivity|].
    intros j [<-|[]]. cbn. lia.
  - exists 1%nat. eexists. exists 0%nat. eexists.
    split; [reflexivity|]. split; [reflexivity|].
    split; [cbn; lia|]. split; [reflexivity|]. split; [reflexivity|]. cbn. lia.
Defined.

Lemma transmit_queues_frame_witness :
  exists m' e',
    afpacket_transmit_packet (hdrs := linux) (Some 1%nat) (fun j => j) 60 m_bridge
    = Ret (m', DAQ_SUCCESS) /\
    find_instance 1 (instances (afpc m')) = Some e' /\
    cursor (tx_ring e') = Some 1%nat /\
    bytes (mem e' 0x20000) 32 = 0 /\ bytes (mem e' 0x20000) 91 = 59.
Proof.
  edestruct (transmit_queues_frame (hdrs := linux) 1 (fun j => j) 60 m_bridge)
    as (m' & e' & Htx & Hfind & Hcur & _ & _ & _ & Hbytes & _).
  - reflexivity.
  - cbn; lia.
  - reflexivity.
  - cbn; congruence.
  - vm_compute; congruence.
  - lia.
  - vm_compute; congruence.
  - exists m', e'. split; [exact Htx|]. split; [exact Hfind|]. split; [exact Hcur|].
    split; [apply (Hbytes 0); lia|apply (Hbytes 59); lia].
Defined.

Lemma transmit_failed_send_blocks_ring_witness :
  exists m',
    afpacket_transmit_packet (hdrs := linux) (Some 1%nat) (fun j => j) 60 m_bridge_send_fails
    = Ret (m', DAQ_ERROR) /\
    afpacket_transmit_packet (hdrs := linux) (Some 1%nat) (fun j => j) 60 m'
    = Ret (m', DAQ_ERROR_AGAIN).
Proof.
  edestruct (transmit_failed_send_blocks_ring (hdrs := linux) 1 (fun j => j) 60
               m_bridge_send_fails)
    as (m' & Htx & _ & _ & Hagain).
  - cbn; lia.
  - reflexivity.
  - cbn; lia.
  - reflexivity.
  - reflexivity.
  - exists m'. split; [exact Htx|apply Hagain].
Defined.


Lemma receive_retries_interrupted_polls_witness :
  afpacket_daq_msg_receive (hdrs := linux) 1
    (m_idle [PollInterrupted false; PollInterrupted true; PollInterrupted false;
             PollTimeout; PollFailed])
  = Ret (machine_of (set_break_loop 1 (afpc (m_idle []))) [PollFailed],
         DAQ_SUCCESS, MsgNull).
Proof.
  edestruct (receive_retries_interrupted_polls (hdrs := linux) 0
               (m_idle [PollInterrupted false; PollInterrupted true; PollInterrupted false;
                        PollTimeout; PollFailed]) []
               (eth0_started zero_frame zero_frame) [] [false; true; false] [PollFailed])
    as (Htimeout & _).
  - reflexivity.
  - reflexivity.
  - cbn. repeat constructor. intros [].
  - intros i [<-|[]]. cbn. eauto.
  - intros i [<-|[]]. reflexivity.
  - apply Htimeout. reflexivity.
Defined.

Lemma receive_breaks_after_ready_poll_witness :
  afpacket_daq_msg_receive (hdrs := linux) 1
    (m_idle [PollInterrupted true; PollReady [1]; PollTimeout])
  = Ret (machine_of (set_break_loop 1 (afpc (m_idle []))) [PollTimeout],
         DAQ_SUCCESS, MsgNull).
Proof.
  edestruct (receive_breaks_after_ready_poll (hdrs := linux) 0
               (m_idle [PollInterrupted true; PollReady [1]; PollTimeout]) []
               (eth0_started zero_frame zero_frame) [] [true] [1] [PollTimeout])
    as (Hbreak & _).
  - reflexivity.
  - reflexivity.
  - cbn. repeat constructor. intros [].
  - intros i [<-|[]]. cbn. eauto.
  - intros i [<-|[]]. reflexivity.
  - reflexivity.
  - repeat constructor.
  - apply Hbreak. right. left. reflexivity.
Defined.

Lemma receive_without_packet_witness :
  afpacket_daq_msg_receive (hdrs := linux) 1 (m_idle [PollTimeout; PollFailed])
  = Ret (m_idle [PollFailed], DAQ_SUCCESS, MsgNull).
Proof.
  edestruct (receive_without_packet (hdrs := linux) 0 (m_idle [PollTimeout; PollFailed]) []
               (eth0_started zero_frame zero_frame) [])
    as (Htimeout & _).
  - reflexivity.
  - reflexivity.
  - cbn. repeat constructor. intros [].
  - intros i [<-|[]]. cbn. eauto.
  - intros i [<-|[]]. reflexivity.
  - apply (Htimeout [PollFailed]). reflexivity.
Defined.


Lemma layout_frame_size_fits_witness :
  layout_frame_size (hdrs := linux) 32 1518 mod 16 = 0 /\
  1574 <= layout_frame_size (hdrs := linux) 32 1518 < 1622.
Proof.
  apply (layout_frame_size_fits (hdrs := linux) 4 32 1518);
    first [reflexivity | vm_compute; first [reflexivity | congruence]].
Defined.

Lemma calculate_layout_within_budget_witness :
  exists layout,
    calculate_layout (hdrs := linux) ctx_eth0_16M no_layout 32 3
    = Ret (ctx_eth0_16M, layout, DAQ_SUCCESS) /\
    tp_frame_nr layout * tp_frame_size layout <= 16 * 1024 * 1024.
Proof.
  edestruct (calculate_layout_within_budget (hdrs := linux) ctx_eth0_16M no_layout 32 3)
    as (layout & Hcall & Hfit & _).
  - vm_compute; split; reflexivity.
  - vm_compute; split; [reflexivity|congruence].
  - vm_compute; split; [congruence|reflexivity].
  - exists layout. split; [exact Hcall|exact Hfit].
Defined.

Lemma set_up_ring_frames_disjoint_witness :
  exists ring',
    set_up_ring true ctx_eth0_16M eth0_mapped ring_2x2
    = Ret (ctx_eth0_16M, ring', DAQ_SUCCESS) /\
    forall j e, entries ring' !! j = Some e ->
      0x10000 <= raw e /\ raw e + 2048 <= 0x10000 + 8192.
Proof.
  edestruct (set_up_ring_frames_disjoint ctx_eth0_16M eth0_mapped ring_2x2)
    as (ring' & Hcall & _ & Hin & _).
  - cbn; lia.
  - cbn; lia.
  - cbn; lia.
  - reflexivity.
  - cbn; lia.
  - exists ring'. split; [exact Hcall|]. exact Hin.
Defined.

Lemma create_ring_falls_back_witness :
  exists l,
    create_ring (hdrs := linux) (os_rx_ring os_eth0_retry) ctx_eth0_16M eth0_created no_ring
    = Ret (set_ring_size (tp_block_size l * tp_block_nr l) (set_layout l no_ring), None) /\
    tp_block_size l = 16384.
Proof.
  edestruct (create_ring_falls_back (hdrs := linux) (os_rx_ring os_eth0_retry) ctx_eth0_16M
               eth0_created no_ring 2)
    as (l & Hl & _ & Hcreated & _).
  - vm_compute. repeat split; congruence.
  - lia.
  - intros o' Ho'. assert (o' = 3) as -> by lia. reflexivity.
  - exists l. split; [apply Hcreated; reflexivity|].
    specialize (Hl no_layout). vm_compute in Hl. injection Hl as <-. reflexivity.
Defined.

Lemma start_instance_maps_rings_witness :
  exists instance',
    start_instance (hdrs := linux) (os_all_granted 0) ctx_eth0_16M eth0_created
    = Ret (instance', None) /\
    tp_version instance' = 1 /\ start (rx_ring instance') = 0x7f0000000000 /\
    cursor (rx_ring instance') = Some 0%nat.
Proof.
  edestruct (start_instance_maps_rings (hdrs := linux) (os_all_granted 0) ctx_eth0_16M
               eth0_created 32 0x7f0000000000)
    as (instance' & Hrun & Hst & _).
  - unfold os_grants. cbn. repeat split; lia.
  - vm_compute. repeat split; congruence.
  - vm_compute; congruence.
  - vm_compute; congruence.
  - reflexivity.
  - exists instance'. split; [exact Hrun|].
    destruct Hst as (_ & _ & _ & _ & _ & Hv & _ & _ & Hs & Hc & _).
    split; [exact Hv|]. split; [exact Hs|exact Hc].
Defined.

Lemma initialize_then_start_witness :
  exists afpc afpc',
    afpacket_daq_initialize (hdrs := linux) host_env (config_of "eth0:eth1" DAQ_MODE_INLINE [])
    = Ret (inr afpc) /\
    afpacket_daq_start (hdrs := linux) os_all_granted afpc = Ret (afpc', DAQ_SUCCESS, None) /\
    afpacket_daq_check_status afpc' = DAQ_STATE_STARTED /\
    length (instances afpc') = 2%nat.
Proof.
  eexists.
  edestruct (initialize_then_start (hdrs := linux) host_env
               (config_of "eth0:eth1" DAQ_MODE_INLINE []))
    with (os := os_all_granted) (hdrlen := 32)
         (buffer := fun p : nat => 0x7f0000000000 + Z.of_nat p * 2 ^ 32)
    as (afpc' & Hstart & Hstate & _ & _ & _ & Hall).
  - reflexivity.
  - vm_compute; reflexivity.
  - intros p. unfold os_grants. cbn. repeat split; lia.
  - vm_compute. repeat split; congruence.
  - vm_compute; congruence.
  - vm_compute; congruence.
  - exists afpc'. split; [reflexivity|]. split; [exact Hstart|]. split; [exact Hstate|].
    apply Forall2_length in Hall. rewrite <- Hall. reflexivity.
Defined.

Lemma start_stops_at_first_failure_witness :
  exists afpc',
    afpacket_daq_start (hdrs := linux) os_first_is_loopback ctx_two_created
    = Ret (afpc', DAQ_ERROR, Some (Start_invalid_interface_type "eth0" 772)) /\
    afpacket_daq_check_status afpc' = DAQ_STATE_INITIALIZED /\
    map tp_version (instances afpc') = [1; 0].
Proof.
  edestruct (start_stops_at_first_failure (hdrs := linux) os_first_is_loopback ctx_two_created
               [eth1_created])
    with (i := eth0_created) (after := @nil AFPacketInstance)
    as (_ & Hether).
  - reflexivity.
  - constructor; [vm_compute; reflexivity|constructor].
  - destruct (Hether 772) as (_ & afpc' & Hstart & Hinsts & Hstate & _).
    + reflexivity.
    + reflexivity.
    + reflexivity.
    + reflexivity.
    + lia.
    + vm_compute; congruence.
    + exists afpc'. split; [exact Hstart|]. split; [exact Hstate|].
      rewrite Hinsts. reflexivity.
Defined.

Lemma read_variables_fanout_witness :
  exists size_str dbg fo,
    read_variables (hdrs := linux)
      [("fanout_flag", Some "defrag"); ("buffer_size_mb", Some "64"); ("verbose", None)]%string
      (None, 0, no_fanout)
    = inr (size_str, dbg, fo) /\
    fanout_enabled fo = false /\ fanout_flag_defrag fo = true /\ size_str = Some "64"%string.
Proof.
  eexists. eexists. eexists. split; [vm_compute; reflexivity|].
  edestruct (read_variables_fanout (hdrs := linux)
               [("fanout_flag", Some "defrag"); ("buffer_size_mb", Some "64");
                ("verbose", None)]%string)
    as (_ & _ & Hd & _ & Hs).
  - vm_compute; reflexivity.
  - split; [reflexivity|]. split; [apply Hd; split; [reflexivity|left; reflexivity]|].
    exact Hs.
Defined.

Lemma initialize_rejects_unknown_device_witness :
  exists e,
    afpacket_daq_initialize (hdrs := linux) host_env
      (config_of "eth0:wlan0" DAQ_MODE_PASSIVE []) = Ret (inl (DAQ_ERROR, e)).
Proof.
  apply (initialize_rejects_unknown_device (hdrs := linux) host_env
           (config_of "eth0:wlan0" DAQ_MODE_PASSIVE []) "wlan0").
  - reflexivity.
  - vm_compute. auto.
  - reflexivity.
Defined.
